(** * BMC provisioning and recovery controller (ipu.py)

    A shallow embedding of [ipu.py]: the Redfish/SSH driven installer of an
    IPU card ([IPUBMC]) and the cluster node built on it ([IPUClusterNode]).

    The Python code talks to the outside world (HTTP requests, SSH sessions,
    sleeps, the monotonic clock, a local HTTP server).  Those calls are the
    operations of an abstract [Backend]; every call is appended to a trace of
    [Event]s, so that properties such as "InsertMedia is posted once" are
    statements about the trace.  Python exceptions are the [Raise] outcome of
    a state-and-error monad; [while] loops take a fuel argument. *)

From Stdlib Require Import ZArith String List Bool Ascii Lia QArith Lqa.
From Stdlib Require Import DecimalString.
Import ListNotations.

Local Open Scope string_scope.
Local Open Scope Z_scope.

(* ================================================================== *)
(** ** Python strings *)

Module PyStr.

(** The double-quote character, as a one-character string. *)
Definition dq : string := String (ascii_of_nat 34) EmptyString.

(** The single-quote character. *)
Definition sq : string := String (ascii_of_nat 39) EmptyString.

(** [str.isspace] on the code points below 256: TAB..CR, FS..US, space,
    NEL and NBSP.  It is also the class [\s] of [re] on [str] patterns. *)
Definition is_space (c : ascii) : bool :=
  let n := nat_of_ascii c in
  ((9 <=? n) && (n <=? 13) || (28 <=? n) && (n <=? 32)
   || (n =? 133) || (n =? 160))%nat.

Definition is_digit (c : ascii) : bool :=
  let n := nat_of_ascii c in ((48 <=? n) && (n <=? 57))%nat.

Definition digit_val (c : ascii) : Z := Z.of_nat (nat_of_ascii c) - 48.

Definition is_slash (c : ascii) : bool := Ascii.eqb c "/"%char.

Fixpoint lstrip (s : string) : string :=
  match s with
  | EmptyString => EmptyString
  | String c s' => if is_space c then lstrip s' else s
  end.

Fixpoint rstrip (s : string) : string :=
  match s with
  | EmptyString => EmptyString
  | String c s' =>
      match rstrip s' with
      | EmptyString => if is_space c then EmptyString else String c EmptyString
      | r => String c r
      end
  end.

(** [s.strip()] *)
Definition strip (s : string) : string := rstrip (lstrip s).

(** The maximal run of non-space characters at the head of [s]. *)
Fixpoint take_nonspace (s : string) : string :=
  match s with
  | EmptyString => EmptyString
  | String c s' => if is_space c then EmptyString else String c (take_nonspace s')
  end.

(** [s.split()[0]]: [None] stands for the [IndexError] of an empty split. *)
Definition first_token (s : string) : option string :=
  match lstrip s with
  | EmptyString => None
  | t => Some (take_nonspace t)
  end.

(** Digits of a decimal literal, single underscores allowed between digits. *)
Fixpoint int_digits (s : string) (acc : Z) (after_digit : bool) : option Z :=
  match s with
  | EmptyString => if after_digit then Some acc else None
  | String c s' =>
      if is_digit c then int_digits s' (10 * acc + digit_val c) true
      else if Ascii.eqb c "_"%char then
             if after_digit then int_digits s' acc false else None
           else None
  end.

(** [int(s)] for a [str] argument in base 10: surrounding white space is
    dropped, one sign is allowed; [None] stands for [ValueError]. *)
Definition py_int (s : string) : option Z :=
  match strip s with
  | String "-" s' => option_map Z.opp (int_digits s' 0 false)
  | String "+" s' => int_digits s' 0 false
  | s' => int_digits s' 0 false
  end.

(** [str(n)] for an integer. *)
Definition py_str (n : Z) : string := NilZero.string_of_int (Z.to_int n).

(** [needle in s] on strings: substring containment. *)
Fixpoint contains (needle s : string) : bool :=
  String.prefix needle s
  || match s with
     | EmptyString => false
     | String _ s' => contains needle s'
     end.

(** [s.replace(old, new)] for a non-empty [old]: occurrences are replaced
    from the left and do not overlap; [skip] counts the characters of the
    occurrence just replaced that are still to be dropped. *)
Fixpoint replace_from (old new s : string) (skip : nat) : string :=
  match s with
  | EmptyString => EmptyString
  | String c s' =>
      match skip with
      | S k => replace_from old new s' k
      | O =>
          if String.prefix old s
          then new ++ replace_from old new s' (String.length old - 1)
          else String c (replace_from old new s' O)
      end
  end.

Definition replace (old new s : string) : string := replace_from old new s O.

Fixpoint has_slash (s : string) : bool :=
  match s with
  | EmptyString => false
  | String c s' => is_slash c || has_slash s'
  end.

(** [os.path.basename]: what follows the last slash. *)
Fixpoint basename (p : string) : string :=
  match p with
  | EmptyString => EmptyString
  | String c p' =>
      if has_slash p' then basename p'
      else if is_slash c then p' else p
  end.

(** [p[:p.rfind('/') + 1]] *)
Fixpoint upto_last_slash (p : string) : string :=
  match p with
  | EmptyString => EmptyString
  | String c p' =>
      if has_slash p' then String c (upto_last_slash p')
      else if is_slash c then String c EmptyString else EmptyString
  end.

Fixpoint all_slashes (s : string) : bool :=
  match s with
  | EmptyString => true
  | String c s' => is_slash c && all_slashes s'
  end.

Fixpoint rstrip_slash (s : string) : string :=
  match s with
  | EmptyString => EmptyString
  | String c s' =>
      match rstrip_slash s' with
      | EmptyString => if is_slash c then EmptyString else String c EmptyString
      | r => String c r
      end
  end.

(** [os.path.dirname] *)
Definition dirname (p : string) : string :=
  let head := upto_last_slash p in
  if negb (String.eqb head "") && negb (all_slashes head)
  then rstrip_slash head else head.

(** [s.split(':')[0]] *)
Fixpoint before_colon (s : string) : string :=
  match s with
  | EmptyString => EmptyString
  | String c s' =>
      if Ascii.eqb c ":"%char then EmptyString else String c (before_colon s')
  end.

(** The characters [shlex.quote] leaves alone: [[A-Za-z0-9_@%+=:,./-]]. *)
Definition is_shell_safe (c : ascii) : bool :=
  let n := nat_of_ascii c in
  (is_digit c
   || (65 <=? n) && (n <=? 90) || (97 <=? n) && (n <=? 122)
   || existsb (Ascii.eqb c)
        ["_"; "@"; "%"; "+"; "="; ":"; ","; "."; "/"; "-"]%char)%nat.

Fixpoint all_shell_safe (s : string) : bool :=
  match s with
  | EmptyString => true
  | String c s' => is_shell_safe c && all_shell_safe s'
  end.

(** [shlex.quote] *)
Definition shlex_quote (s : string) : string :=
  if String.eqb s "" then sq ++ sq
  else if all_shell_safe s then s
  else sq ++ replace sq (sq ++ dq ++ sq ++ dq ++ sq) s ++ sq.

End PyStr.

(* ================================================================== *)
(** ** The two regular expressions of the version probes *)

Module Re.
Import PyStr.

(** [re.search(r"Version: (\S+)", contents)], group 1: the leftmost place
    where ["Version: "] is followed by a non-space character, and the
    maximal run of non-space characters from there. *)
Fixpoint search_issue_version (contents : string) : option string :=
  let here :=
    if String.prefix "Version: " contents
    then match take_nonspace (String.substring 9 (String.length contents - 9) contents) with
         | EmptyString => None
         | g => Some g
         end
    else None in
  match here with
  | Some g => Some g
  | None =>
      match contents with
      | EmptyString => None
      | String _ rest => search_issue_version rest
      end
  end.

Fixpoint all_digits (s : string) : bool :=
  match s with
  | EmptyString => true
  | String c s' => is_digit c && all_digits s'
  end.

Definition is_number (s : string) : bool :=
  negb (String.eqb s "") && all_digits s.

Fixpoint has_newline (s : string) : bool :=
  match s with
  | EmptyString => false
  | String c s' => (nat_of_ascii c =? 10)%nat || has_newline s'
  end.

(** Cuts [s] at its last dot: [Some (before, after)]. *)
Fixpoint rsplit_dot (s : string) : option (string * string) :=
  match s with
  | EmptyString => None
  | String c s' =>
      match rsplit_dot s' with
      | Some (b, a) => Some (String c b, a)
      | None => if Ascii.eqb c "."%char then Some (EmptyString, s') else None
      end
  end.

(** [re.search(r"^MEV-.*\.([0-9]+\.[0-9]+\.[0-9]+)\.[0-9]+$", s)], group 1,
    for a stripped [s].  The four numbers hold no dot, so they are the last
    four dot-separated fields whatever [.*] takes; [.] does not match a
    newline. *)
Definition match_mev_version (s : string) : option string :=
  match rsplit_dot s with
  | Some (s3, build) =>
      match rsplit_dot s3 with
      | Some (s2, patch) =>
          match rsplit_dot s2 with
          | Some (s1, minor) =>
              match rsplit_dot s1 with
              | Some (head, major) =>
                  if String.prefix "MEV-" head
                     && negb (has_newline head)
                     && is_number major && is_number minor
                     && is_number patch && is_number build
                  then Some (major ++ "." ++ minor ++ "." ++ patch)
                  else None
              | None => None
              end
          | None => None
          end
      | None => None
      end
  | None => None
  end.

End Re.
(* ================================================================== *)
(** ** Values exchanged with the outside world *)

(** A JSON value, as [requests] hands it over and takes it. *)
#[warnings="-register-all"]
Inductive JVal :=
| JNull
| JBool (b : bool)
| JNum (n : Z)
| JStr (s : string)
| JObj (fields : list (string * JVal)).

Definition JDict := list (string * JVal).

(** [data.get(key)] *)
Fixpoint dict_get (key : string) (d : JDict) : option JVal :=
  match d with
  | [] => None
  | (k, v) :: d' => if String.eqb k key then Some v else dict_get key d'
  end.

(** A [requests.Response]: the status code and what [response.json()]
    gives, [None] when the body is not JSON. *)
Record Response := mkResponse { status_code : Z; json_body : option JDict }.

(** The status codes on which [response.raise_for_status()] raises. *)
Definition is_error_status (status : Z) : bool :=
  (400 <=? status) && (status <? 600).

(** The result object of [run]. *)
Record RunResult := mkRunResult { out : string; err : string; returncode : Z }.

(** Modelled from the spec: [Result.success()] of the remote-command
    executor ([host.py], not part of the sources at hand): the command
    returned exit code 0. *)
Definition success (r : RunResult) : bool := returncode r =? 0.

(** The arguments of [ssh_connect]; [None] is an argument left out. *)
Record Login := mkLogin {
  login_user : string;
  login_password : option string;
  login_discover_auth : option bool;
  login_timeout : option Z
}.

(** [urllib.parse.urlparse], as far as the code reads its result. *)
Record UrlParts := mkUrl { scheme : string; netloc : string; path : string }.

Inductive Event :=
| EvHead (url : string)
| EvGet (url user password : string)
| EvPost (url : string) (data : JDict) (user password : string)
| EvPatch (url : string) (data : JDict) (user password : string)
| EvSshConnect (host : string) (login : Login)
| EvRun (host cmd : string)
| EvReadFile (host file : string)
| EvWrite (host file contents : string)
| EvPing (host : string)
| EvWaitPing (host : string)
| EvSleep (seconds : Z)
| EvPortToIp (port : string)
| EvServerStart (dir : string) (port : Z)
| EvServerStop
| EvRunInContainer (cmd : string)
| EvColdBoot (bmc : string).

(** Python exceptions.  [SystemExit] is what [logger.error_and_exit]
    ends in; it is not an [Exception], so [except Exception] lets it pass.
    [HostError] is any exception raised inside the [host] and [common]
    layers.  The text of a caught exception that the code interpolates into
    a message is left out of the message. *)
Inductive Exn :=
| RuntimeError (msg : string)
| ValueError (msg : string)
| AssertionError
| AttributeError
| IndexError
| ZeroDivisionError
| OverflowError
| RequestException
| JSONDecodeError
| HostError
| SystemExit (msg : string).

Definition is_Exception (e : Exn) : bool :=
  match e with SystemExit _ => false | _ => true end.

(** The outside world: Python library calls and the collaborators of
    [ipu.py] ([host], [common], the host's own BMC), over a state [E] of
    their own.  A [bool] or [option] result is [false]/[None] when the call
    raises. *)
Class Backend (E : Type) := {
  urlparse : string -> option UrlParts;
  repr : string -> string;
  requests_head : string -> E -> option (option string) * E;
  requests_get : string -> string -> string -> E -> option Response * E;
  requests_post : string -> JDict -> string -> string -> E -> option Response * E;
  requests_patch : string -> JDict -> string -> string -> E -> option Response * E;
  ssh_connect : string -> Login -> E -> bool * E;
  host_run : string -> string -> E -> option RunResult * E;
  host_read_file : string -> string -> E -> option string * E;
  host_write : string -> string -> string -> E -> bool * E;
  host_ping : string -> E -> bool * E;
  host_wait_ping : string -> E -> bool * E;
  time_sleep : Z -> E -> E;
  time_monotonic : E -> Q;
  path_exists : string -> E -> bool;
  port_to_ip : string -> E -> option string * E;
  http_server_start : string -> Z -> E -> option Z * E;
  http_server_stop : E -> E;
  run_in_container : string -> E -> RunResult * E;
  bmc_cold_boot : string -> E -> bool * E
}.

(* ================================================================== *)
(** ** The monad: world passing, exceptions, fuel *)

Inductive Res (A : Type) :=
| Ok (a : A)
| Raise (e : Exn)
| OutOfFuel.
Arguments Ok {A} a.
Arguments Raise {A} e.
Arguments OutOfFuel {A}.

(** The backend's state and the calls made so far, oldest first. *)
Record World (E : Type) := mkWorld { env : E; trace : list Event }.
Arguments mkWorld {E} env trace.
Arguments env {E} w.
Arguments trace {E} w.

Definition M (E A : Type) : Type := World E -> Res A * World E.

Section Monad.
Context {E : Type}.

Definition ret {A} (a : A) : M E A := fun w => (Ok a, w).

Definition bind {A B} (m : M E A) (k : A -> M E B) : M E B :=
  fun w =>
    match m w with
    | (Ok a, w') => k a w'
    | (Raise e, w') => (Raise e, w')
    | (OutOfFuel, w') => (OutOfFuel, w')
    end.

Definition raise {A} (e : Exn) : M E A := fun w => (Raise e, w).

Definition out_of_fuel {A} : M E A := fun w => (OutOfFuel, w).

(** [try: m  except ...]: [handler e] is the clause that takes [e], if
    there is one. *)
Definition catch {A} (m : M E A) (handler : Exn -> option (M E A)) : M E A :=
  fun w =>
    match m w with
    | (Raise e, w') =>
        match handler e with
        | Some h => h w'
        | None => (Raise e, w')
        end
    | r => r
    end.

(** [try: m  except Exception: h] *)
Definition try_except {A} (m h : M E A) : M E A :=
  catch m (fun e => if is_Exception e then Some h else None).

(** [m] followed by [cleanup] on return and on every exception, the
    [__exit__] of a [with] block. *)
Definition finally {A} (m : M E A) (cleanup : M E unit) : M E A :=
  fun w =>
    match m w with
    | (Ok a, w') => bind cleanup (fun _ => ret a) w'
    | (Raise e, w') => bind cleanup (fun _ => raise e) w'
    | (OutOfFuel, w') => (OutOfFuel, w')
    end.

(** [assert b] *)
Definition py_assert (b : bool) : M E unit :=
  if b then ret tt else raise AssertionError.

(** Modelled from the spec: [logger.error_and_exit] ([logger.py], not part
    of the sources at hand) logs the message and terminates the process:
    an unrecoverable condition ends the whole operation. *)
Definition error_and_exit {A} (msg : string) : M E A := raise (SystemExit msg).

(** A call into the outside world: recorded, then answered by the backend. *)
Definition call {A} (e : Event) (op : E -> A * E) : M E A :=
  fun w => let (a, s) := op (env w) in (Ok a, mkWorld s (trace w ++ [e])).

(** A call that raises [exn] when the backend answers [None]. *)
Definition call_opt {A} (exn : Exn) (e : Event) (op : E -> option A * E) : M E A :=
  bind (call e op)
       (fun r => match r with Some a => ret a | None => raise exn end).

Definition call_ok (e : Event) (op : E -> bool * E) : M E unit :=
  bind (call e op) (fun b => if b then ret tt else raise HostError).

End Monad.

Declare Scope py_scope.
Delimit Scope py_scope with py.
Notation "x <- m ;; k" := (bind m (fun x => k))
  (at level 61, m at next level, right associativity) : py_scope.
Notation "m ;; k" := (bind m (fun _ => k))
  (at level 61, right associativity) : py_scope.
Local Open Scope py_scope.

(* ================================================================== *)
(** ** Configuration records *)

(** Modelled from the spec: [BmcConfig] and [NodeConfig] ([bmc.py] and
    [clustersConfig.py], not among the sources at hand), with the fields
    [ipu.py] reads; a BMC is an endpoint [{address, username, password}]. *)
Record BmcConfig := mkBmcConfig {
  bmc_url : string;
  bmc_user : string;
  bmc_password : string
}.

Record NodeConfig := mkNodeConfig {
  ip : option string;
  bmc : option BmcConfig;
  dpu_host : option string
}.

(** Modelled from the spec: the base class [BMC] ([bmc.py], not among the
    sources at hand) keeps the endpoint it is built from, [url], [user] and
    [password]; an [IPUBMC] adds [_host_bmc], the BMC of the host the card
    sits in. *)
Record IPUBMC := mkIPUBMC {
  self_url : string;
  self_user : string;
  self_password : string;
  _host_bmc : option string
}.

(** [IPUBMC.__init__] *)
Definition IPUBMC_init (bmc_config : BmcConfig) (host_bmc : option string) : IPUBMC :=
  let password :=
    if String.eqb (bmc_password bmc_config) "calvin"
    then "calvincalvincalvin"
    else bmc_password bmc_config in
  mkIPUBMC (bmc_url bmc_config) (bmc_user bmc_config) password host_bmc.

Record IPUClusterNode := mkIPUClusterNode {
  external_port : string;
  network_api_port : string;
  config : NodeConfig
}.

(** [float(n)] raises [OverflowError] from [2^1024 - 2^970] on. *)
Definition float_overflows (n : Z) : bool := 2 ^ 1024 - 2 ^ 970 <=? Z.abs n.

Definition imc_iso : string := "/mnt/imc/acc-os.iso".

Definition imc_url_path : string := "/work/url".

(** The boot-source override bodies of the two PATCH requests. *)
Definition override_cd : JDict :=
  [("Boot", JObj [("BootSourceOverrideEnabled", JStr "Once");
                  ("BootSourceOverrideTarget", JStr "Cd")])].

Definition override_disabled : JDict :=
  [("Boot", JObj [("BootSourceOverrideEnabled", JStr "Disabled")])].

Definition pre_init_script : string :=
  "
#!/bin/sh

CURDIR=$(pwd)
WORKDIR=`dirname $(realpath $0)`

if [ -d " ++ PyStr.dq ++ "$WORKDIR" ++ PyStr.dq ++ " ]; then
    cd $WORKDIR
    if [ -e load_custom_pkg.sh ]; then
        # Fix up the cp_init.cfg file
        ./load_custom_pkg.sh
    fi
fi
cd $CURDIR
date -s " ++ PyStr.dq ++ "Thu Sep 19 08:18:22 AM EDT 2024" ++ PyStr.dq ++ "
cp /work/redfish/certs/server.key /etc/pki/ca-trust/source/anchors/
cp /work/redfish/certs/server.crt /etc/pki/ca-trust/source/anchors/
rm -rf /home/root/MtRemoteRunner # workaround to free up some space: https://issues.redhat.com/browse/IIC-372
update-ca-trust
sleep 10 # wait for ip address so that redfish starts with that in place
systemctl restart redfish
        ".

(** [s] between double quotes. *)
Definition quoted (s : string) : string := PyStr.dq ++ s ++ PyStr.dq.

(* ================================================================== *)
(** ** The program *)

Section Program.
Context {E : Type} {backend : Backend E}.

(** *** Calls into the libraries and the host layer *)

Definition sleep (seconds : Z) : M E unit :=
  call (EvSleep seconds) (fun s => (tt, time_sleep seconds s)).

(** [time.monotonic()] *)
Definition monotonic : M E Q := fun w => (Ok (time_monotonic (env w)), w).

(** [os.path.exists] *)
Definition exists_path (p : string) : M E bool :=
  fun w => (Ok (path_exists p (env w)), w).

Definition host_ssh_connect (host : string) (login : Login) : M E unit :=
  call_ok (EvSshConnect host login) (ssh_connect host login).

Definition run (host cmd : string) : M E RunResult :=
  call_opt HostError (EvRun host cmd) (host_run host cmd).

Definition read_file (host file : string) : M E string :=
  call_opt HostError (EvReadFile host file) (host_read_file host file).

Definition write (host file contents : string) : M E unit :=
  call_ok (EvWrite host file contents) (host_write host file contents).

Definition ping (host : string) : M E bool :=
  call (EvPing host) (host_ping host).

Definition wait_ping (host : string) : M E unit :=
  call_ok (EvWaitPing host) (host_wait_ping host).

Definition http_get (url user password : string) : M E Response :=
  call_opt RequestException (EvGet url user password)
           (requests_get url user password).

Definition http_post (url : string) (data : JDict) (user password : string)
  : M E Response :=
  call_opt RequestException (EvPost url data user password)
           (requests_post url data user password).

Definition http_patch (url : string) (data : JDict) (user password : string)
  : M E Response :=
  call_opt RequestException (EvPatch url data user password)
           (requests_patch url data user password).

(** [response.raise_for_status()]: [HTTPError], a [RequestException], on
    the status codes 400..599. *)
Definition raise_for_status (response : Response) : M E unit :=
  if is_error_status (status_code response)
  then raise RequestException else ret tt.

(** [response.json()] *)
Definition response_json (response : Response) : M E JDict :=
  match json_body response with
  | Some d => ret d
  | None => raise JSONDecodeError
  end.

(** [ssh_connect("root", password="", discover_auth=False)] *)
Definition root_login : Login := mkLogin "root" (Some "") (Some false) None.

(** *** Module-level functions *)

Definition is_http_url (url : string) : bool :=
  match urlparse url with
  | Some result =>
      negb (String.eqb (scheme result) "") && negb (String.eqb (netloc result) "")
  | None => false
  end.

Definition extract_server (url : string) : M E string :=
  match urlparse url with
  | Some parsed_url => ret (PyStr.before_colon (netloc parsed_url))
  | None => raise (ValueError "urlparse")
  end.

Definition url_extract_filename (url : string) : M E string :=
  match urlparse url with
  | Some parsed_url =>
      if String.eqb (path parsed_url) ""
      then raise (ValueError ("URL " ++ repr url ++ " has not path name"))
      else ret (PyStr.basename (path parsed_url))
  | None => raise (ValueError "urlparse")
  end.

Definition url_get_size (iso_path : string) : M E (option Z) :=
  v <- try_except
         (header_value <- call_opt RequestException (EvHead iso_path)
                                   (requests_head iso_path);;
          match header_value with
          | None => raise AttributeError
          | Some h =>
              match PyStr.py_int (PyStr.strip h) with
              | Some val => ret (Some val)
              | None => raise (ValueError "int")
              end
          end)
         (ret None);;
  match v with
  | None => ret None
  | Some val => if val <? 0 then ret None else ret (Some val)
  end.

(** *** [IPUBMC] *)

Definition _restart_redfish (self : IPUBMC) : M E unit :=
  let rh := self_url self in
  host_ssh_connect rh root_login;;
  run rh "systemctl restart redfish";;
  sleep 10.

Definition _create_imc_rsh (self : IPUBMC) : M E string :=
  let rsh := self_url self in
  host_ssh_connect rsh root_login;;
  ret rsh.

Definition _prepare_imc (self : IPUBMC) (server_with_key : string) : M E unit :=
  let server := server_with_key in
  host_ssh_connect server (mkLogin "root" (Some "redhat") None None);;
  imc <- _create_imc_rsh self;;
  run imc "mkdir -pm 0700 /work/redfish/certs";;
  run imc "chmod 0700 /work/redfish";;
  run imc "chmod 0700 /work/redfish/certs";;
  crt <- read_file server "/root/.local-container-registry/domain.crt";;
  write imc "/work/redfish/certs/server.crt" crt;;
  key <- read_file server "/root/.local-container-registry/domain.key";;
  write imc "/work/redfish/certs/server.key" key;;
  write imc "/work/scripts/pre_init_app.sh" pre_init_script;;
  run imc ("/usr/bin/imc-scripts/cfg_boot_options "
           ++ quoted "init_app_acc_nboot_net_name" ++ " " ++ quoted "enp0s1f0");;
  run imc ("/usr/bin/imc-scripts/cfg_boot_options "
           ++ quoted "init_app_acc_nboot_stage" ++ "  " ++ quoted "2");;
  acc_config <- read_file imc "/mnt/imc/acc_variable/acc-config.json";;
  write imc "/mnt/imc/acc_variable/acc-config.json"
        (PyStr.replace (quoted "acc_watchdog_timer" ++ ": 60")
                       (quoted "acc_watchdog_timer" ++ ": 9999") acc_config);;
  run imc "mkdir -m 0700 /work/redfish";;
  run imc "cp /etc/imc-redfish-configuration.json /work/redfish/";;
  run imc ("echo " ++ self_password self
           ++ " | bash /usr/bin/ipu-redfish-generate-password-hash.sh");;
  run imc "reboot";;
  sleep 10;;
  wait_ping imc.

Definition _get_file_size (rsh filename : string) : M E (option Z) :=
  v <- try_except
         (res <- run rsh ("du -b " ++ PyStr.shlex_quote filename);;
          if negb (returncode res =? 0) then ret None
          else match PyStr.first_token (out res) with
               | None => raise IndexError
               | Some tok =>
                   match PyStr.py_int tok with
                   | Some val => ret (Some val)
                   | None => raise (ValueError "int")
                   end
               end)
         (ret None);;
  match v with
  | None => ret None
  | Some val => if val <? 0 then ret None else ret (Some val)
  end.

Definition _cleanup_iso (self : IPUBMC) : M E unit :=
  imc <- _create_imc_rsh self;;
  run imc "rm -f /mnt/imc/acc-os.iso";;
  ret tt.

(** The two clauses are tried in the order of the source.  The text of the
    caught exception, which the source appends to the message, is left
    out. *)
Definition _requests_get (self : IPUBMC) (url : string) : M E JDict :=
  catch (response <- http_get url (self_user self) (self_password self);;
         raise_for_status response;;
         response_json response)
        (fun e => match e with
                  | RequestException => Some (error_and_exit "Request failed: ")
                  | JSONDecodeError => Some (error_and_exit "Failed to parse JSON: ")
                  | _ => None
                  end).

Definition _requests_post (self : IPUBMC) (url : string) (data : JDict) : M E unit :=
  catch (response <- http_post url data (self_user self) (self_password self);;
         raise_for_status response)
        (fun e => match e with
                  | RequestException => Some (ret tt)
                  | _ => None
                  end).

Definition _requests_patch (self : IPUBMC) (url : string) (data : JDict) : M E unit :=
  catch (response <- http_patch url data (self_user self) (self_password self);;
         raise_for_status response)
        (fun e => match e with
                  | RequestException => Some (ret tt)
                  | _ => None
                  end).

Definition redfish (self : IPUBMC) (resource : string) : string :=
  "https://" ++ self_url self ++ ":8443/redfish/v1/" ++ resource.

Definition _redfish_available (self : IPUBMC) (url : string) : M E bool :=
  let full_url := "https://" ++ url ++ ":8443/redfish/v1/Systems/1" in
  catch (response <- http_get full_url (self_user self) (self_password self);;
         raise_for_status response;;
         ret true)
        (fun e => match e with
                  | RequestException => Some (ret false)
                  | JSONDecodeError => Some (ret false)
                  | _ => None
                  end).

Definition _virtual_media_is_inserted (self : IPUBMC) (filename : string) : M E bool :=
  let url := redfish self "Systems/1/VirtualMedia/1" in
  data <- _requests_get self url;;
  match dict_get "Inserted" data with
  | Some (JBool true) =>
      match dict_get "ImageName" data with
      | Some (JStr image_name) => ret (String.eqb image_name filename)
      | _ => ret false
      end
  | _ => ret false
  end.

(** [log_progress] of [_wait_iso_downloaded]; the percentage is computed in
    floating point for the log line only, what is kept of it is whether the
    computation raises. *)
Definition log_progress (imc : string) (expected_size : Z) : M E unit :=
  fs <- _get_file_size imc imc_iso;;
  let downloaded_size := match fs with Some n => n | None => 0 end in
  if float_overflows downloaded_size || float_overflows expected_size
  then raise OverflowError
  else if expected_size =? 0 then raise ZeroDivisionError
  else ret tt.

(** The [while] loop of [_wait_iso_downloaded]. *)
Fixpoint wait_inserted (fuel : nat) (self : IPUBMC) (imc iso_path : string)
    (expected_size : Z) (filename : string) (wait_until : Q) (loop_count : Z)
  : M E unit :=
  match fuel with
  | O => out_of_fuel
  | S fuel' =>
      inserted <- _virtual_media_is_inserted self filename;;
      if inserted then ret tt
      else
        sleep 10;;
        now <- monotonic;;
        if Qle_bool wait_until now
        then raise (RuntimeError ("Timeout waiting for " ++ repr iso_path
                                  ++ " to be inserted as VirtualMedia"))
        else
          (if loop_count mod 6 =? 0 then log_progress imc expected_size else ret tt);;
          wait_inserted fuel' self imc iso_path expected_size filename wait_until
                        (loop_count + 1)
  end.

Definition _wait_iso_downloaded (fuel : nat) (self : IPUBMC) (iso_path : string)
    (expected_size : Z) : M E unit :=
  now <- monotonic;;
  let wait_until := (now + 3600)%Q in
  filename <- url_extract_filename iso_path;;
  imc <- _create_imc_rsh self;;
  wait_inserted fuel self imc iso_path expected_size filename wait_until 0.

Definition insert_media_url (self : IPUBMC) : string :=
  redfish self "Systems/1/VirtualMedia/1/Actions/VirtualMedia.InsertMedia".

Definition _insert_media (fuel : nat) (self : IPUBMC) (iso_path : string)
    (expected_size : Z) : M E unit :=
  let url := insert_media_url self in
  let data := [("Image", JStr iso_path); ("TransferMethod", JStr "Upload")] in
  _requests_post self url data;;
  _wait_iso_downloaded fuel self iso_path expected_size.

Definition _bootsource_override_cd (self : IPUBMC) : M E unit :=
  _requests_patch self (redfish self "Systems/1") override_cd.

Definition _reboot (self : IPUBMC) : M E unit :=
  _requests_post self (redfish self "Managers/1/Actions/Manager.Reset")
                 [("ResetType", JStr "ForceRestart")].

Definition _unset_bootsource_override (self : IPUBMC) : M E unit :=
  _requests_patch self (redfish self "Systems/1") override_disabled.

(** [matching_url] and [same_size] of [boot_iso_with_redfish] *)
Definition matching_url (imc iso_path : string) : M E bool :=
  try_except (contents <- read_file imc imc_url_path;;
              ret (String.eqb contents iso_path))
             (ret false).

Definition same_size (imc : string) (expected_size : Z) : M E bool :=
  fs <- _get_file_size imc imc_iso;;
  ret (match fs with Some n => expected_size =? n | None => false end).

Definition boot_iso_with_redfish (fuel : nat) (self : IPUBMC) (iso_path : string)
  : M E unit :=
  size <- url_get_size iso_path;;
  match size with
  | None => raise (RuntimeError ("failed to determine file size of URL "
                                 ++ repr iso_path))
  | Some expected_size =>
      server <- extract_server iso_path;;
      _prepare_imc self server;;
      _restart_redfish self;;
      imc <- _create_imc_rsh self;;
      url_ok <- matching_url imc iso_path;;
      keep <- (if url_ok then same_size imc expected_size else ret false);;
      (if keep then ret tt
       else _cleanup_iso self;;
            _insert_media fuel self iso_path expected_size);;
      write imc imc_url_path iso_path;;
      _bootsource_override_cd self;;
      _reboot self;;
      sleep (5 * 60);;
      _restart_redfish self;;
      _unset_bootsource_override self
  end.

Definition _redfish_version (self : IPUBMC) : M E string :=
  data <- _requests_get self (redfish self "Managers/1");;
  match dict_get "FirmwareVersion" data with
  | Some (JStr fwversion) =>
      match Re.match_mev_version (PyStr.strip fwversion) with
      | Some group1 => ret group1
      | None => error_and_exit "Failed to extract version"
      end
  | _ => error_and_exit "Failed to get FirmwareVersion"
  end.

Definition _redfish_name (self : IPUBMC) : M E string :=
  data <- _requests_get self (redfish self "");;
  match dict_get "Name" data with
  | Some (JStr name) => ret name
  | _ => error_and_exit "Failed to get Name"
  end.

Definition _version_via_ssh (self : IPUBMC) : M E (option string) :=
  let rh := self_url self in
  connected <- try_except
                 (host_ssh_connect rh (mkLogin "root" (Some "") (Some false) (Some 5));;
                  ret true)
                 (ret false);;
  if negb connected then ret None
  else
    contents <- read_file rh "/etc/issue";;
    match Re.search_issue_version contents with
    | None => ret None
    | Some group1 => ret (Some (PyStr.strip group1))
    end.

Definition version (self : IPUBMC) : M E string :=
  available <- _redfish_available self (self_url self);;
  if available then _redfish_version self
  else
    fwversion <- _version_via_ssh self;;
    match fwversion with
    | None | Some EmptyString =>
        raise (RuntimeError "Failed to detect imc version thourgh ssh")
    | Some v => ret v
    end.

Definition is_ipu (self : IPUBMC) : M E bool :=
  available <- _redfish_available self (self_url self);;
  if available then
    name <- _redfish_name self;;
    ret (PyStr.contains "Intel IPU" name)
  else
    v <- _version_via_ssh self;;
    ret (match v with Some _ => true | None => false end).

Definition cold_boot (self : IPUBMC) : M E unit :=
  match _host_bmc self with
  | None => raise AssertionError
  | Some host_bmc =>
      call_ok (EvColdBoot host_bmc) (bmc_cold_boot host_bmc);;
      sleep 20
  end.

(** [firmware_is_same] of [ensure_firmware] *)
Definition firmware_is_same (self : IPUBMC) (imc version : string) : M E bool :=
  host_ssh_connect imc (mkLogin (self_user self) (Some (self_password self)) None None);;
  r <- run imc "cat /etc/issue.net";;
  ret (PyStr.contains version (out r)).

Definition fw_up_cmd (self : IPUBMC) (version : string) : string :=
  "--dpu-type ipu --imc-address " ++ self_url self
  ++ " firmware up --version " ++ version.

Definition ensure_firmware (self : IPUBMC) (force : bool) (version : string)
  : M E unit :=
  ipu <- is_ipu self;;
  py_assert ipu;;
  let imc := self_url self in
  proceed <- (if force then ret true
              else same <- firmware_is_same self imc version;; ret (negb same));;
  if negb proceed then ret tt
  else
    r <- call (EvRunInContainer (fw_up_cmd self version))
              (run_in_container (fw_up_cmd self version));;
    (if negb (success r)
     then error_and_exit "Failed to flash new firmware. Error: "
     else ret tt);;
    cold_boot self;;
    same <- firmware_is_same self imc version;;
    if negb same
    then error_and_exit "Mev firmware release is not the expected version: "
    else ret tt.

(** *** [IPUClusterNode] *)

(** The [while True] loop of [_wait_for_acc_with_retry]. *)
Fixpoint wait_acc (fuel : nat) (self : IPUClusterNode) (acc : string)
    (timeout failures : Z) : M E unit :=
  match fuel with
  | O => out_of_fuel
  | S fuel' =>
      alive <- ping acc;;
      if alive then ret tt
      else
        sleep 20;;
        let timeout := timeout - 20 in
        if timeout <=? 0 then
          let failures := failures + 1 in
          (if failures =? 5
           then error_and_exit "Too many failures trying to get ACC up"
           else ret tt);;
          match bmc (config self) with
          | None => raise AssertionError
          | Some b =>
              let imc := bmc_url b in
              host_ssh_connect imc
                (mkLogin (bmc_user b) (Some (bmc_password b)) None None);;
              run imc "reboot";;
              wait_acc fuel' self acc 240 failures
          end
        else wait_acc fuel' self acc timeout failures
  end.

Definition _wait_for_acc_with_retry (fuel : nat) (self : IPUClusterNode)
    (acc : string) (timeout : Z) : M E unit :=
  wait_acc fuel self acc timeout 0;;
  host_ssh_connect acc (mkLogin "root" (Some "redhat") None None);;
  run acc "uname -a";;
  ret tt.

(** [helper] of [_redfish_boot_ipu] *)
Definition boot_helper (fuel : nat) (node : NodeConfig) (iso_address : string)
  : M E string :=
  match bmc node with
  | None => raise AssertionError
  | Some b =>
      boot_iso_with_redfish fuel (IPUBMC_init b None) iso_address;;
      ret "Boot command sent"
  end.

Definition _redfish_boot_ipu (fuel : nat) (self : IPUClusterNode)
    (external_port : string) (node : NodeConfig) (iso : string) : M E unit :=
  if is_http_url iso then
    boot_helper fuel node iso;; ret tt
  else
    present <- exists_path iso;;
    if negb present
    then raise (ValueError ("ISO file " ++ iso ++ " does not exist, exiting"))
    else
      let serve_path := PyStr.dirname iso in
      let iso_name := PyStr.basename iso in
      lh_ip <- call_opt HostError (EvPortToIp external_port) (port_to_ip external_port);;
      port <- call_opt HostError (EvServerStart serve_path 8000)
                       (http_server_start serve_path 8000);;
      finally
        (let iso_address :=
           "http://" ++ lh_ip ++ ":" ++ PyStr.py_str port ++ "/" ++ iso_name in
         boot_helper fuel node iso_address;; ret tt)
        (call EvServerStop (fun s => (tt, http_server_stop s))).

(** Truth value of an optional string: [None] and the empty string are false. *)
Definition truthy (s : option string) : bool :=
  match s with
  | None | Some EmptyString => false
  | Some _ => true
  end.

Definition _boot_iso (fuel : nat) (self : IPUClusterNode) (iso : string) : M E unit :=
  py_assert (truthy (ip (config self)));;
  _redfish_boot_ipu fuel self (external_port self) (config self) iso;;
  match ip (config self) with
  | None => raise AssertionError
  | Some acc => _wait_for_acc_with_retry fuel self acc 1200
  end.

Definition start (fuel : nat) (self : IPUClusterNode) (iso_or_image_path : string)
  : M E bool :=
  match bmc (config self) with
  | None => raise AssertionError
  | Some b =>
      let ipu_bmc := IPUBMC_init b None in
      v1 <- version ipu_bmc;;
      unexpected <- (if String.eqb v1 "1.8.0" then ret false
                     else v2 <- version ipu_bmc;;
                          ret (negb (String.eqb v2 "2.0.0")));;
      (if unexpected
       then v3 <- version ipu_bmc;;
            error_and_exit ("Unexpected version " ++ v3
                            ++ ", should be 1.8.0 or 2.0.0")
       else ret tt);;
      _boot_iso fuel self iso_or_image_path;;
      ret true
  end.

Definition post_boot (fuel : nat) (self : IPUClusterNode) : M E bool :=
  match dpu_host (config self) with
  | None => raise AssertionError
  | Some ipu_host =>
      host_ssh_connect ipu_host (mkLogin "core" None None None);;
      run ipu_host "sudo rmmod idpf";;
      sleep 10;;
      run ipu_host "sudo modprobe idpf";;
      match ip (config self) with
      | None => raise AssertionError
      | Some acc =>
          _wait_for_acc_with_retry fuel self acc 300;;
          ret true
      end
  end.

End Program.

(* ================================================================== *)
(** ** Reading traces *)

Definition count (p : Event -> bool) (evs : list Event) : nat :=
  List.length (filter p evs).

Definition is_ping (e : Event) : bool :=
  match e with EvPing _ => true | _ => false end.

Definition is_patch (e : Event) : bool :=
  match e with EvPatch _ _ _ _ => true | _ => false end.

Definition is_post (e : Event) : bool :=
  match e with EvPost _ _ _ _ => true | _ => false end.

(** A [run("reboot")] on [host]. *)
Definition is_reboot_of (host : string) (e : Event) : bool :=
  match e with
  | EvRun h cmd => String.eqb cmd "reboot" && String.eqb h host
  | _ => false
  end.

(** The value of [Boot.BootSourceOverrideEnabled] in a request body. *)
Definition override_enabled (data : JDict) : option string :=
  match dict_get "Boot" data with
  | Some (JObj boot) =>
      match dict_get "BootSourceOverrideEnabled" boot with
      | Some (JStr s) => Some s
      | _ => None
      end
  | _ => None
  end.

(** A PATCH that arms the one-shot override: [BootSourceOverrideEnabled]
    is ["Once"]. *)
Definition is_override_enable (e : Event) : bool :=
  match e with
  | EvPatch _ data _ _ =>
      match override_enabled data with
      | Some s => String.eqb s "Once"
      | None => false
      end
  | _ => false
  end.

(** A PATCH that sets [BootSourceOverrideEnabled] to ["Disabled"]. *)
Definition is_override_disable (e : Event) : bool :=
  match e with
  | EvPatch _ data _ _ =>
      match override_enabled data with
      | Some s => String.eqb s "Disabled"
      | None => false
      end
  | _ => false
  end.

(** A POST of the InsertMedia action of [self]. *)
Definition is_insert_media (self : IPUBMC) (e : Event) : bool :=
  match e with
  | EvPost url _ _ _ => String.eqb url (insert_media_url self)
  | _ => false
  end.

(** The removal of the downloaded image. *)
Definition is_cleanup (e : Event) : bool :=
  match e with
  | EvRun _ cmd => String.eqb cmd "rm -f /mnt/imc/acc-os.iso"
  | _ => false
  end.

(** The flash of [ensure_firmware] and the cold boot after it. *)
Definition is_flash (e : Event) : bool :=
  match e with
  | EvRunInContainer _ | EvColdBoot _ => true
  | _ => false
  end.

(** An SSH login made with the password [pw]. *)
Definition is_login_with (pw : string) (e : Event) : bool :=
  match e with
  | EvSshConnect _ login =>
      match login_password login with
      | Some p => String.eqb p pw
      | None => false
      end
  | _ => false
  end.

(** An HTTP request authenticated with the password [pw]. *)
Definition is_request_with (pw : string) (e : Event) : bool :=
  match e with
  | EvGet _ _ p | EvPost _ _ _ p | EvPatch _ _ _ p => String.eqb p pw
  | _ => false
  end.

Definition is_request (e : Event) : bool :=
  match e with
  | EvGet _ _ _ | EvPost _ _ _ _ | EvPatch _ _ _ _ => true
  | _ => false
  end.

(** One liveness poll of [_wait_for_acc_with_retry] and one escalation. *)
Definition poll_events (acc : string) : list Event := [EvPing acc; EvSleep 20].

Definition escalation_events (b : BmcConfig) : list Event :=
  [EvSshConnect (bmc_url b) (mkLogin (bmc_user b) (Some (bmc_password b)) None None);
   EvRun (bmc_url b) "reboot"].

Fixpoint rounds (n : nat) (acc : string) : list Event :=
  match n with
  | O => []
  | S n' => poll_events acc ++ rounds n' acc
  end.

Fixpoint escalations (k : nat) (b : BmcConfig) (acc : string) : list Event :=
  match k with
  | O => []
  | S k' => escalation_events b ++ rounds 12 acc ++ escalations k' b acc
  end.

(** Polls up to the first expiry of a countdown that starts at [timeout]. *)
Definition polls_to_expiry (timeout : Z) : nat := S (Z.to_nat ((timeout - 1) / 20)).

(** The expected size that a reply to the HEAD request yields: the
    [Content-Length] header must be there, read as an integer, and not be
    negative.  [reply] is [None] when the request raised. *)
Definition usable_content_length (reply : option (option string)) : option Z :=
  match reply with
  | Some (Some header_value) =>
      match PyStr.py_int (PyStr.strip header_value) with
      | Some val => if val <? 0 then None else Some val
      | None => None
      end
  | _ => None
  end.

(* ================================================================== *)
(** ** More readings of traces and of the backend *)

(** A [run("reboot")], on whatever host. *)
Definition is_reboot (e : Event) : bool :=
  match e with
  | EvRun _ cmd => String.eqb cmd "reboot"
  | _ => false
  end.

Definition is_server_start (e : Event) : bool :=
  match e with EvServerStart _ _ => true | _ => false end.

Definition is_server_stop (e : Event) : bool :=
  match e with EvServerStop => true | _ => false end.

(** A call of the local ISO hosting: the address look-up, the start and
    the stop of the HTTP server. *)
Definition is_hosting (e : Event) : bool :=
  match e with
  | EvPortToIp _ | EvServerStart _ _ | EvServerStop => true
  | _ => false
  end.

(** A write of the URL marker. *)
Definition is_marker_write (e : Event) : bool :=
  match e with
  | EvWrite _ file _ => String.eqb file imc_url_path
  | _ => false
  end.

Definition is_ssh_connect (e : Event) : bool :=
  match e with EvSshConnect _ _ => true | _ => false end.

(** Anything but a GET: a call that changes something, or a session. *)
Definition is_get (e : Event) : bool :=
  match e with EvGet _ _ _ => true | _ => false end.

Section MoreVocabulary.
Context {E : Type} {backend : Backend E}.

(** [answers_at acc n s]: from the backend state [s], the pings of [acc]
    made 20 s apart fail [n] times and then succeed. *)
Fixpoint answers_at (acc : string) (n : nat) (s : E) : Prop :=
  match n with
  | O => fst (host_ping acc s) = true
  | S n' =>
      fst (host_ping acc s) = false
      /\ answers_at acc n' (time_sleep 20 (snd (host_ping acc s)))
  end.

(** The login on the ACC and the diagnostic command that end
    [_wait_for_acc_with_retry]. *)
Definition confirm_acc (acc : string) : M E unit :=
  host_ssh_connect acc (mkLogin "root" (Some "redhat") None None);;
  run acc "uname -a";;
  ret tt.

(** The upgrade of [ensure_firmware]: what follows the decision to
    proceed. *)
Definition upgrade (self : IPUBMC) (version : string) : M E unit :=
  r <- call (EvRunInContainer (fw_up_cmd self version))
            (run_in_container (fw_up_cmd self version));;
  (if negb (success r)
   then error_and_exit "Failed to flash new firmware. Error: "
   else ret tt);;
  cold_boot self;;
  same <- firmware_is_same self (self_url self) version;;
  if negb same
  then error_and_exit "Mev firmware release is not the expected version: "
  else ret tt.

(** [ensure_firmware] has decided to proceed, in the world [w2], from the
    world [w1] that [is_ipu] left: [force] was set, and then nothing has
    been called, or the banner read did not contain the version. *)
Definition proceeds (self : IPUBMC) (force : bool) (version : string)
    (w1 w2 : World E) : Prop :=
  if force then w2 = w1
  else firmware_is_same self (self_url self) version w1 = (Ok false, w2).

End MoreVocabulary.


Fixpoint has_colon (s : string) : bool :=
  match s with
  | EmptyString => false
  | String c s' => Ascii.eqb c ":"%char || has_colon s'
  end.

Fixpoint has_space (s : string) : bool :=
  match s with
  | EmptyString => false
  | String c s' => PyStr.is_space c || has_space s'
  end.



(** The four calls of the driver reload of [post_boot], on the IPU host. *)
Definition reload_events (ipu_host : string) : list Event :=
  [EvSshConnect ipu_host (mkLogin "core" None None None);
   EvRun ipu_host "sudo rmmod idpf";
   EvSleep 10;
   EvRun ipu_host "sudo modprobe idpf"].

(** A call that only looks: a GET, an SSH login, the reading of a file. *)
Definition looks_only (e : Event) : bool :=
  match e with
  | EvGet _ _ _ | EvSshConnect _ _ | EvReadFile _ _ => true
  | _ => false
  end.

Definition is_cold_boot (e : Event) : bool :=
  match e with EvColdBoot _ => true | _ => false end.

(* ================================================================== *)
(** ** The vocabulary of the statements *)

Section Vocabulary.
Context {E : Type} {backend : Backend E}.

(** [emits P m]: whatever the backend does and however [m] ends, [m] only
    appends to the trace, and every call it appends satisfies [P]. *)
Definition emits {A} (P : Event -> Prop) (m : M E A) : Prop :=
  forall w, exists evs, trace (snd (m w)) = (trace w ++ evs)%list /\ Forall P evs.

(** [fueled m]: [m] never stops for want of fuel; it holds of everything
    but the two loops. *)
Definition fueled {A} (m : M E A) : Prop := forall w, fst (m w) <> OutOfFuel.

(** The world after [time.sleep(seconds)]. *)
Definition slept (seconds : Z) (w : World E) : World E :=
  mkWorld (time_sleep seconds (env w)) (trace w ++ [EvSleep seconds]).

Definition now (w : World E) : Q := time_monotonic (env w).

(** The monotonic clock never runs backwards over the calls of the media
    wait, and a sleep of ten seconds takes at least ten seconds. *)
Definition clock_advances : Prop :=
  (forall url user password s,
      time_monotonic s <= time_monotonic (snd (requests_get url user password s)))%Q
  /\ (forall host cmd s,
         time_monotonic s <= time_monotonic (snd (host_run host cmd s)))%Q
  /\ (forall host login s,
         time_monotonic s <= time_monotonic (snd (ssh_connect host login s)))%Q
  /\ (forall s, time_monotonic s + 10 <= time_monotonic (time_sleep 10 s))%Q.

(** The error of [_wait_iso_downloaded] at its deadline. *)
Definition timeout_error (iso_path : string) : Exn :=
  RuntimeError ("Timeout waiting for " ++ repr iso_path
                ++ " to be inserted as VirtualMedia").

(** The exit of [_wait_for_acc_with_retry]. *)
Definition exhausted : Exn := SystemExit "Too many failures trying to get ACC up".

(** The login of [_wait_for_acc_with_retry] on the console. *)
Definition console_login (b : BmcConfig) : Login :=
  mkLogin (bmc_user b) (Some (bmc_password b)) None None.

(** What the loop of [_wait_for_acc_with_retry] does once the countdown has
    expired, [failures] being the counter already incremented. *)
Definition escalate (self : IPUClusterNode) (acc : string) (b : BmcConfig)
    (fuel : nat) (failures : Z) : M E unit :=
  (if failures =? 5
   then error_and_exit "Too many failures trying to get ACC up"
   else ret tt);;
  host_ssh_connect (bmc_url b) (console_login b);;
  run (bmc_url b) "reboot";;
  wait_acc fuel self acc 240 failures.

(** [boot_iso_with_redfish] in three phases.  Steps 1 to 3 and the console
    session: the expected size and the session's host. *)
Definition boot_prelude (self : IPUBMC) (iso_path : string) : M E (Z * string) :=
  size <- url_get_size iso_path;;
  match size with
  | None => raise (RuntimeError ("failed to determine file size of URL "
                                 ++ repr iso_path))
  | Some expected_size =>
      server <- extract_server iso_path;;
      _prepare_imc self server;;
      _restart_redfish self;;
      imc <- _create_imc_rsh self;;
      ret (expected_size, imc)
  end.

(** The test of step 4: keep the image that is there? *)
Definition keep_existing (iso_path imc : string) (expected_size : Z) : M E bool :=
  url_ok <- matching_url imc iso_path;;
  if url_ok then same_size imc expected_size else ret false.

(** Steps 4 and 5. *)
Definition boot_media (fuel : nat) (self : IPUBMC) (iso_path imc : string)
    (expected_size : Z) : M E unit :=
  keep <- keep_existing iso_path imc expected_size;;
  if keep then ret tt
  else _cleanup_iso self;;
       _insert_media fuel self iso_path expected_size.

(** Step 6 and the boot itself. *)
Definition boot_finish (self : IPUBMC) (iso_path imc : string) : M E unit :=
  write imc imc_url_path iso_path;;
  _bootsource_override_cd self;;
  _reboot self;;
  sleep (5 * 60);;
  _restart_redfish self;;
  _unset_bootsource_override self.

End Vocabulary.

(** The calls the statements below are about: the InsertMedia POST, the removal of
    the stale image, the PATCHes of the boot-source override, the manager
    reset and the liveness pings. *)
Definition is_reset (self : IPUBMC) (e : Event) : bool :=
  match e with
  | EvPost url _ _ _ => String.eqb url (redfish self "Managers/1/Actions/Manager.Reset")
  | _ => false
  end.

Definition key_event (self : IPUBMC) (e : Event) : bool :=
  is_insert_media self e || is_cleanup e || is_patch e || is_ping e || is_reset self e.

Definition silent (self : IPUBMC) (e : Event) : Prop := key_event self e = false.


Definition cleanup_event (self : IPUBMC) : Event :=
  EvRun (self_url self) "rm -f /mnt/imc/acc-os.iso".

Definition insert_event (self : IPUBMC) (iso_path : string) : Event :=
  EvPost (insert_media_url self)
         [("Image", JStr iso_path); ("TransferMethod", JStr "Upload")]
         (self_user self) (self_password self).

Definition enable_event (self : IPUBMC) : Event :=
  EvPatch (redfish self "Systems/1") override_cd (self_user self) (self_password self).

Definition reset_event (self : IPUBMC) : Event :=
  EvPost (redfish self "Managers/1/Actions/Manager.Reset")
         [("ResetType", JStr "ForceRestart")] (self_user self) (self_password self).

Definition disable_event (self : IPUBMC) : Event :=
  EvPatch (redfish self "Systems/1") override_disabled
          (self_user self) (self_password self).

Definition enable_reset (self : IPUBMC) : list Event :=
  [enable_event self; reset_event self].

Definition enable_reset_disable (self : IPUBMC) : list Event :=
  [enable_event self; reset_event self; disable_event self].


(** The login [firmware_is_same] makes. *)
Definition firmware_login (self : IPUBMC) : Login :=
  mkLogin (self_user self) (Some (self_password self)) None None.

(** The password an HTTP request or an SSH login is made with: the one of
    the client, or one of the two fixed console passwords. *)
Definition uses_password (pw : string) (e : Event) : Prop :=
  match e with
  | EvGet _ _ p | EvPost _ _ _ p | EvPatch _ _ _ p => p = pw
  | EvSshConnect _ login =>
      login_password login = Some pw
      \/ login_password login = Some EmptyString
      \/ login_password login = Some "redhat"
  | _ => True
  end.

(* ================================================================== *)
(** ** The image on the card, the end of a boot, the logins *)


Section TheImageOnTheCard.
Context {E : Type} {backend : Backend E}.


End TheImageOnTheCard.

(** What [boot_iso_with_redfish] calls once the media are in place, to its
    end: the marker is written, the one-shot override armed, the manager
    reset; five minutes later Redfish is restarted from the console (login,
    restart, 10 s of rest) and the override disabled. *)
Definition finish_events (self : IPUBMC) (iso_path : string) : list Event :=
  [EvWrite (self_url self) imc_url_path iso_path;
   enable_event self;
   reset_event self;
   EvSleep (5 * 60);
   EvSshConnect (self_url self) root_login;
   EvRun (self_url self) "systemctl restart redfish";
   EvSleep 10;
   disable_event self].

(** The login of [_version_via_ssh] on the console. *)
Definition probe_login : Login := mkLogin "root" (Some "") (Some false) (Some 5).

(** The login of [_prepare_imc] on the server of the ISO. *)
Definition server_login : Login := mkLogin "root" (Some "redhat") None None.

Section Logins.
Context {E : Type} {backend : Backend E}.

(** The login of [_prepare_imc] on the server of [iso_path], where the URL
    names one. *)
Definition server_logins (iso_path : string) : list (string * Login) :=
  match urlparse iso_path with
  | Some parsed => [(PyStr.before_colon (netloc parsed), server_login)]
  | None => []
  end.

End Logins.

(** How a call of the client [self] authenticates: an HTTP request carries
    the user and the password of the client; an SSH login is one of
    [allowed], each a host and the login made on it. *)
Definition logs_in (self : IPUBMC) (allowed : list (string * Login)) (e : Event)
  : Prop :=
  match e with
  | EvGet _ user password | EvPost _ _ user password | EvPatch _ _ user password =>
      user = self_user self /\ password = self_password self
  | EvSshConnect host login => In (host, login) allowed
  | _ => True
  end.

(* ================================================================== *)
(** ** A simulated card

    A small deterministic backend on which the program can be run: a card
    behind a console, with the few pieces of state the program looks at. *)

Module Sim.

Record Card := mkCard {
  clock : Q;                      (** the monotonic clock, in seconds *)
  redfish_up : bool;              (** the Redfish service answers *)
  media_inserted : bool;          (** [Inserted] of the virtual media *)
  media_name : string;            (** [ImageName] of the virtual media *)
  iso_bytes : option Z;           (** size of the downloaded image, if any *)
  content_length : option string; (** header the ISO server sends *)
  url_marker : option string;     (** contents of [/work/url], if any *)
  acc_alive : bool;               (** the ACC answers a ping *)
  console_ssh : bool;             (** the console accepts SSH logins *)
  ssh_dies_on_reset : bool;       (** ... but no more after a manager reset *)
  reset_seen : bool;
  override : string;              (** last boot-source override written *)
  product_name : string;
  firmware : string;
  issue : string;                 (** [/etc/issue] *)
  issue_net : string              (** [/etc/issue.net] *)
}.

Definition tab : string := String (ascii_of_nat 9) EmptyString.

Fixpoint split_on (sep s : string) : option (string * string) :=
  if String.prefix sep s
  then Some (EmptyString,
             String.substring (String.length sep)
                              (String.length s - String.length sep) s)
  else match s with
       | EmptyString => None
       | String c s' =>
           match split_on sep s' with
           | Some (a, b) => Some (String c a, b)
           | None => None
           end
       end.

Fixpoint upto_slash (s : string) : string :=
  match s with
  | EmptyString => EmptyString
  | String c s' => if PyStr.is_slash c then EmptyString else String c (upto_slash s')
  end.

Fixpoint from_slash (s : string) : string :=
  match s with
  | EmptyString => EmptyString
  | String c s' => if PyStr.is_slash c then s else from_slash s'
  end.

(** [urlparse] on URLs of the plain shape [scheme://netloc/path]. *)
Definition parse (s : string) : option UrlParts :=
  match split_on "://" s with
  | Some (sch, rest) => Some (mkUrl sch (upto_slash rest) (from_slash rest))
  | None => Some (mkUrl EmptyString EmptyString s)
  end.

Definition set_clock (t : Q) (c : Card) : Card :=
  mkCard t (redfish_up c) (media_inserted c) (media_name c) (iso_bytes c)
         (content_length c) (url_marker c) (acc_alive c) (console_ssh c)
         (ssh_dies_on_reset c) (reset_seen c) (override c) (product_name c)
         (firmware c) (issue c) (issue_net c).

Definition set_media (name : string) (c : Card) : Card :=
  mkCard (clock c) (redfish_up c) true name (iso_bytes c)
         (content_length c) (url_marker c) (acc_alive c) (console_ssh c)
         (ssh_dies_on_reset c) (reset_seen c) (override c) (product_name c)
         (firmware c) (issue c) (issue_net c).

Definition set_iso_bytes (n : option Z) (c : Card) : Card :=
  mkCard (clock c) (redfish_up c) (media_inserted c) (media_name c) n
         (content_length c) (url_marker c) (acc_alive c) (console_ssh c)
         (ssh_dies_on_reset c) (reset_seen c) (override c) (product_name c)
         (firmware c) (issue c) (issue_net c).

Definition set_marker (m : string) (c : Card) : Card :=
  mkCard (clock c) (redfish_up c) (media_inserted c) (media_name c) (iso_bytes c)
         (content_length c) (Some m) (acc_alive c) (console_ssh c)
         (ssh_dies_on_reset c) (reset_seen c) (override c) (product_name c)
         (firmware c) (issue c) (issue_net c).

Definition set_reset (c : Card) : Card :=
  mkCard (clock c) (redfish_up c) (media_inserted c) (media_name c) (iso_bytes c)
         (content_length c) (url_marker c) (acc_alive c) (console_ssh c)
         (ssh_dies_on_reset c) true (override c) (product_name c)
         (firmware c) (issue c) (issue_net c).

Definition set_override (o : string) (c : Card) : Card :=
  mkCard (clock c) (redfish_up c) (media_inserted c) (media_name c) (iso_bytes c)
         (content_length c) (url_marker c) (acc_alive c) (console_ssh c)
         (ssh_dies_on_reset c) (reset_seen c) o (product_name c)
         (firmware c) (issue c) (issue_net c).

Definition resource (c : Card) : JDict :=
  [("Name", JStr (product_name c));
   ("FirmwareVersion", JStr (firmware c));
   ("Inserted", JBool (media_inserted c));
   ("ImageName", JStr (media_name c))].

Definition answer (c : Card) : option Response :=
  if redfish_up c then Some (mkResponse 200 (Some (resource c))) else None.

(** A POST with an [Image] inserts it: the [Inserted] flag is raised at
    once, the bytes on the console stay as they are.  A POST with a
    [ResetType] is a manager reset. *)
Definition post (data : JDict) (c : Card) : Card :=
  match dict_get "Image" data, dict_get "ResetType" data with
  | Some (JStr image), _ =>
      match parse image with
      | Some u => set_media (PyStr.basename (path u)) c
      | None => c
      end
  | _, Some _ => set_reset c
  | _, _ => c
  end.

Definition patch (data : JDict) (c : Card) : Card :=
  match dict_get "Boot" data with
  | Some (JObj boot) =>
      match dict_get "BootSourceOverrideEnabled" boot with
      | Some (JStr s) => set_override s c
      | _ => c
      end
  | _ => c
  end.

Definition ok_result (text : string) : RunResult := mkRunResult text EmptyString 0.

Definition run_cmd (cmd : string) (c : Card) : option RunResult * Card :=
  if String.prefix "du -b " cmd then
    match iso_bytes c with
    | Some n => (Some (ok_result (PyStr.py_str n ++ tab ++ imc_iso)), c)
    | None => (Some (mkRunResult EmptyString "du: cannot access" 1), c)
    end
  else if String.eqb cmd "rm -f /mnt/imc/acc-os.iso" then
    (Some (ok_result EmptyString), set_iso_bytes None c)
  else if String.eqb cmd "cat /etc/issue.net" then
    (Some (ok_result (issue_net c)), c)
  else (Some (ok_result EmptyString), c).

Definition read (file : string) (c : Card) : option string :=
  if String.eqb file imc_url_path then url_marker c
  else if String.eqb file "/etc/issue" then Some (issue c)
  else Some EmptyString.

Definition store (file contents : string) (c : Card) : Card :=
  if String.eqb file imc_url_path then set_marker contents c else c.

#[global] Instance card_backend : Backend Card := {|
  urlparse := parse;
  repr := fun s => PyStr.sq ++ s ++ PyStr.sq;
  requests_head := fun _ c => (Some (content_length c), c);
  requests_get := fun _ _ _ c => (answer c, c);
  requests_post := fun _ data _ _ c => (answer c, post data c);
  requests_patch := fun _ data _ _ c => (answer c, patch data c);
  ssh_connect := fun _ _ c =>
    (console_ssh c && negb (ssh_dies_on_reset c && reset_seen c), c);
  host_run := fun _ cmd c => run_cmd cmd c;
  host_read_file := fun _ file c => (read file c, c);
  host_write := fun _ file contents c => (true, store file contents c);
  host_ping := fun _ c => (acc_alive c, c);
  host_wait_ping := fun _ c => (true, c);
  time_sleep := fun d c => set_clock (clock c + inject_Z d)%Q c;
  time_monotonic := clock;
  path_exists := fun _ _ => false;
  port_to_ip := fun _ c => (Some "192.168.122.1", c);
  http_server_start := fun _ port c => (Some port, c);
  http_server_stop := fun c => c;
  run_in_container := fun _ c => (ok_result EmptyString, c);
  bmc_cold_boot := fun _ c => (true, c)
|}.

(** A card by what differs between the scenarios: the state of the
    virtual media and of the downloaded image, the header of the ISO
    server, the URL marker, whether the ACC answers, whether the console
    is lost on a reset, and the product name. *)
Definition scenario (inserted : bool) (name : string) (bytes : option Z)
    (header marker : option string) (alive dies : bool) (product : string) : Card :=
  mkCard 0 true inserted name bytes header marker alive true dies false
         "Disabled" product "MEV-HW-B1-ci-ts.release.1.8.0.10052"
         "IPU IMC MEV-HW-B1-ci-ts.release.1.8.0.10052 Version: 1.8.0"
         "IPU IMC MEV 2.5.0.117".

Definition iso : string := "http://files.lab:8080/images/acc.iso".

(** A healthy IPU on firmware 1.8.0 with nothing downloaded yet. *)
Definition card : Card :=
  scenario false EmptyString None (Some "1000") None true false "Intel IPU".

(** The same card with an ACC that never comes up. *)
Definition dead_acc_card : Card :=
  scenario false EmptyString None (Some "1000") None false false "Intel IPU".



(** The console does not come back after the manager reset. *)
Definition lost_console_card : Card :=
  scenario false EmptyString None (Some "1000") None true true "Intel IPU".

(** The ISO server sends no [Content-Length]. *)
Definition no_length_card : Card :=
  scenario false EmptyString None None None true false "Intel IPU".



(** Something that is no IPU. *)
Definition other_card : Card :=
  scenario false EmptyString None (Some "1000") None true false "Generic BMC".

(** The states of the card in which the ACC stays down and the console
    stays reachable. *)
Definition acc_stays_down (c : Card) : Prop :=
  acc_alive c = false /\ console_ssh c = true /\ ssh_dies_on_reset c = false.

Definition world (c : Card) : World Card := mkWorld c [].

Definition bmc_config : BmcConfig := mkBmcConfig "imc.lab" "root" "calvin".

Definition ipu_bmc : IPUBMC := IPUBMC_init bmc_config None.

Definition node : IPUClusterNode :=
  mkIPUClusterNode "eno1" "eno2"
    (mkNodeConfig (Some "acc.lab") (Some bmc_config) (Some "host.lab")).

End Sim.

(* ================================================================== *)
(** ** A scripted backend

    A second bench, for the runs in which the answers change from one call
    to the next: the answers of the pings and of the GETs to come are
    written down in advance and handed out in their order. *)

Module Replay.

Record Tape := mkTape {
  time : Q;                        (** the monotonic clock, in seconds *)
  pings : list bool;               (** the answers of the pings to come, [true] after them *)
  gets : list (option Response);   (** the answers of the GETs to come *)
  get_then : option Response;      (** the answer of every GET after those *)
  length_header : option string;   (** header the ISO server sends *)
  flash : RunResult;               (** what the flash command returns *)
  files : list string              (** the local files *)
}.

Definition set_time (t : Q) (c : Tape) : Tape :=
  mkTape t (pings c) (gets c) (get_then c) (length_header c) (flash c) (files c).

Definition set_pings (l : list bool) (c : Tape) : Tape :=
  mkTape (time c) l (gets c) (get_then c) (length_header c) (flash c) (files c).

Definition set_gets (l : list (option Response)) (c : Tape) : Tape :=
  mkTape (time c) (pings c) l (get_then c) (length_header c) (flash c) (files c).

Definition next_ping (c : Tape) : bool * Tape :=
  match pings c with
  | answer :: rest => (answer, set_pings rest c)
  | [] => (true, c)
  end.

Definition next_get (c : Tape) : option Response * Tape :=
  match gets c with
  | answer :: rest => (answer, set_gets rest c)
  | [] => (get_then c, c)
  end.

Definition tape_backend : Backend Tape := {|
  urlparse := Sim.parse;
  repr := fun s => PyStr.sq ++ s ++ PyStr.sq;
  requests_head := fun _ c => (Some (length_header c), c);
  requests_get := fun _ _ _ c => next_get c;
  requests_post := fun _ _ _ _ c => (Some (mkResponse 200 None), c);
  requests_patch := fun _ _ _ _ c => (Some (mkResponse 200 None), c);
  ssh_connect := fun _ _ c => (true, c);
  host_run := fun _ _ c => (Some (Sim.ok_result EmptyString), c);
  host_read_file := fun _ _ c => (Some EmptyString, c);
  host_write := fun _ _ _ c => (true, c);
  host_ping := fun _ c => next_ping c;
  host_wait_ping := fun _ c => (true, c);
  time_sleep := fun d c => set_time (time c + inject_Z d)%Q c;
  time_monotonic := time;
  path_exists := fun p c => existsb (String.eqb p) (files c);
  port_to_ip := fun _ c => (Some "192.168.122.1", c);
  http_server_start := fun _ port c => (Some port, c);
  http_server_stop := fun c => c;
  run_in_container := fun _ c => (flash c, c);
  bmc_cold_boot := fun _ c => (true, c)
|}.

(** The answer of a card on the firmware [release] that holds the image
    [acc.iso]. *)
Definition reports (release : string) : option Response :=
  Some (mkResponse 200
          (Some [("Name", JStr "Intel IPU");
                 ("FirmwareVersion", JStr ("MEV-HW-B1-ci-ts.release." ++ release));
                 ("Inserted", JBool true);
                 ("ImageName", JStr "acc.iso")])).

Definition local_iso : string := "/srv/images/acc.iso".

(** A card on 1.8.0 next to a machine that holds [local_iso]. *)
Definition tape : Tape :=
  mkTape 0 [] [] (reports "1.8.0.10052") (Some "1000")
         (Sim.ok_result EmptyString) [local_iso].

(** The ACC answers the third ping. *)
Definition slow_acc : Tape := set_pings [false; false] tape.

(** The card answers the probe and reports 2.0.0, and from the second
    round of questions on 1.8.0. *)
Definition changing_release : Tape :=
  set_gets [reports "2.0.0.11126"; reports "2.0.0.11126"] tape.

(** The flash command fails. *)
Definition failing_flash : Tape :=
  mkTape 0 [] [] (reports "1.8.0.10052") (Some "1000")
         (mkRunResult EmptyString "flash failed" 1) [].

Definition world (c : Tape) : World Tape := mkWorld c [].

End Replay.

(** The simulated card with its Redfish service down: the probes go
    through the console. *)
Definition redfish_down_card : Sim.Card :=
  Sim.mkCard 0 false false EmptyString None (Some "1000") None true true false false
             "Disabled" "Intel IPU" "MEV-HW-B1-ci-ts.release.1.8.0.10052"
             "IPU IMC MEV-HW-B1-ci-ts.release.1.8.0.10052 Version: 1.8.0"
             "IPU IMC MEV 2.5.0.117".

(** The client of the simulated card, with the BMC of its host. *)
Definition ipu_bmc_with_host : IPUBMC :=
  IPUBMC_init Sim.bmc_config (Some "host-bmc.lab").

(* ================================================================== *)
(** * Theorems *)

(** ** The string functions on examples *)

Example strip_banner : PyStr.strip "  12 	" = "12".
Proof. reflexivity. Qed.

Example py_int_examples :
  PyStr.py_int " 1_000 " = Some 1000 /\ PyStr.py_int "-7" = Some (-7)
  /\ PyStr.py_int "1__0" = None /\ PyStr.py_int "" = None
  /\ PyStr.py_int "12a" = None /\ PyStr.py_int "007" = Some 7.
Proof. repeat split; reflexivity. Qed.

Example first_token_du :
  PyStr.first_token "4096	/mnt/imc/acc-os.iso" = Some "4096".
Proof. reflexivity. Qed.

Example basename_dirname :
  PyStr.basename "/srv/iso/acc.iso" = "acc.iso"
  /\ PyStr.dirname "/srv/iso/acc.iso" = "/srv/iso"
  /\ PyStr.dirname "/acc.iso" = "/" /\ PyStr.dirname "acc.iso" = "".
Proof. repeat split; reflexivity. Qed.

Example replace_watchdog :
  PyStr.replace "ab" "X" "zababab-a" = "zXXX-a".
Proof. reflexivity. Qed.

Example shlex_quote_iso :
  PyStr.shlex_quote "/mnt/imc/acc-os.iso" = "/mnt/imc/acc-os.iso".
Proof. reflexivity. Qed.

Example search_issue_version_ex :
  Re.search_issue_version "IPU IMC Version:  - Version: 1.8.0 (x)" = Some "1.8.0".
Proof. reflexivity. Qed.

Example match_mev_version_ex :
  Re.match_mev_version "MEV-HW-B1-ci-ts.release.1.8.0.10052" = Some "1.8.0"
  /\ Re.match_mev_version "MEV-.1.2.3.4" = Some "1.2.3"
  /\ Re.match_mev_version "MEV-1.2.3.4" = None
  /\ Re.match_mev_version "mev-x.1.2.3.4" = None.
Proof. repeat split; reflexivity. Qed.


(* ================================================================== *)
(** ** Strings *)

Local Open Scope list_scope.

Lemma append_inj_l (p a b : string) : (p ++ a)%string = (p ++ b)%string -> a = b.
Proof.
  induction p as [|c p IH]; simpl; intros Heq; [exact Heq|].
  injection Heq as Heq. auto.
Qed.

(* ================================================================== *)
(** ** What a computation adds to the trace *)

Section Logic.
Context {E : Type} {backend : Backend E}.

Lemma bind_ok {A B} (m : M E A) (k : A -> M E B) w a w1 :
  m w = (Ok a, w1) -> bind m k w = k a w1.
Proof. intros H. unfold bind. rewrite H. reflexivity. Qed.

Lemma bind_raise {A B} (m : M E A) (k : A -> M E B) w e w1 :
  m w = (Raise e, w1) -> bind m k w = (Raise e, w1).
Proof. intros H. unfold bind. rewrite H. reflexivity. Qed.

Lemma bind_out_of_fuel {A B} (m : M E A) (k : A -> M E B) w w1 :
  m w = (OutOfFuel, w1) -> bind m k w = (OutOfFuel, w1).
Proof. intros H. unfold bind. rewrite H. reflexivity. Qed.

Lemma emits_ret {A} P (a : A) : emits P (@ret E A a).
Proof. intros w. exists []. simpl. rewrite app_nil_r. auto. Qed.

Lemma emits_raise {A} P e : emits P (@raise E A e).
Proof. intros w. exists []. simpl. rewrite app_nil_r. auto. Qed.

Lemma emits_out_of_fuel {A} P : emits P (@out_of_fuel E A).
Proof. intros w. exists []. simpl. rewrite app_nil_r. auto. Qed.

Lemma emits_monotonic P : emits P monotonic.
Proof. intros w. exists []. simpl. rewrite app_nil_r. auto. Qed.

Lemma emits_exists_path P p : emits P (exists_path p).
Proof. intros w. exists []. simpl. rewrite app_nil_r. auto. Qed.

Lemma emits_call {A} (P : Event -> Prop) e (op : E -> A * E) :
  P e -> emits P (call e op).
Proof.
  intros He w. exists [e]. unfold call. destruct (op (env w)). simpl. auto.
Qed.

Lemma emits_bind {A B} P (m : M E A) (k : A -> M E B) :
  emits P m -> (forall a, emits P (k a)) -> emits P (bind m k).
Proof.
  intros Hm Hk w. unfold bind.
  destruct (Hm w) as (e1 & H1 & F1).
  destruct (m w) as [[a | e |] w1]; simpl in *.
  - destruct (Hk a w1) as (e2 & H2 & F2).
    exists (e1 ++ e2). rewrite H2, H1, app_assoc. split; [reflexivity|].
    apply Forall_app; auto.
  - exists e1; auto.
  - exists e1; auto.
Qed.

Lemma emits_catch {A} P (m : M E A) handler :
  emits P m -> (forall e h, handler e = Some h -> emits P h) ->
  emits P (catch m handler).
Proof.
  intros Hm Hh w. unfold catch.
  destruct (Hm w) as (e1 & H1 & F1).
  destruct (m w) as [[a | e |] w1]; simpl in *; try (exists e1; auto; fail).
  destruct (handler e) as [h|] eqn:Hhe; simpl; [|exists e1; auto].
  destruct (Hh e h Hhe w1) as (e2 & H2 & F2).
  exists (e1 ++ e2). rewrite H2, H1, app_assoc. split; [reflexivity|].
  apply Forall_app; auto.
Qed.

Lemma emits_finally {A} P (m : M E A) cleanup :
  emits P m -> emits P cleanup -> emits P (finally m cleanup).
Proof.
  intros Hm Hc w. unfold finally.
  destruct (Hm w) as (e1 & H1 & F1).
  destruct (m w) as [[a | e |] w1]; simpl in *; try (exists e1; auto; fail).
  - destruct (emits_bind P cleanup (fun _ => ret a) Hc (fun _ => emits_ret P a) w1)
      as (e2 & H2 & F2).
    exists (e1 ++ e2). rewrite H2, H1, app_assoc. split; [reflexivity|].
    apply Forall_app; auto.
  - destruct (emits_bind P cleanup (fun _ => @raise E A e) Hc (fun _ => emits_raise P e) w1)
      as (e2 & H2 & F2).
    exists (e1 ++ e2). rewrite H2, H1, app_assoc. split; [reflexivity|].
    apply Forall_app; auto.
Qed.

Lemma emits_weaken {A} (P Q : Event -> Prop) (m : M E A) :
  (forall e, P e -> Q e) -> emits P m -> emits Q m.
Proof.
  intros HPQ Hm w. destruct (Hm w) as (evs & H1 & F1).
  exists evs. split; [assumption|]. eapply Forall_impl; eauto.
Qed.

Lemma fueled_ret {A} (a : A) : fueled (@ret E A a).
Proof. intros w. discriminate. Qed.

Lemma fueled_raise {A} e : fueled (@raise E A e).
Proof. intros w. discriminate. Qed.

Lemma fueled_monotonic : fueled monotonic.
Proof. intros w. discriminate. Qed.

Lemma fueled_exists_path p : fueled (exists_path p).
Proof. intros w. discriminate. Qed.

Lemma fueled_call {A} e (op : E -> A * E) : fueled (call e op).
Proof. intros w. unfold call. destruct (op (env w)). discriminate. Qed.

Lemma fueled_bind {A B} (m : M E A) (k : A -> M E B) :
  fueled m -> (forall a, fueled (k a)) -> fueled (bind m k).
Proof.
  intros Hm Hk w. unfold bind. specialize (Hm w).
  destruct (m w) as [[a | e |] w1]; simpl in *;
    [apply Hk | discriminate | congruence].
Qed.

Lemma fueled_catch {A} (m : M E A) handler :
  fueled m -> (forall e h, handler e = Some h -> fueled h) ->
  fueled (catch m handler).
Proof.
  intros Hm Hh w. unfold catch. specialize (Hm w).
  destruct (m w) as [[a | e |] w1]; simpl in *; [discriminate | | congruence].
  destruct (handler e) as [h|] eqn:Hhe; [eapply Hh; eassumption | discriminate].
Qed.

Lemma fueled_finally {A} (m : M E A) cleanup :
  fueled m -> fueled cleanup -> fueled (finally m cleanup).
Proof.
  intros Hm Hc w. unfold finally. specialize (Hm w).
  destruct (m w) as [[a | e |] w1]; simpl in *; [ | | congruence].
  - apply fueled_bind; [assumption | intros; apply fueled_ret].
  - apply fueled_bind; [assumption | intros; apply fueled_raise].
Qed.

End Logic.

Ltac head_of t :=
  match t with
  | ?f _ => head_of f
  | _ => t
  end.

(** One step of a syntax-directed proof of [emits P m]; what is left are
    the instances of [P] at the calls of [m]. *)
Ltac emits_step :=
  cbv zeta;
  lazymatch goal with
  | |- emits _ (bind _ _) => apply emits_bind; [ | intro ]
  | |- emits _ (ret _) => apply emits_ret
  | |- emits _ (raise _) => apply emits_raise
  | |- emits _ (error_and_exit _) => apply emits_raise
  | |- emits _ out_of_fuel => apply emits_out_of_fuel
  | |- emits _ monotonic => apply emits_monotonic
  | |- emits _ (exists_path _) => apply emits_exists_path
  | |- emits _ (call _ _) => apply emits_call
  | |- emits _ (catch _ _) =>
      apply emits_catch;
      [ | let e := fresh "e" in let h := fresh "h" in let Hh := fresh "Hh" in
          intros e h Hh; destruct e; simpl in Hh; try discriminate Hh;
          injection Hh as <- ]
  | |- emits _ (finally _ _) => apply emits_finally
  | |- emits _ (match ?x with _ => _ end) => destruct x
  | |- emits _ ?m => let f := head_of m in unfold f
  end.

Ltac emits_steps := repeat emits_step.

Ltac fueled_step :=
  cbv zeta;
  lazymatch goal with
  | |- fueled (bind _ _) => apply fueled_bind; [ | intro ]
  | |- fueled (ret _) => apply fueled_ret
  | |- fueled (raise _) => apply fueled_raise
  | |- fueled (error_and_exit _) => apply fueled_raise
  | |- fueled monotonic => apply fueled_monotonic
  | |- fueled (exists_path _) => apply fueled_exists_path
  | |- fueled (call _ _) => apply fueled_call
  | |- fueled (catch _ _) =>
      apply fueled_catch;
      [ | let e := fresh "e" in let h := fresh "h" in let Hh := fresh "Hh" in
          intros e h Hh; destruct e; simpl in Hh; try discriminate Hh;
          injection Hh as <- ]
  | |- fueled (finally _ _) => apply fueled_finally
  | |- fueled (match ?x with _ => _ end) => destruct x
  | |- fueled ?m => let f := head_of m in unfold f
  end.

Ltac fueled_steps := repeat fueled_step.

Lemma count_app p (l1 l2 : list Event) :
  count p (l1 ++ l2) = (count p l1 + count p l2)%nat.
Proof. unfold count. rewrite filter_app, length_app. reflexivity. Qed.

Lemma count_none p (l : list Event) :
  Forall (fun e => p e = false) l -> count p l = 0%nat.
Proof.
  unfold count. induction 1 as [|e l He _ IH]; simpl; [reflexivity|].
  rewrite He. exact IH.
Qed.

(* ================================================================== *)
(** ** The liveness monitor when the ACC never answers *)

Section NeverAlive.
Context {E : Type} {backend : Backend E}.
Variables (self : IPUClusterNode) (acc : string) (b : BmcConfig).

(** [stuck] holds of the backend states of a run in which the card never
    comes up while the console stays reachable. *)
Variable stuck : E -> Prop.

Hypothesis has_bmc : bmc (config self) = Some b.
Hypothesis ping_fails : forall s, stuck s ->
  fst (host_ping acc s) = false /\ stuck (snd (host_ping acc s)).
Hypothesis sleep_stuck : forall s, stuck s -> stuck (time_sleep 20 s).
Hypothesis console_up : forall s, stuck s ->
  fst (ssh_connect (bmc_url b) (console_login b) s) = true
  /\ stuck (snd (ssh_connect (bmc_url b) (console_login b) s)).
Hypothesis reboot_runs : forall s, stuck s ->
  fst (host_run (bmc_url b) "reboot" s) <> None
  /\ stuck (snd (host_run (bmc_url b) "reboot" s)).

Lemma wait_acc_poll fuel timeout failures w :
  stuck (env w) ->
  exists w1, stuck (env w1) /\ trace w1 = trace w ++ poll_events acc
    /\ wait_acc (S fuel) self acc timeout failures w
       = if timeout - 20 <=? 0 then escalate self acc b fuel (failures + 1) w1
         else wait_acc fuel self acc (timeout - 20) failures w1.
Proof.
  intros Hs. destruct (ping_fails _ Hs) as [Hp Hs1].
  exists (mkWorld (time_sleep 20 (snd (host_ping acc (env w))))
                  (trace w ++ poll_events acc)).
  split; [apply sleep_stuck; exact Hs1|]. split; [reflexivity|].
  simpl. unfold bind at 1. unfold ping, call.
  destruct (host_ping acc (env w)) as [alive s1]. simpl in Hp. subst alive.
  unfold bind at 1. unfold sleep, call. simpl. rewrite <- app_assoc. simpl.
  destruct (timeout - 20 <=? 0); [|reflexivity].
  unfold escalate. rewrite has_bmc. reflexivity.
Qed.

Lemma wait_acc_expiry n : forall timeout failures fuel w,
  stuck (env w) ->
  timeout <= 20 * (Z.of_nat n + 1) ->
  (n = 0%nat \/ 20 * Z.of_nat n < timeout) ->
  exists w1, stuck (env w1) /\ trace w1 = trace w ++ rounds (S n) acc
    /\ wait_acc (S n + fuel) self acc timeout failures w
       = escalate self acc b fuel (failures + 1) w1.
Proof.
  induction n as [|n IH]; intros timeout failures fuel w Hs Hle Hgt.
  - destruct (wait_acc_poll fuel timeout failures w Hs) as (w1 & Hs1 & Ht & Hrun).
    exists w1. split; [assumption|]. split; [exact Ht|].
    simpl plus. rewrite Hrun.
    destruct (Z.leb_spec (timeout - 20) 0); [reflexivity|lia].
  - destruct (wait_acc_poll (S n + fuel) timeout failures w Hs) as (w1 & Hs1 & Ht & Hrun).
    destruct (IH (timeout - 20) failures fuel w1 Hs1) as (w2 & Hs2 & Ht2 & Hrun2);
      [lia | lia |].
    exists w2. split; [assumption|]. split.
    + rewrite Ht2, Ht. change (rounds (S (S n)) acc) with (poll_events acc ++ rounds (S n) acc).
      rewrite app_assoc. reflexivity.
    + change (S (S n) + fuel)%nat with (S (S n + fuel)). rewrite Hrun.
      destruct (Z.leb_spec (timeout - 20) 0); [lia|]. exact Hrun2.
Qed.

Lemma polls_to_expiry_spec timeout :
  let n := Z.to_nat ((timeout - 1) / 20) in
  timeout <= 20 * (Z.of_nat n + 1) /\ (n = 0%nat \/ 20 * Z.of_nat n < timeout).
Proof.
  intros n. subst n.
  destruct (Z_lt_le_dec ((timeout - 1) / 20) 0) as [Hneg | Hpos].
  - assert (Hto : Z.to_nat ((timeout - 1) / 20) = 0%nat) by lia.
    rewrite Hto. split; [|left; reflexivity].
    assert (timeout - 1 < 0); [|lia].
    destruct (Z_lt_le_dec (timeout - 1) 0); [assumption|].
    assert (0 <= (timeout - 1) / 20) by (apply Z.div_pos; lia). lia.
  - rewrite Z2Nat.id by assumption.
    pose proof (Z.mul_div_le (timeout - 1) 20 ltac:(lia)).
    pose proof (Z.mul_succ_div_gt (timeout - 1) 20 ltac:(lia)).
    split; [lia|].
    destruct (Z.eq_dec ((timeout - 1) / 20) 0) as [Hz | Hnz].
    + left. rewrite Hz. reflexivity.
    + right. lia.
Qed.

Lemma escalate_exhausted fuel w :
  escalate self acc b fuel 5 w
  = (Raise (SystemExit "Too many failures trying to get ACC up"), w).
Proof. reflexivity. Qed.

Lemma escalate_reboot fuel failures w :
  stuck (env w) -> failures <> 5 ->
  exists w1, stuck (env w1) /\ trace w1 = trace w ++ escalation_events b
    /\ escalate self acc b fuel failures w = wait_acc fuel self acc 240 failures w1.
Proof.
  intros Hs Hf. unfold escalate.
  destruct (Z.eqb_spec failures 5) as [|_]; [contradiction|].
  destruct (console_up _ Hs) as [Hc Hs1].
  destruct (reboot_runs _ Hs1) as [Hr Hs2].
  unfold bind at 1. unfold ret at 1.
  unfold bind at 1. unfold host_ssh_connect, call_ok, call.
  unfold bind at 1.
  destruct (ssh_connect (bmc_url b) (console_login b) (env w)) as [ok s1].
  simpl in Hc, Hs1, Hr, Hs2. subst ok. unfold ret at 1.
  unfold bind at 1. unfold run, call_opt, call. unfold bind at 1. simpl env.
  destruct (host_run (bmc_url b) "reboot" s1) as [[r|] s2]; [|contradiction].
  simpl in Hs2. unfold ret at 1.
  eexists. split; [|split; [|reflexivity]]; simpl; [assumption|].
  rewrite <- app_assoc. reflexivity.
Qed.

Lemma wait_acc_never_alive k : forall failures timeout fuel w,
  stuck (env w) -> failures = 4 - Z.of_nat k -> (k <= 4)%nat ->
  exists w',
    wait_acc (polls_to_expiry timeout + 12 * k + fuel) self acc timeout failures w
    = (Raise (SystemExit "Too many failures trying to get ACC up"), w')
    /\ trace w' = trace w ++ rounds (polls_to_expiry timeout) acc ++ escalations k b acc.
Proof.
  induction k as [|k IH]; intros failures timeout fuel w Hs Hf Hk.
  - destruct (polls_to_expiry_spec timeout) as [Hle Hgt].
    destruct (wait_acc_expiry _ timeout failures (12 * 0 + fuel) w Hs Hle Hgt)
      as (w1 & Hs1 & Ht & Hrun).
    exists w1. unfold polls_to_expiry. split.
    + rewrite <- Nat.add_assoc. rewrite Hrun.
      replace (failures + 1) with 5 by lia. apply escalate_exhausted.
    + simpl escalations. rewrite app_nil_r. exact Ht.
  - destruct (polls_to_expiry_spec timeout) as [Hle Hgt].
    destruct (wait_acc_expiry _ timeout failures (12 * S k + fuel) w Hs Hle Hgt)
      as (w1 & Hs1 & Ht & Hrun).
    destruct (escalate_reboot (12 * S k + fuel) (failures + 1) w1 Hs1 ltac:(lia))
      as (w2 & Hs2 & Ht2 & Hesc).
    destruct (IH (failures + 1) 240 fuel w2 Hs2 ltac:(lia) ltac:(lia))
      as (w' & Hrun' & Ht').
    exists w'. unfold polls_to_expiry at 1. split.
    + rewrite <- Nat.add_assoc. rewrite Hrun, Hesc.
      replace (12 * S k + fuel)%nat with (polls_to_expiry 240 + 12 * k + fuel)%nat
        by (change (polls_to_expiry 240) with 12%nat; lia).
      exact Hrun'.
    + rewrite Ht', Ht2, Ht.
      change (polls_to_expiry 240) with 12%nat.
      simpl escalations. rewrite <- !app_assoc. reflexivity.
Qed.

Lemma rounds_no_reboot n host :
  Forall (fun e => is_reboot_of host e = false) (rounds n acc).
Proof. induction n; simpl; auto. Qed.

Lemma count_reboots_escalations k n :
  count (is_reboot_of (bmc_url b)) (rounds n acc ++ escalations k b acc) = k.
Proof.
  rewrite count_app, (count_none _ _ (rounds_no_reboot n _)). simpl.
  induction k as [|k IH]; [reflexivity|].
  change (escalations (S k) b acc)
    with (escalation_events b ++ rounds 12 acc ++ escalations k b acc).
  rewrite !count_app, IH.
  rewrite (count_none _ _ (rounds_no_reboot 12 _)).
  unfold count, escalation_events. simpl. rewrite String.eqb_refl. reflexivity.
Qed.

Lemma rounds_pings n : count is_ping (rounds n acc) = n.
Proof. induction n as [|n IH]; [reflexivity|]. simpl. unfold count in *. simpl. auto. Qed.

Lemma escalations_pings k : count is_ping (escalations k b acc) = (12 * k)%nat.
Proof.
  induction k as [|k IH]; [reflexivity|].
  change (escalations (S k) b acc)
    with (escalation_events b ++ rounds 12 acc ++ escalations k b acc).
  rewrite !count_app, IH, rounds_pings. unfold count, escalation_events. simpl. lia.
Qed.

(** C3, as amended.  When the ACC never answers a ping and the console
    stays reachable, [_wait_for_acc_with_retry] ends in
    [logger.error_and_exit] at the fifth expiry of the countdown, whatever
    the initial [timeout]: the calls it makes are the polls up to the first
    expiry, then four times a console reboot followed by the twelve polls of
    a 240 s countdown.  The console is rebooted four times, not five: the
    fifth expiry exits before the reboot. *)
Theorem wait_for_acc_gives_up_after_four_reboots timeout fuel w :
  stuck (env w) ->
  (polls_to_expiry timeout + 48 <= fuel)%nat ->
  exists w',
    _wait_for_acc_with_retry fuel self acc timeout w
    = (Raise exhausted, w')
    /\ trace w' = trace w ++ rounds (polls_to_expiry timeout) acc ++ escalations 4 b acc
    /\ count (is_reboot_of (bmc_url b))
             (rounds (polls_to_expiry timeout) acc ++ escalations 4 b acc) = 4%nat
    /\ count is_ping (rounds (polls_to_expiry timeout) acc ++ escalations 4 b acc)
       = (polls_to_expiry timeout + 4 * 12)%nat.
Proof.
  intros Hs Hfuel.
  destruct (wait_acc_never_alive 4 0 timeout (fuel - (polls_to_expiry timeout + 48)) w
              Hs eq_refl (le_n 4)) as (w' & Hrun & Ht).
  replace (polls_to_expiry timeout + 12 * 4 + (fuel - (polls_to_expiry timeout + 48)))%nat
    with fuel in Hrun by lia.
  exists w'. split; [|split; [exact Ht|split]].
  - unfold _wait_for_acc_with_retry, bind. rewrite Hrun. reflexivity.
  - apply count_reboots_escalations.
  - rewrite count_app, rounds_pings, escalations_pings. lia.
Qed.

End NeverAlive.

(* ================================================================== *)
(** ** Waiting for the virtual media *)

Section MediaWait.
Context {E : Type} {backend : Backend E}.
Variables (self : IPUBMC) (iso_path : string) (expected_size : Z).

(** One turn of the loop. *)
Lemma wait_inserted_step fuel imc filename wait_until loop_count w :
  wait_inserted (S fuel) self imc iso_path expected_size filename wait_until loop_count w
  = match _virtual_media_is_inserted self filename w with
    | (Ok true, w1) => (Ok tt, w1)
    | (Ok false, w1) =>
        if Qle_bool wait_until (time_monotonic (env (slept 10 w1)))
        then (Raise (timeout_error iso_path), slept 10 w1)
        else
          match (if loop_count mod 6 =? 0
                 then log_progress imc expected_size else ret tt) (slept 10 w1) with
          | (Ok _, w3) =>
              wait_inserted fuel self imc iso_path expected_size filename wait_until
                            (loop_count + 1) w3
          | (Raise e, w3) => (Raise e, w3)
          | (OutOfFuel, w3) => (OutOfFuel, w3)
          end
    | (Raise e, w1) => (Raise e, w1)
    | (OutOfFuel, w1) => (OutOfFuel, w1)
    end.
Proof.
  simpl. unfold bind at 1.
  destruct (_virtual_media_is_inserted self filename w) as [[[|] | e |] w1];
    try reflexivity.
  unfold bind at 1. unfold sleep, call. simpl.
  unfold bind at 1. unfold monotonic. simpl.
  fold (slept 10 w1). unfold slept at 1. simpl env.
  destruct (Qle_bool wait_until (time_monotonic (time_sleep 10 (env w1))));
    reflexivity.
Qed.


Lemma requests_get_clock url w :
  clock_advances -> (now w <= now (snd (_requests_get self url w)))%Q.
Proof.
  intros (Hget & _). unfold _requests_get, catch, bind, http_get, call_opt, bind, call, now.
  specialize (Hget url (self_user self) (self_password self) (env w)).
  destruct (requests_get url (self_user self) (self_password self) (env w))
    as [[response|] s1]; simpl in *; [|exact Hget].
  unfold raise_for_status.
  destruct (is_error_status (status_code response));
    simpl; [exact Hget|].
  unfold response_json. destruct (json_body response); simpl; exact Hget.
Qed.

Lemma virtual_media_clock filename w :
  clock_advances ->
  (now w <= now (snd (_virtual_media_is_inserted self filename w)))%Q.
Proof.
  intros Hc. unfold _virtual_media_is_inserted, bind.
  pose proof (requests_get_clock (redfish self "Systems/1/VirtualMedia/1") w Hc) as Hg.
  destruct (_requests_get self (redfish self "Systems/1/VirtualMedia/1") w)
    as [[data | e |] w1]; simpl in *; try exact Hg.
  destruct (dict_get "Inserted" data) as [[| [|] | | |]|]; try exact Hg.
  destruct (dict_get "ImageName" data) as [[| | | |]|]; exact Hg.
Qed.

Lemma get_file_size_clock rsh filename w :
  clock_advances -> (now w <= now (snd (_get_file_size rsh filename w)))%Q.
Proof.
  intros (_ & Hrun & _).
  unfold _get_file_size, bind, try_except, catch, run, call_opt, bind, call, now.
  specialize (Hrun rsh ("du -b " ++ PyStr.shlex_quote filename)%string (env w)).
  destruct (host_run rsh ("du -b " ++ PyStr.shlex_quote filename)%string (env w))
    as [[res|] s1]; simpl in *; [|exact Hrun].
  destruct (negb (returncode res =? 0)); simpl; [exact Hrun|].
  destruct (PyStr.first_token (out res)) as [tok|]; simpl; [|exact Hrun].
  destruct (PyStr.py_int tok) as [val|]; simpl; [|exact Hrun].
  destruct (val <? 0); exact Hrun.
Qed.

Lemma log_progress_clock imc w :
  clock_advances -> (now w <= now (snd (log_progress imc expected_size w)))%Q.
Proof.
  intros Hc. unfold log_progress, bind.
  pose proof (get_file_size_clock imc imc_iso w Hc) as Hg.
  destruct (_get_file_size imc imc_iso w) as [[fs | e |] w1]; simpl in *; try exact Hg.
  destruct (float_overflows match fs with Some n => n | None => 0 end
            || float_overflows expected_size); [exact Hg|].
  destruct (expected_size =? 0); exact Hg.
Qed.

Lemma virtual_media_fueled filename : fueled (_virtual_media_is_inserted self filename).
Proof. fueled_steps. Qed.

Lemma log_progress_fueled imc : fueled (log_progress imc expected_size).
Proof. fueled_steps. Qed.

(** With the clock advancing, [fuel] turns are enough for a deadline that
    is at most [10 * fuel] seconds away. *)
Lemma wait_inserted_bounded imc filename wait_until :
  clock_advances ->
  forall fuel loop_count w,
    (0 < fuel)%nat ->
    (wait_until - now w <= 10 * inject_Z (Z.of_nat fuel))%Q ->
    fst (wait_inserted fuel self imc iso_path expected_size filename wait_until
                       loop_count w) <> OutOfFuel.
Proof.
  intros Hc. induction fuel as [|fuel IH]; intros loop_count w Hpos Hleft; [lia|].
  rewrite wait_inserted_step.
  pose proof (virtual_media_clock filename w Hc) as Hcheck.
  destruct (_virtual_media_is_inserted self filename w) as [[[|] | e |] w1] eqn:Hrun;
    simpl in Hcheck; try (simpl; discriminate);
    [ | exfalso; pose proof (virtual_media_fueled filename w) as Hf;
        rewrite Hrun in Hf; apply Hf; reflexivity ].
  - assert (Hsleep : (now w1 + 10 <= now (slept 10 w1))%Q)
      by (destruct Hc as (_ & _ & _ & Hs); apply Hs).
    destruct (Qle_bool wait_until (time_monotonic (env (slept 10 w1)))) eqn:Hdue;
      [simpl; discriminate|].
    assert (Hnot : ~ (wait_until <= now (slept 10 w1))%Q)
      by (intros Hle; apply Qle_bool_iff in Hle; unfold now in Hle; congruence).
    assert (Hlog : (now (slept 10 w1)
                    <= now (snd ((if loop_count mod 6 =? 0
                                  then log_progress imc expected_size
                                  else ret tt) (slept 10 w1))))%Q).
    { destruct (loop_count mod 6 =? 0); [apply log_progress_clock; exact Hc|].
      simpl. apply Qle_refl. }
    destruct ((if loop_count mod 6 =? 0
               then log_progress imc expected_size else ret tt) (slept 10 w1))
      as [[u | e |] w3] eqn:Hlp; simpl in Hlog.
    + rewrite Nat2Z.inj_succ in Hleft. unfold Z.succ in Hleft.
      rewrite inject_Z_plus in Hleft. change (inject_Z 1) with 1%Q in Hleft.
      assert (Hrest : (wait_until - now w3 <= 10 * inject_Z (Z.of_nat fuel))%Q) by lra.
      assert (Hmore : (0 < 10 * inject_Z (Z.of_nat fuel))%Q) by lra.
      apply IH; [|exact Hrest].
      destruct fuel; [|lia]. exfalso. simpl in Hmore.
      change (inject_Z 0) with 0%Q in Hmore. lra.
    + simpl. discriminate.
    + exfalso. destruct (loop_count mod 6 =? 0); [|discriminate].
      pose proof (log_progress_fueled imc (slept 10 w1)) as Hf.
      rewrite Hlp in Hf. apply Hf. reflexivity.
Qed.

Lemma create_imc_rsh_clock w :
  clock_advances -> (now w <= now (snd (_create_imc_rsh self w)))%Q.
Proof.
  intros (_ & _ & Hssh & _).
  unfold _create_imc_rsh, bind, host_ssh_connect, call_ok, bind, call, now.
  specialize (Hssh (self_url self) root_login (env w)).
  destruct (ssh_connect (self_url self) root_login (env w)) as [[|] s1]; exact Hssh.
Qed.

Lemma create_imc_rsh_fueled : fueled (_create_imc_rsh self).
Proof. fueled_steps. Qed.

Lemma wait_iso_downloaded_unfold fuel w :
  _wait_iso_downloaded fuel self iso_path expected_size w
  = match urlparse iso_path with
    | None => (Raise (ValueError "urlparse"), w)
    | Some u =>
        if String.eqb (path u) EmptyString
        then (Raise (ValueError ("URL " ++ repr iso_path ++ " has not path name")%string), w)
        else match _create_imc_rsh self w with
             | (Ok imc, w1) =>
                 wait_inserted fuel self imc iso_path expected_size
                               (PyStr.basename (path u)) (now w + 3600)%Q 0 w1
             | (Raise e, w1) => (Raise e, w1)
             | (OutOfFuel, w1) => (OutOfFuel, w1)
             end
    end.
Proof.
  unfold _wait_iso_downloaded, bind, monotonic, url_extract_filename, now.
  destruct (urlparse iso_path) as [u|]; [|reflexivity].
  destruct (String.eqb (path u) EmptyString); reflexivity.
Qed.

(** The deadline is 3600 s after the start: with the clock advancing, 360
    turns are enough. *)
Lemma wait_iso_downloaded_fueled fuel :
  clock_advances -> (360 <= fuel)%nat ->
  fueled (_wait_iso_downloaded fuel self iso_path expected_size).
Proof.
  intros Hclock Hfuel w. rewrite wait_iso_downloaded_unfold.
  destruct (urlparse iso_path) as [u|]; [|simpl; discriminate].
  destruct (String.eqb (path u) EmptyString); [simpl; discriminate|].
  pose proof (create_imc_rsh_clock w Hclock) as Hssh.
  pose proof (create_imc_rsh_fueled w) as Hf.
  destruct (_create_imc_rsh self w) as [[imc | e |] w1]; simpl in Hssh, Hf;
    [ | simpl; discriminate | congruence ].
  apply wait_inserted_bounded; [exact Hclock | lia |].
  assert (Hq : (inject_Z 360 <= inject_Z (Z.of_nat fuel))%Q).
  { rewrite <- Zle_Qle. lia. }
  change (inject_Z 360) with 360%Q in Hq. lra.
Qed.


End MediaWait.

(* ================================================================== *)
(** ** [boot_iso_with_redfish], phase by phase *)

Section Boot.
Context {E : Type} {backend : Backend E}.
Variables (fuel : nat) (self : IPUBMC) (iso_path : string).

Lemma boot_phases w :
  boot_iso_with_redfish fuel self iso_path w
  = (p <- boot_prelude self iso_path;;
     boot_media fuel self iso_path (snd p) (fst p);;
     boot_finish self iso_path (snd p)) w.
Proof.
  unfold boot_iso_with_redfish, boot_prelude, boot_media, boot_finish, keep_existing.
  unfold bind.
  destruct (url_get_size iso_path w) as [[[n|] | e |] w1]; try reflexivity.
  destruct (extract_server iso_path w1) as [[server | e |] w2]; try reflexivity.
  destruct (_prepare_imc self server w2) as [[[] | e |] w3]; try reflexivity.
  destruct (_restart_redfish self w3) as [[[] | e |] w4]; try reflexivity.
  destruct (_create_imc_rsh self w4) as [[imc | e |] w5]; try reflexivity.
  simpl.
  destruct (matching_url imc iso_path w5) as [[[|] | e |] w6]; try reflexivity.
  destruct (same_size imc n w6) as [[[|] | e |] w7]; reflexivity.
Qed.

Lemma redfish_eqb a b :
  String.eqb (redfish self a) (redfish self b) = String.eqb a b.
Proof.
  destruct (String.eqb_spec a b) as [-> | Hne].
  - apply String.eqb_refl.
  - apply String.eqb_neq. intros Heq. apply Hne. unfold redfish in Heq.
    apply append_inj_l in Heq. apply append_inj_l in Heq.
    apply append_inj_l in Heq. exact Heq.
Qed.

Lemma key_cleanup : key_event self (cleanup_event self) = true.
Proof. reflexivity. Qed.

Lemma key_insert : key_event self (insert_event self iso_path) = true.
Proof.
  unfold key_event, insert_event, is_insert_media. rewrite String.eqb_refl. reflexivity.
Qed.

Lemma key_reset : key_event self (reset_event self) = true.
Proof.
  unfold key_event, reset_event, is_insert_media, insert_media_url, is_reset.
  rewrite redfish_eqb, String.eqb_refl. reflexivity.
Qed.

Lemma filter_silent (evs : list Event) : Forall (silent self) evs -> filter (key_event self) evs = [].
Proof.
  induction 1 as [|e l He _ IH]; simpl; [reflexivity|]. rewrite He. exact IH.
Qed.

Lemma emits_run {A} P (m : M E A) w r w' :
  emits P m -> m w = (r, w') ->
  exists evs, trace w' = trace w ++ evs /\ Forall P evs.
Proof. intros Hm Hrun. specialize (Hm w). rewrite Hrun in Hm. exact Hm. Qed.

(** A POST or a PATCH always returns: a failure of the request is logged
    and dropped. *)
Lemma requests_post_run url data w :
  exists w', _requests_post self url data w = (Ok tt, w')
    /\ trace w' = trace w ++ [EvPost url data (self_user self) (self_password self)].
Proof.
  unfold _requests_post, catch, bind, http_post, call_opt, bind, call.
  destruct (requests_post url data (self_user self) (self_password self) (env w))
    as [[response|] s1]; simpl.
  - unfold raise_for_status.
    destruct (is_error_status (status_code response));
      simpl; eexists; split; reflexivity.
  - eexists; split; reflexivity.
Qed.

Lemma requests_patch_run url data w :
  exists w', _requests_patch self url data w = (Ok tt, w')
    /\ trace w' = trace w ++ [EvPatch url data (self_user self) (self_password self)].
Proof.
  unfold _requests_patch, catch, bind, http_patch, call_opt, bind, call.
  destruct (requests_patch url data (self_user self) (self_password self) (env w))
    as [[response|] s1]; simpl.
  - unfold raise_for_status.
    destruct (is_error_status (status_code response));
      simpl; eexists; split; reflexivity.
  - eexists; split; reflexivity.
Qed.

Ltac silent_calls :=
  unfold silent, key_event, is_insert_media, insert_media_url, is_reset;
  first [ reflexivity | rewrite ?redfish_eqb; reflexivity ].

Lemma silent_prelude : emits (silent self) (boot_prelude self iso_path).
Proof. emits_steps; silent_calls. Qed.

Lemma silent_keep_existing imc n : emits (silent self) (keep_existing iso_path imc n).
Proof. emits_steps; silent_calls. Qed.

Lemma silent_restart_redfish : emits (silent self) (_restart_redfish self).
Proof. emits_steps; silent_calls. Qed.

Lemma silent_create_imc_rsh : emits (silent self) (_create_imc_rsh self).
Proof. emits_steps; silent_calls. Qed.

Lemma silent_wait_inserted imc n filename wait_until :
  forall fuel' loop_count,
    emits (silent self) (wait_inserted fuel' self imc iso_path n filename wait_until loop_count).
Proof.
  induction fuel' as [|fuel' IH]; intros loop_count; [apply emits_out_of_fuel|].
  simpl. apply emits_bind; [emits_steps; silent_calls|]. intros inserted.
  destruct inserted; [apply emits_ret|].
  apply emits_bind; [emits_steps; silent_calls|]. intros _.
  apply emits_bind; [apply emits_monotonic|]. intros t.
  destruct (Qle_bool wait_until t); [apply emits_raise|].
  apply emits_bind; [|intros _; apply IH].
  destruct (loop_count mod 6 =? 0); emits_steps; silent_calls.
Qed.

Lemma silent_wait_iso_downloaded n : emits (silent self) (_wait_iso_downloaded fuel self iso_path n).
Proof.
  unfold _wait_iso_downloaded.
  apply emits_bind; [apply emits_monotonic|]. intros t.
  apply emits_bind; [emits_steps|]. intros filename.
  apply emits_bind; [apply silent_create_imc_rsh|]. intros imc.
  apply silent_wait_inserted.
Qed.

Lemma silent_write host file contents : emits (silent self) (write host file contents).
Proof. emits_steps; silent_calls. Qed.

Lemma sleep_run seconds w :
  sleep seconds w = (Ok tt, mkWorld (time_sleep seconds (env w)) (trace w ++ [EvSleep seconds])).
Proof. reflexivity. Qed.

(** What [boot_finish] adds to the trace, reduced to the key events: the
    three of a boot when it returns; nothing, or the enabling PATCH and the
    reset, when it raises. *)
Lemma boot_finish_events imc w :
  exists evs,
    trace (snd (boot_finish self iso_path imc w)) = trace w ++ evs
    /\ match fst (boot_finish self iso_path imc w) with
       | Ok _ => filter (key_event self) evs = [enable_event self; reset_event self; disable_event self]
       | _ => filter (key_event self) evs = []
              \/ filter (key_event self) evs = [enable_event self; reset_event self]
       end.
Proof.
  destruct (boot_finish self iso_path imc w) as [r w'] eqn:Hrun. simpl fst. simpl snd.
  unfold boot_finish in Hrun.
  destruct (write imc imc_url_path iso_path w) as [[[] | e |] w1] eqn:Hwrite;
    (destruct (emits_run (silent self) _ _ _ _ (silent_write _ _ _) Hwrite)
      as (e1 & T1 & F1));
    [ | erewrite bind_raise in Hrun by eassumption; injection Hrun as <- <-;
        exists e1; split; [exact T1|]; left; apply filter_silent; exact F1
      | erewrite bind_out_of_fuel in Hrun by eassumption; injection Hrun as <- <-;
        exists e1; split; [exact T1|]; left; apply filter_silent; exact F1 ].
  erewrite bind_ok in Hrun by eassumption.
  destruct (requests_patch_run (redfish self "Systems/1") override_cd w1)
    as (w2 & H2 & T2).
  unfold _bootsource_override_cd in Hrun. erewrite bind_ok in Hrun by eassumption.
  destruct (requests_post_run (redfish self "Managers/1/Actions/Manager.Reset")
              [("ResetType", JStr "ForceRestart")] w2) as (w3 & H3 & T3).
  unfold _reboot in Hrun. erewrite bind_ok in Hrun by eassumption.
  erewrite bind_ok in Hrun by apply sleep_run.
  set (w4 := mkWorld (time_sleep (5 * 60) (env w3)) (trace w3 ++ [EvSleep (5 * 60)]))
    in Hrun.
  assert (T4 : trace w4 = trace w ++ e1 ++ [enable_event self; reset_event self; EvSleep (5 * 60)]).
  { subst w4. simpl trace. rewrite T3, T2, T1. rewrite <- !app_assoc. reflexivity. }
  clearbody w4.
  destruct (_restart_redfish self w4) as [[[] | e |] w5] eqn:Hrestart;
    (destruct (emits_run (silent self) _ _ _ _ silent_restart_redfish Hrestart)
      as (e5 & T5 & F5)).
  - erewrite bind_ok in Hrun by eassumption.
    destruct (requests_patch_run (redfish self "Systems/1") override_disabled w5)
      as (w6 & H6 & T6).
    unfold _unset_bootsource_override in Hrun. rewrite H6 in Hrun.
    injection Hrun as <- <-.
    exists (e1 ++ [enable_event self; reset_event self; EvSleep (5 * 60)] ++ e5 ++ [disable_event self]).
    split; [rewrite T6, T5, T4; rewrite <- !app_assoc; reflexivity|].
    rewrite !filter_app, (filter_silent _ F1), (filter_silent _ F5).
    simpl. rewrite key_reset. reflexivity.
  - erewrite bind_raise in Hrun by eassumption. injection Hrun as <- <-.
    exists (e1 ++ [enable_event self; reset_event self; EvSleep (5 * 60)] ++ e5).
    split; [rewrite T5, T4; rewrite <- !app_assoc; reflexivity|].
    right. rewrite !filter_app, (filter_silent _ F1), (filter_silent _ F5).
    simpl. rewrite key_reset. reflexivity.
  - erewrite bind_out_of_fuel in Hrun by eassumption. injection Hrun as <- <-.
    exists (e1 ++ [enable_event self; reset_event self; EvSleep (5 * 60)] ++ e5).
    split; [rewrite T5, T4; rewrite <- !app_assoc; reflexivity|].
    right. rewrite !filter_app, (filter_silent _ F1), (filter_silent _ F5).
    simpl. rewrite key_reset. reflexivity.
Qed.

Lemma filter_sub (p q : Event -> bool) (l : list Event) :
  (forall e, p e = true -> q e = true) -> filter p (filter q l) = filter p l.
Proof.
  intros Hsub. induction l as [|e l IH]; simpl; [reflexivity|].
  destruct (q e) eqn:Hq; simpl.
  - rewrite IH. reflexivity.
  - destruct (p e) eqn:Hp; [|exact IH]. apply Hsub in Hp. congruence.
Qed.

Lemma matching_url_ok imc w : exists b w1, matching_url imc iso_path w = (Ok b, w1).
Proof.
  unfold matching_url, try_except, catch, bind, read_file, call_opt, bind, call.
  destruct (host_read_file imc imc_url_path (env w)) as [[contents|] s1]; simpl; do 2 eexists; reflexivity.
Qed.

Lemma get_file_size_ok rsh filename w :
  exists r w1, _get_file_size rsh filename w = (Ok r, w1).
Proof.
  unfold _get_file_size, try_except, catch, bind, run, call_opt, bind, call.
  destruct (host_run rsh _ (env w)) as [[res|] s1]; simpl; [|do 2 eexists; reflexivity].
  destruct (negb (returncode res =? 0)); simpl; [do 2 eexists; reflexivity|].
  destruct (PyStr.first_token (out res)) as [tok|]; simpl; [|do 2 eexists; reflexivity].
  destruct (PyStr.py_int tok) as [val|]; simpl; [|do 2 eexists; reflexivity].
  destruct (val <? 0); do 2 eexists; reflexivity.
Qed.

Lemma keep_existing_ok imc n w : exists keep w1, keep_existing iso_path imc n w = (Ok keep, w1).
Proof.
  unfold keep_existing.
  destruct (matching_url_ok imc w) as (b & w1 & Hm).
  erewrite bind_ok by eassumption. destruct b; [|unfold ret; do 2 eexists; reflexivity].
  unfold same_size.
  destruct (get_file_size_ok imc imc_iso w1) as (r & w2 & Hs).
  erewrite bind_ok by eassumption. unfold ret. do 2 eexists; reflexivity.
Qed.

(** [_cleanup_iso] opens a session and runs the removal. *)
Lemma cleanup_iso_events w :
  exists evs,
    trace (snd (_cleanup_iso self w)) = trace w ++ evs
    /\ match fst (_cleanup_iso self w) with
       | Ok _ => filter (key_event self) evs = [cleanup_event self]
       | _ => filter (key_event self) evs = [] \/ filter (key_event self) evs = [cleanup_event self]
       end.
Proof.
  unfold _cleanup_iso, _create_imc_rsh, bind, host_ssh_connect, call_ok, bind, call,
    run, call_opt, bind, call.
  destruct (ssh_connect (self_url self) root_login (env w)) as [[|] s1]; simpl.
  - destruct (host_run (self_url self) "rm -f /mnt/imc/acc-os.iso" s1) as [[res|] s2];
      simpl; eexists; (split; [rewrite <- app_assoc; reflexivity|]); simpl; auto.
  - eexists; split; [reflexivity|]. simpl; auto.
Qed.

(** [_insert_media] posts the action once, whatever comes of the wait. *)
Lemma insert_media_events n w :
  exists evs,
    trace (snd (_insert_media fuel self iso_path n w)) = trace w ++ evs
    /\ filter (key_event self) evs = [insert_event self iso_path].
Proof.
  destruct (_insert_media fuel self iso_path n w) as [r w'] eqn:Hrun. simpl snd.
  unfold _insert_media in Hrun.
  destruct (requests_post_run (insert_media_url self)
              [("Image", JStr iso_path); ("TransferMethod", JStr "Upload")] w)
    as (w1 & H1 & T1).
  erewrite bind_ok in Hrun by eassumption.
  destruct (emits_run (silent self) _ _ _ _ (silent_wait_iso_downloaded n) Hrun)
    as (e2 & T2 & F2).
  exists ([insert_event self iso_path] ++ e2). split; [rewrite T2, T1, <- app_assoc; reflexivity|].
  rewrite filter_app, (filter_silent _ F2). simpl. rewrite key_insert. reflexivity.
Qed.

(** Steps 4 and 5 by the outcome of the test: a kept image costs no key
    call; otherwise the image is removed and InsertMedia posted once. *)
Lemma boot_media_events imc n w keep w1 :
  keep_existing iso_path imc n w = (Ok keep, w1) ->
  exists evs,
    trace (snd (boot_media fuel self iso_path imc n w)) = trace w ++ evs
    /\ (if keep
        then fst (boot_media fuel self iso_path imc n w) = Ok tt /\ filter (key_event self) evs = []
        else match fst (_cleanup_iso self w1) with
             | Ok _ => filter (key_event self) evs = [cleanup_event self; insert_event self iso_path]
             | _ => fst (boot_media fuel self iso_path imc n w) <> Ok tt
                    /\ (filter (key_event self) evs = []
                        \/ filter (key_event self) evs = [cleanup_event self])
             end).
Proof.
  intros Hkeep.
  destruct (emits_run (silent self) _ _ _ _ (silent_keep_existing imc n) Hkeep)
    as (e1 & T1 & F1).
  destruct (boot_media fuel self iso_path imc n w) as [r w'] eqn:Hrun. simpl fst. simpl snd.
  unfold boot_media in Hrun. erewrite bind_ok in Hrun by eassumption.
  destruct keep.
  - injection Hrun as <- <-. exists e1. split; [exact T1|].
    split; [reflexivity | apply filter_silent; exact F1].
  - destruct (cleanup_iso_events w1) as (e2 & T2 & K2).
    destruct (_cleanup_iso self w1) as [[[] | e |] w2] eqn:Hclean; simpl in T2, K2.
    + erewrite bind_ok in Hrun by eassumption.
      destruct (insert_media_events n w2) as (e3 & T3 & K3).
      rewrite Hrun in T3. simpl in T3.
      exists (e1 ++ e2 ++ e3). split; [rewrite T3, T2, T1, <- !app_assoc; reflexivity|].
      rewrite !filter_app, (filter_silent _ F1), K2, K3. reflexivity.
    + erewrite bind_raise in Hrun by eassumption. injection Hrun as <- <-.
      exists (e1 ++ e2). split; [rewrite T2, T1, <- !app_assoc; reflexivity|].
      split; [discriminate|].
      rewrite !filter_app, (filter_silent _ F1). exact K2.
    + erewrite bind_out_of_fuel in Hrun by eassumption. injection Hrun as <- <-.
      exists (e1 ++ e2). split; [rewrite T2, T1, <- !app_assoc; reflexivity|].
      split; [discriminate|].
      rewrite !filter_app, (filter_silent _ F1). exact K2.
Qed.

(** The key events of a call that got as far as the test of step 4. *)
Lemma boot_run_events w n imc w1 keep w2 :
  boot_prelude self iso_path w = (Ok (n, imc), w1) ->
  keep_existing iso_path imc n w1 = (Ok keep, w2) ->
  exists evs media fin,
    trace (snd (boot_iso_with_redfish fuel self iso_path w)) = trace w ++ evs
    /\ filter (key_event self) evs = media ++ fin
    /\ (if keep then media = []
        else match fst (_cleanup_iso self w2) with
             | Ok _ => media = [cleanup_event self; insert_event self iso_path]
             | _ => (media = [] \/ media = [cleanup_event self]) /\ fin = []
             end)
    /\ match fst (boot_iso_with_redfish fuel self iso_path w) with
       | Ok _ => fin = enable_reset_disable self
       | _ => fin = [] \/ fin = enable_reset self
       end.
Proof.
  intros Hpre Hkeep. rewrite boot_phases.
  destruct (emits_run (silent self) _ _ _ _ silent_prelude Hpre) as (e0 & T0 & F0).
  erewrite bind_ok by eassumption. simpl fst. simpl snd.
  destruct (boot_media_events imc n w1 keep w2 Hkeep) as (em & Tm & Km).
  destruct (boot_media fuel self iso_path imc n w1) as [[[] | e |] wm] eqn:Hmedia; simpl in Tm, Km.
  - erewrite bind_ok by eassumption.
    destruct (boot_finish_events imc wm) as (ef & Tf & Kf).
    exists (e0 ++ em ++ ef), (filter (key_event self) em), (filter (key_event self) ef).
    split; [rewrite Tf, Tm, T0, <- !app_assoc; reflexivity|].
    split; [rewrite !filter_app, (filter_silent _ F0); reflexivity|].
    split.
    + destruct keep; [apply Km|].
      destruct (fst (_cleanup_iso self w2)); [exact Km | | ];
        destruct Km as [Hne _]; exfalso; apply Hne; reflexivity.
    + destruct (fst (boot_finish self iso_path imc wm)); [exact Kf | | ];
        (destruct Kf as [Kf | Kf]; [left | right]; exact Kf).
  - erewrite bind_raise by eassumption. simpl.
    exists (e0 ++ em), (filter (key_event self) em), [].
    split; [rewrite Tm, T0, <- !app_assoc; reflexivity|].
    split; [rewrite !filter_app, (filter_silent _ F0), app_nil_r; reflexivity|].
    split; [|left; reflexivity].
    destruct keep; [apply Km|].
    destruct (fst (_cleanup_iso self w2));
      [exact Km | split; [apply Km | reflexivity] | split; [apply Km | reflexivity]].
  - erewrite bind_out_of_fuel by eassumption. simpl.
    exists (e0 ++ em), (filter (key_event self) em), [].
    split; [rewrite Tm, T0, <- !app_assoc; reflexivity|].
    split; [rewrite !filter_app, (filter_silent _ F0), app_nil_r; reflexivity|].
    split; [|left; reflexivity].
    destruct keep; [apply Km|].
    destruct (fst (_cleanup_iso self w2));
      [exact Km | split; [apply Km | reflexivity] | split; [apply Km | reflexivity]].
Qed.

Lemma patch_is_key e : is_patch e = true -> key_event self e = true.
Proof. intros H. unfold key_event. rewrite H, orb_true_r. reflexivity. Qed.





Lemma silent_no_patch (evs : list Event) : Forall (silent self) evs -> filter is_patch evs = [].
Proof.
  intros F. rewrite <- (filter_sub is_patch (key_event self)) by exact patch_is_key.
  rewrite (filter_silent _ F). reflexivity.
Qed.

Lemma url_get_size_run w :
  url_get_size iso_path w
  = (Ok (usable_content_length (fst (requests_head iso_path (env w)))),
     mkWorld (snd (requests_head iso_path (env w))) (trace w ++ [EvHead iso_path])).
Proof.
  unfold url_get_size, try_except, catch, bind, call_opt, bind, call,
    usable_content_length.
  destruct (requests_head iso_path (env w)) as [[[h|]|] s1]; simpl; try reflexivity.
  destruct (PyStr.py_int (PyStr.strip h)) as [val|]; simpl; [|reflexivity].
  destruct (val <? 0); reflexivity.
Qed.

(** With the clock advancing and 360 turns for the media wait, the call
    returns or raises. *)
Lemma boot_completes :
  clock_advances -> (360 <= fuel)%nat ->
  fueled (boot_iso_with_redfish fuel self iso_path).
Proof.
  intros Hclock Hfuel. unfold boot_iso_with_redfish, _insert_media.
  repeat first [ apply wait_iso_downloaded_fueled; assumption | fueled_step ].
Qed.

(** C2, as amended.  [boot_iso_with_redfish] has no clean-up clause: the
    PATCHes it sends are, in order, the one that arms the one-shot Cd
    override and the one that disables it when the call returns; when the
    call raises, the disabling PATCH has not been sent, and the arming one
    has been sent or not, according to where the call failed.  (With the
    clock advancing, 360 turns of the media wait are enough for the call to
    return or raise.) *)
Theorem boot_override_patches w :
  (clock_advances -> (360 <= fuel)%nat ->
   fst (boot_iso_with_redfish fuel self iso_path w) <> OutOfFuel)
  /\ exists evs,
      trace (snd (boot_iso_with_redfish fuel self iso_path w)) = trace w ++ evs
      /\ match fst (boot_iso_with_redfish fuel self iso_path w) with
         | Ok _ => filter is_patch evs = [enable_event self; disable_event self]
         | _ => filter is_patch evs = [] \/ filter is_patch evs = [enable_event self]
         end.
Proof.
  split; [intros Hclock Hfuel; apply boot_completes; assumption|].
  destruct (boot_prelude self iso_path w) as [[[n imc] | e |] w1] eqn:Hpre.
  - destruct (keep_existing_ok imc n w1) as (keep & w2 & Hkeep).
    destruct (boot_run_events w n imc w1 keep w2 Hpre Hkeep)
      as (evs & media & fin & T & K & Hmedia & Hfin).
    exists evs. split; [exact T|].
    assert (Hp : filter is_patch evs = filter is_patch fin).
    { rewrite <- (filter_sub is_patch (key_event self)) by exact patch_is_key.
      rewrite K, filter_app.
      replace (filter is_patch media) with (@nil Event); [reflexivity|].
      destruct keep; [subst media; reflexivity|].
      destruct (fst (_cleanup_iso self w2));
        [ subst media; reflexivity
        | destruct Hmedia as [[-> | ->] _]; reflexivity
        | destruct Hmedia as [[-> | ->] _]; reflexivity ]. }
    rewrite Hp.
    destruct (fst (boot_iso_with_redfish fuel self iso_path w));
      [ subst fin; reflexivity
      | destruct Hfin as [-> | ->]; [left | right]; reflexivity
      | destruct Hfin as [-> | ->]; [left | right]; reflexivity ].
  - destruct (emits_run (silent self) _ _ _ _ silent_prelude Hpre) as (e0 & T0 & F0).
    rewrite boot_phases. erewrite bind_raise by eassumption. simpl.
    exists e0. split; [exact T0|]. left. apply silent_no_patch. exact F0.
  - destruct (emits_run (silent self) _ _ _ _ silent_prelude Hpre) as (e0 & T0 & F0).
    rewrite boot_phases. erewrite bind_out_of_fuel by eassumption. simpl.
    exists e0. split; [exact T0|]. left. apply silent_no_patch. exact F0.
Qed.

(** C6.  When the reply to the HEAD request yields no usable
    [Content-Length], [boot_iso_with_redfish] raises the size error at once:
    the HEAD request is the only call it has made, so no InsertMedia action
    has been posted. *)
Theorem boot_fails_fast_without_size w :
  usable_content_length (fst (requests_head iso_path (env w))) = None ->
  exists w',
    boot_iso_with_redfish fuel self iso_path w
    = (Raise (RuntimeError ("failed to determine file size of URL "
                            ++ repr iso_path)%string), w')
    /\ trace w' = trace w ++ [EvHead iso_path]
    /\ count (is_insert_media self) (trace w') = count (is_insert_media self) (trace w).
Proof.
  intros Hsize. eexists. split; [|split].
  - unfold boot_iso_with_redfish. erewrite bind_ok by apply url_get_size_run.
    rewrite Hsize. reflexivity.
  - reflexivity.
  - simpl. rewrite count_app. unfold count at 2. simpl. apply Nat.add_0_r.
Qed.

(** What the prelude hands over: the size that the reply to the HEAD
    request yields, which is not negative, and the console of the client. *)
Lemma boot_prelude_ok w n imc w1 :
  boot_prelude self iso_path w = (Ok (n, imc), w1) ->
  usable_content_length (fst (requests_head iso_path (env w))) = Some n
  /\ 0 <= n
  /\ imc = self_url self.
Proof.
  unfold boot_prelude. erewrite bind_ok by apply url_get_size_run.
  destruct (usable_content_length (fst (requests_head iso_path (env w))))
    as [n'|] eqn:Hsize; [|discriminate].
  intros Hrun.
  assert (Hpos : 0 <= n').
  { unfold usable_content_length in Hsize.
    destruct (fst (requests_head iso_path (env w))) as [[h|]|]; try discriminate.
    destruct (PyStr.py_int (PyStr.strip h)) as [val|]; [|discriminate].
    destruct (Z.ltb_spec val 0); [discriminate|]. injection Hsize as <-. assumption. }
  unfold bind in Hrun.
  destruct (extract_server iso_path _) as [[server | e |] w2]; try discriminate.
  destruct (_prepare_imc self server w2) as [[[] | e |] w3]; try discriminate.
  destruct (_restart_redfish self w3) as [[[] | e |] w4]; try discriminate.
  unfold _create_imc_rsh, bind in Hrun.
  destruct (host_ssh_connect (self_url self) root_login w4) as [[[] | e |] w5];
    try discriminate.
  injection Hrun as <- <- <-. auto.
Qed.




Lemma write_run host file contents w r w' :
  write host file contents w = (r, w') ->
  trace w' = trace w ++ [EvWrite host file contents].
Proof.
  unfold write, call_ok, bind, call.
  destruct (host_write host file contents (env w)) as [[|] s1]; simpl;
    intros H; injection H as <- <-; reflexivity.
Qed.

Lemma restart_redfish_ok_trace w w' :
  _restart_redfish self w = (Ok tt, w') ->
  trace w' = trace w ++ [EvSshConnect (self_url self) root_login;
                         EvRun (self_url self) "systemctl restart redfish";
                         EvSleep 10].
Proof.
  unfold _restart_redfish, bind, host_ssh_connect, call_ok, bind, call,
    run, call_opt, bind, call, sleep, call.
  destruct (ssh_connect (self_url self) root_login (env w)) as [[|] s1]; simpl;
    [|discriminate].
  destruct (host_run (self_url self) "systemctl restart redfish" s1) as [[res|] s2];
    simpl; [|discriminate].
  intros H. injection H as <-. simpl. rewrite <- !app_assoc. reflexivity.
Qed.

(** The end of a boot that returns, call by call. *)
Lemma boot_finish_ok_trace w w' :
  boot_finish self iso_path (self_url self) w = (Ok tt, w') ->
  trace w' = trace w ++ finish_events self iso_path.
Proof.
  unfold boot_finish. intros Hrun.
  destruct (write (self_url self) imc_url_path iso_path w) as [[[] | e |] w1] eqn:Hwrite;
    [ | erewrite bind_raise in Hrun by eassumption; discriminate
      | erewrite bind_out_of_fuel in Hrun by eassumption; discriminate ].
  pose proof (write_run _ _ _ _ _ _ Hwrite) as T1.
  erewrite bind_ok in Hrun by eassumption.
  destruct (requests_patch_run (redfish self "Systems/1") override_cd w1)
    as (w2 & H2 & T2).
  unfold _bootsource_override_cd in Hrun. erewrite bind_ok in Hrun by eassumption.
  destruct (requests_post_run (redfish self "Managers/1/Actions/Manager.Reset")
              [("ResetType", JStr "ForceRestart")] w2) as (w3 & H3 & T3).
  unfold _reboot in Hrun. erewrite bind_ok in Hrun by eassumption.
  erewrite bind_ok in Hrun by apply sleep_run.
  set (w4 := mkWorld (time_sleep (5 * 60) (env w3)) (trace w3 ++ [EvSleep (5 * 60)]))
    in Hrun.
  assert (T4 : trace w4 = trace w3 ++ [EvSleep (5 * 60)]) by reflexivity.
  clearbody w4.
  destruct (_restart_redfish self w4) as [[[] | e |] w5] eqn:Hrestart;
    [ | erewrite bind_raise in Hrun by eassumption; discriminate
      | erewrite bind_out_of_fuel in Hrun by eassumption; discriminate ].
  pose proof (restart_redfish_ok_trace _ _ Hrestart) as T5.
  erewrite bind_ok in Hrun by eassumption.
  destruct (requests_patch_run (redfish self "Systems/1") override_disabled w5)
    as (w6 & H6 & T6).
  unfold _unset_bootsource_override in Hrun. rewrite H6 in Hrun.
  injection Hrun as <-.
  rewrite T6, T5, T4, T3, T2, T1, <- !app_assoc. reflexivity.
Qed.

Lemma key_finish_events :
  filter (key_event self) (finish_events self iso_path) = enable_reset_disable self.
Proof. unfold finish_events. simpl. rewrite key_reset. reflexivity. Qed.

(** A boot that returns: what precedes the end holds the media steps, none
    when the image was kept, the removal and the InsertMedia POST
    otherwise. *)
Lemma boot_ok_trace w w' :
  boot_iso_with_redfish fuel self iso_path w = (Ok tt, w') ->
  exists pre media,
    trace w' = trace w ++ pre ++ finish_events self iso_path
    /\ filter (key_event self) pre = media
    /\ (media = [] \/ media = [cleanup_event self; insert_event self iso_path]).
Proof.
  intros Hrun. rewrite boot_phases in Hrun.
  destruct (boot_prelude self iso_path w) as [[[n imc] | e |] w1] eqn:Hpre;
    [ | erewrite bind_raise in Hrun by eassumption; discriminate
      | erewrite bind_out_of_fuel in Hrun by eassumption; discriminate ].
  destruct (emits_run (silent self) _ _ _ _ silent_prelude Hpre) as (e0 & T0 & F0).
  destruct (boot_prelude_ok _ _ _ _ Hpre) as (_ & _ & ->).
  erewrite bind_ok in Hrun by eassumption. simpl fst in Hrun. simpl snd in Hrun.
  destruct (keep_existing_ok (self_url self) n w1) as (keep & w2 & Hkeep).
  destruct (boot_media_events (self_url self) n w1 keep w2 Hkeep) as (em & Tm & Km).
  destruct (boot_media fuel self iso_path (self_url self) n w1)
    as [[[] | e |] wm] eqn:Hmedia; simpl in Tm, Km;
    [ | erewrite bind_raise in Hrun by eassumption; discriminate
      | erewrite bind_out_of_fuel in Hrun by eassumption; discriminate ].
  erewrite bind_ok in Hrun by eassumption.
  pose proof (boot_finish_ok_trace _ _ Hrun) as Tf.
  exists (e0 ++ em), (filter (key_event self) em).
  split; [rewrite Tf, Tm, T0, <- !app_assoc; reflexivity|].
  split; [rewrite filter_app, (filter_silent _ F0); reflexivity|].
  destruct keep; [left; apply Km|].
  destruct (fst (_cleanup_iso self w2));
    [ right; exact Km
    | destruct Km as [Hne _]; exfalso; apply Hne; reflexivity
    | destruct Km as [Hne _]; exfalso; apply Hne; reflexivity ].
Qed.


End Boot.

(* ================================================================== *)
(** ** The order of a boot: [_boot_iso] *)

Section BootOrder.
Context {E : Type} {backend : Backend E}.
Variables (fuel : nat) (self : IPUClusterNode).

(** The key events of a [boot_iso_with_redfish] that returns. *)
Lemma boot_ok_events (ipu : IPUBMC) iso_address w w' :
  boot_iso_with_redfish fuel ipu iso_address w = (Ok tt, w') ->
  exists evs media,
    trace w' = trace w ++ evs
    /\ filter (key_event ipu) evs = media ++ enable_reset_disable ipu
    /\ (media = [] \/ media = [cleanup_event ipu; insert_event ipu iso_address]).
Proof.
  intros Hrun.
  destruct (boot_prelude ipu iso_address w) as [[[n imc] | e |] w1] eqn:Hpre.
  - destruct (keep_existing_ok iso_address imc n w1) as (keep & w2 & Hkeep).
    destruct (boot_run_events fuel ipu iso_address w n imc w1 keep w2 Hpre Hkeep)
      as (evs & media & fin & T & K & Hmedia & Hfin).
    rewrite Hrun in T, Hfin. simpl in T, Hfin. subst fin.
    exists evs, media. split; [exact T|]. split; [exact K|].
    destruct keep; [left; exact Hmedia|].
    destruct (fst (_cleanup_iso ipu w2));
      [right; exact Hmedia | destruct Hmedia as [_ H]; discriminate H
       | destruct Hmedia as [_ H]; discriminate H].
  - rewrite boot_phases in Hrun. erewrite bind_raise in Hrun by eassumption.
    discriminate.
  - rewrite boot_phases in Hrun. erewrite bind_out_of_fuel in Hrun by eassumption.
    discriminate.
Qed.

Lemma finally_ok {A} (m : M E A) cleanup w a w' :
  finally m cleanup w = (Ok a, w') ->
  exists w1, m w = (Ok a, w1) /\ cleanup w1 = (Ok tt, w').
Proof.
  unfold finally, bind. destruct (m w) as [[a1 | e |] w1]; [ | | discriminate].
  - destruct (cleanup w1) as [[[] | e |] w2] eqn:Hc; try discriminate.
    unfold ret. intros H. injection H as <- <-.
    exists w1. split; [reflexivity | exact Hc].
  - destruct (cleanup w1) as [[[] | e' |] w2]; discriminate.
Qed.

Lemma redfish_boot_ok_events port node iso w w' :
  _redfish_boot_ipu fuel self port node iso w = (Ok tt, w') ->
  exists b iso_address evs media,
    bmc node = Some b
    /\ trace w' = trace w ++ evs
    /\ filter (key_event (IPUBMC_init b None)) evs
       = media ++ enable_reset_disable (IPUBMC_init b None)
    /\ (media = []
        \/ media = [cleanup_event (IPUBMC_init b None);
                    insert_event (IPUBMC_init b None) iso_address]).
Proof.
  unfold _redfish_boot_ipu, boot_helper. intros Hrun.
  destruct (bmc node) as [b|] eqn:Hbmc.
  - destruct (is_http_url iso).
    + destruct (boot_iso_with_redfish fuel (IPUBMC_init b None) iso w)
        as [[[] | e |] w1] eqn:Hboot;
        [ | erewrite bind_raise in Hrun
              by (erewrite bind_raise by eassumption; reflexivity); discriminate
          | erewrite bind_out_of_fuel in Hrun
              by (erewrite bind_out_of_fuel by eassumption; reflexivity); discriminate ].
      erewrite bind_ok in Hrun by (erewrite bind_ok by eassumption; reflexivity).
      injection Hrun as <-.
      destruct (boot_ok_events _ _ _ _ Hboot) as (evs & media & T & K & Hm).
      exists b, iso, evs, media. auto.
    + unfold bind at 1 in Hrun. unfold exists_path at 1 in Hrun.
      destruct (negb (path_exists iso (env w))); [discriminate|].
      unfold call_opt at 1 in Hrun. unfold bind at 1 2 in Hrun. unfold call at 1 in Hrun.
      destruct (port_to_ip port (env w)) as [[lh_ip|] s1]; [|discriminate].
      unfold ret at 1 in Hrun.
      unfold call_opt at 1 in Hrun. unfold bind at 1 2 in Hrun. unfold call at 1 in Hrun.
      simpl env in Hrun. simpl trace in Hrun.
      destruct (http_server_start (PyStr.dirname iso) 8000 s1) as [[srv|] s2];
        [|discriminate].
      unfold ret at 1 in Hrun.
      apply finally_ok in Hrun. destruct Hrun as (w1 & Hbody & Hstop).
      set (iso_address := ("http://" ++ lh_ip ++ ":" ++ PyStr.py_str srv ++ "/"
                           ++ PyStr.basename iso)%string) in Hbody.
      destruct (boot_iso_with_redfish fuel (IPUBMC_init b None) iso_address
                  (mkWorld s2 ((trace w ++ [EvPortToIp port])
                               ++ [EvServerStart (PyStr.dirname iso) 8000])))
        as [[[] | e |] w2] eqn:Hboot;
        [ | erewrite bind_raise in Hbody
              by (erewrite bind_raise by eassumption; reflexivity); discriminate
          | erewrite bind_out_of_fuel in Hbody
              by (erewrite bind_out_of_fuel by eassumption; reflexivity); discriminate ].
      erewrite bind_ok in Hbody by (erewrite bind_ok by eassumption; reflexivity).
      injection Hbody as <-.
      destruct (boot_ok_events _ _ _ _ Hboot) as (evs & media & T & K & Hm).
      simpl trace in T.
      unfold call in Hstop. injection Hstop as <-.
      exists b, iso_address,
        ([EvPortToIp port; EvServerStart (PyStr.dirname iso) 8000] ++ evs ++ [EvServerStop]),
        media.
      split; [reflexivity|]. split; [simpl trace; rewrite T, <- !app_assoc; reflexivity|].
      split; [|exact Hm].
      rewrite !filter_app, K. simpl. apply app_nil_r.
  - destruct (is_http_url iso).
    + unfold bind, raise in Hrun. discriminate.
    + unfold bind at 1 in Hrun. unfold exists_path at 1 in Hrun.
      destruct (negb (path_exists iso (env w))); [discriminate|].
      unfold call_opt at 1 in Hrun. unfold bind at 1 2 in Hrun. unfold call at 1 in Hrun.
      destruct (port_to_ip port (env w)) as [[lh_ip|] s1]; [|discriminate].
      unfold ret at 1 in Hrun.
      unfold call_opt at 1 in Hrun. unfold bind at 1 2 in Hrun. unfold call at 1 in Hrun.
      destruct (http_server_start (PyStr.dirname iso) 8000 _) as [[srv|] s2];
        [|discriminate].
      unfold ret at 1 in Hrun.
      apply finally_ok in Hrun. destruct Hrun as (w1 & Hbody & _).
      unfold bind, raise in Hbody. discriminate.
Qed.

(** One turn of the loop of [_wait_for_acc_with_retry]. *)
Lemma wait_acc_step fuel' acc timeout failures w :
  wait_acc (S fuel') self acc timeout failures w
  = let (alive, s1) := host_ping acc (env w) in
    let w1 := mkWorld s1 (trace w ++ [EvPing acc]) in
    if alive then (Ok tt, w1)
    else if timeout - 20 <=? 0 then
           if failures + 1 =? 5 then (Raise exhausted, slept 20 w1)
           else match bmc (config self) with
                | None => (Raise AssertionError, slept 20 w1)
                | Some b =>
                    (host_ssh_connect (bmc_url b)
                       (mkLogin (bmc_user b) (Some (bmc_password b)) None None);;
                     run (bmc_url b) "reboot";;
                     wait_acc fuel' self acc 240 (failures + 1)) (slept 20 w1)
                end
         else wait_acc fuel' self acc (timeout - 20) failures (slept 20 w1).
Proof.
  simpl. unfold bind at 1. unfold ping, call.
  destruct (host_ping acc (env w)) as [[|] s1]; [reflexivity|].
  unfold bind at 1. unfold sleep, call. simpl.
  destruct (timeout - 20 <=? 0); [|reflexivity].
  destruct (failures + 1 =? 5); [reflexivity|].
  destruct (bmc (config self)); reflexivity.
Qed.

Lemma silent_ssh_connect ipu host login : emits (silent ipu) (host_ssh_connect host login).
Proof. emits_steps. reflexivity. Qed.

Lemma silent_reboot ipu host : emits (silent ipu) (run host "reboot").
Proof. emits_steps. reflexivity. Qed.

(** The key events of the liveness loop are its pings, at least one when
    it ends with a ping answered. *)
Lemma wait_acc_events ipu acc fuel' : forall timeout failures w,
  exists evs k,
    trace (snd (wait_acc fuel' self acc timeout failures w)) = trace w ++ evs
    /\ filter (key_event ipu) evs = repeat (EvPing acc) k
    /\ (fst (wait_acc fuel' self acc timeout failures w) = Ok tt -> (1 <= k)%nat).
Proof.
  induction fuel' as [|fuel' IH]; intros timeout failures w.
  - exists [], 0%nat. simpl. rewrite app_nil_r. repeat split. discriminate.
  - rewrite wait_acc_step.
    destruct (host_ping acc (env w)) as [[|] s1].
    + exists [EvPing acc], 1%nat. simpl. repeat split. lia.
    + set (w1 := mkWorld s1 (trace w ++ [EvPing acc])).
      assert (T2 : trace (slept 20 w1) = trace w ++ [EvPing acc; EvSleep 20])
        by (simpl; rewrite <- app_assoc; reflexivity).
      assert (Hcont : forall timeout' failures',
        exists evs k,
          trace (snd (wait_acc fuel' self acc timeout' failures' (slept 20 w1)))
          = trace w ++ [EvPing acc; EvSleep 20] ++ evs
          /\ filter (key_event ipu) ([EvPing acc; EvSleep 20] ++ evs)
             = repeat (EvPing acc) (S k)
          /\ (fst (wait_acc fuel' self acc timeout' failures' (slept 20 w1)) = Ok tt
              -> (1 <= S k)%nat)).
      { intros timeout' failures'.
        destruct (IH timeout' failures' (slept 20 w1)) as (evs & k & T & K & _).
        exists evs, k. split; [rewrite T, T2, <- app_assoc; reflexivity|].
        split; [|lia]. simpl. rewrite K. reflexivity. }
      assert (Hstop : forall e, exists evs k,
                 trace (slept 20 w1) = trace w ++ evs
                 /\ filter (key_event ipu) evs = repeat (EvPing acc) k
                 /\ (@Raise unit e = Ok tt -> (1 <= k)%nat)).
      { intros e. exists [EvPing acc; EvSleep 20], 1%nat.
        split; [exact T2|]. split; [reflexivity | discriminate]. }
      destruct (timeout - 20 <=? 0).
      * destruct (failures + 1 =? 5); [apply Hstop|].
        destruct (bmc (config self)) as [b|]; [|apply Hstop].
        destruct (host_ssh_connect (bmc_url b)
                    (mkLogin (bmc_user b) (Some (bmc_password b)) None None)
                    (slept 20 w1)) as [[[] | e |] w3] eqn:Hssh;
          (destruct (emits_run _ _ _ _ _ (silent_ssh_connect ipu _ _) Hssh)
            as (e3 & T3 & F3));
          [ | erewrite bind_raise by eassumption
            | erewrite bind_out_of_fuel by eassumption ].
        2, 3: exists ([EvPing acc; EvSleep 20] ++ e3), 1%nat; simpl fst; simpl snd;
          (split; [rewrite T3, T2, <- app_assoc; reflexivity|]);
          (split; [rewrite filter_app, (filter_silent _ _ F3); reflexivity
                  | discriminate]).
        erewrite bind_ok by eassumption.
        destruct (run (bmc_url b) "reboot" w3) as [[r | e |] w4] eqn:Hreboot;
          (destruct (emits_run _ _ _ _ _ (silent_reboot ipu _) Hreboot)
            as (e4 & T4 & F4));
          [ | erewrite bind_raise by eassumption
            | erewrite bind_out_of_fuel by eassumption ].
        2, 3: exists ([EvPing acc; EvSleep 20] ++ e3 ++ e4), 1%nat; simpl fst; simpl snd;
          (split; [rewrite T4, T3, T2, <- !app_assoc; reflexivity|]);
          (split; [rewrite !filter_app, (filter_silent _ _ F3), (filter_silent _ _ F4);
                   reflexivity
                  | discriminate]).
        erewrite bind_ok by eassumption.
        destruct (IH 240 (failures + 1) w4) as (evs & k & T & K & _).
        exists ([EvPing acc; EvSleep 20] ++ e3 ++ e4 ++ evs), (S k).
        split; [rewrite T, T4, T3, T2, <- !app_assoc; reflexivity|].
        split; [|lia].
        rewrite !filter_app, (filter_silent _ _ F3), (filter_silent _ _ F4), K.
        reflexivity.
      * destruct (Hcont (timeout - 20) failures) as (evs & k & T & K & Hk).
        exists ([EvPing acc; EvSleep 20] ++ evs), (S k). auto.
Qed.

Lemma silent_after_wait ipu acc :
  emits (silent ipu)
        (host_ssh_connect acc (mkLogin "root" (Some "redhat") None None);;
         run acc "uname -a";; ret tt).
Proof. emits_steps; reflexivity. Qed.

Lemma wait_for_acc_ok_events ipu acc timeout w w' :
  _wait_for_acc_with_retry fuel self acc timeout w = (Ok tt, w') ->
  exists evs k,
    trace w' = trace w ++ evs
    /\ filter (key_event ipu) evs = repeat (EvPing acc) (S k).
Proof.
  unfold _wait_for_acc_with_retry. intros Hrun.
  destruct (wait_acc_events ipu acc fuel timeout 0 w) as (e1 & k & T1 & K1 & Hk).
  destruct (wait_acc fuel self acc timeout 0 w) as [[[] | e |] w1] eqn:Hloop;
    [ | erewrite bind_raise in Hrun by eassumption; discriminate
      | erewrite bind_out_of_fuel in Hrun by eassumption; discriminate ].
  erewrite bind_ok in Hrun by eassumption. simpl in T1, Hk.
  destruct (emits_run _ _ _ _ _ (silent_after_wait ipu acc) Hrun) as (e2 & T2 & F2).
  specialize (Hk eq_refl). destruct k as [|k]; [lia|].
  exists (e1 ++ e2), k. split; [rewrite T2, T1, <- app_assoc; reflexivity|].
  rewrite filter_app, K1, (filter_silent _ _ F2). apply app_nil_r.
Qed.

(** A [_redfish_boot_ipu] that returns, call by call from the end of the
    media steps on: the end of the boot, and the stop of the HTTP server
    when the ISO was a local file. *)
Lemma redfish_boot_ok_trace port node iso w w' :
  _redfish_boot_ipu fuel self port node iso w = (Ok tt, w') ->
  exists b iso_address pre media stop,
    bmc node = Some b
    /\ trace w' = trace w ++ pre ++ finish_events (IPUBMC_init b None) iso_address ++ stop
    /\ filter (key_event (IPUBMC_init b None)) pre = media
    /\ (media = []
        \/ media = [cleanup_event (IPUBMC_init b None);
                    insert_event (IPUBMC_init b None) iso_address])
    /\ (if is_http_url iso then iso_address = iso /\ stop = []
        else stop = [EvServerStop]).
Proof.
  unfold _redfish_boot_ipu, boot_helper. intros Hrun.
  destruct (bmc node) as [b|] eqn:Hbmc.
  - destruct (is_http_url iso).
    + destruct (boot_iso_with_redfish fuel (IPUBMC_init b None) iso w)
        as [[[] | e |] w1] eqn:Hboot;
        [ | erewrite bind_raise in Hrun
              by (erewrite bind_raise by eassumption; reflexivity); discriminate
          | erewrite bind_out_of_fuel in Hrun
              by (erewrite bind_out_of_fuel by eassumption; reflexivity); discriminate ].
      erewrite bind_ok in Hrun by (erewrite bind_ok by eassumption; reflexivity).
      injection Hrun as <-.
      destruct (boot_ok_trace _ _ _ _ _ Hboot) as (pre & media & T & K & Hm).
      exists b, iso, pre, media, []. rewrite app_nil_r. repeat split; assumption.
    + unfold bind at 1 in Hrun. unfold exists_path at 1 in Hrun.
      destruct (negb (path_exists iso (env w))); [discriminate|].
      unfold call_opt at 1 in Hrun. unfold bind at 1 2 in Hrun. unfold call at 1 in Hrun.
      destruct (port_to_ip port (env w)) as [[lh_ip|] s1]; [|discriminate].
      unfold ret at 1 in Hrun.
      unfold call_opt at 1 in Hrun. unfold bind at 1 2 in Hrun. unfold call at 1 in Hrun.
      simpl env in Hrun. simpl trace in Hrun.
      destruct (http_server_start (PyStr.dirname iso) 8000 s1) as [[srv|] s2];
        [|discriminate].
      unfold ret at 1 in Hrun.
      apply finally_ok in Hrun. destruct Hrun as (w1 & Hbody & Hstop).
      set (iso_address := ("http://" ++ lh_ip ++ ":" ++ PyStr.py_str srv ++ "/"
                           ++ PyStr.basename iso)%string) in Hbody.
      destruct (boot_iso_with_redfish fuel (IPUBMC_init b None) iso_address
                  (mkWorld s2 ((trace w ++ [EvPortToIp port])
                               ++ [EvServerStart (PyStr.dirname iso) 8000])))
        as [[[] | e |] w2] eqn:Hboot;
        [ | erewrite bind_raise in Hbody
              by (erewrite bind_raise by eassumption; reflexivity); discriminate
          | erewrite bind_out_of_fuel in Hbody
              by (erewrite bind_out_of_fuel by eassumption; reflexivity); discriminate ].
      erewrite bind_ok in Hbody by (erewrite bind_ok by eassumption; reflexivity).
      injection Hbody as <-.
      destruct (boot_ok_trace _ _ _ _ _ Hboot) as (pre & media & T & K & Hm).
      simpl trace in T.
      unfold call in Hstop. injection Hstop as <-.
      exists b, iso_address,
        ([EvPortToIp port; EvServerStart (PyStr.dirname iso) 8000] ++ pre), media,
        [EvServerStop].
      split; [reflexivity|]. split; [simpl trace; rewrite T, <- !app_assoc; reflexivity|].
      split; [rewrite filter_app, K; reflexivity|].
      split; [exact Hm | reflexivity].
  - destruct (is_http_url iso).
    + unfold bind, raise in Hrun. discriminate.
    + unfold bind at 1 in Hrun. unfold exists_path at 1 in Hrun.
      destruct (negb (path_exists iso (env w))); [discriminate|].
      unfold call_opt at 1 in Hrun. unfold bind at 1 2 in Hrun. unfold call at 1 in Hrun.
      destruct (port_to_ip port (env w)) as [[lh_ip|] s1]; [|discriminate].
      unfold ret at 1 in Hrun.
      unfold call_opt at 1 in Hrun. unfold bind at 1 2 in Hrun. unfold call at 1 in Hrun.
      destruct (http_server_start (PyStr.dirname iso) 8000 _) as [[srv|] s2];
        [|discriminate].
      unfold ret at 1 in Hrun.
      apply finally_ok in Hrun. destruct Hrun as (w1 & Hbody & _).
      unfold bind, raise in Hbody. discriminate.
Qed.

(** C4, as amended.  A [_boot_iso] that returns is the boot
    [_redfish_boot_ipu], which returns in a world [w1], followed from [w1]
    by the liveness monitor with the 1200 s countdown.  The calls of the
    boot end with: the media steps unless the image on the card was kept
    (removal of the stale image, then the InsertMedia POST), then the marker
    written, the one-shot Cd override armed, the manager reset, a sleep of
    5 minutes, Redfish restarted from the console, and the override
    disabled (and the HTTP server stopped, when the ISO was a local file).
    The pings of the monitor all come after that. *)
Theorem boot_iso_clears_override_before_liveness iso w w' :
  _boot_iso fuel self iso w = (Ok tt, w') ->
  exists b acc iso_address evs media k w1,
    bmc (config self) = Some b
    /\ ip (config self) = Some acc
    /\ trace w' = trace w ++ evs
    /\ filter (key_event (IPUBMC_init b None)) evs
       = media ++ enable_reset_disable (IPUBMC_init b None)
         ++ repeat (EvPing acc) (S k)
    /\ (media = []
        \/ media = [cleanup_event (IPUBMC_init b None);
                    insert_event (IPUBMC_init b None) iso_address])
    /\ _wait_for_acc_with_retry fuel self acc 1200 w1 = (Ok tt, w')
    /\ _redfish_boot_ipu fuel self (external_port self) (config self) iso w = (Ok tt, w1)
    /\ exists pre stop wait,
        evs = pre ++ finish_events (IPUBMC_init b None) iso_address ++ stop ++ wait
        /\ trace w1
           = trace w ++ pre ++ finish_events (IPUBMC_init b None) iso_address ++ stop
        /\ filter (key_event (IPUBMC_init b None)) pre = media
        /\ (if is_http_url iso then iso_address = iso /\ stop = []
            else stop = [EvServerStop])
        /\ filter (key_event (IPUBMC_init b None)) wait = repeat (EvPing acc) (S k).
Proof.
  unfold _boot_iso. intros Hrun.
  destruct (ip (config self)) as [acc|] eqn:Hip; [|discriminate].
  destruct (truthy (Some acc)); [|discriminate].
  unfold py_assert in Hrun. erewrite bind_ok in Hrun by reflexivity.
  destruct (_redfish_boot_ipu fuel self (external_port self) (config self) iso w)
    as [[[] | e |] w1] eqn:Hboot;
    [ | erewrite bind_raise in Hrun by eassumption; discriminate
      | erewrite bind_out_of_fuel in Hrun by eassumption; discriminate ].
  erewrite bind_ok in Hrun by eassumption.
  destruct (redfish_boot_ok_trace _ _ _ _ _ Hboot)
    as (b & iso_address & pre & media & stop & Hbmc & T1 & K1 & Hmedia & Hstop).
  destruct (wait_for_acc_ok_events (IPUBMC_init b None) acc 1200 w1 w' Hrun)
    as (wait & k & T2 & K2).
  assert (Kstop : filter (key_event (IPUBMC_init b None)) stop = []).
  { destruct (is_http_url iso); [destruct Hstop as [_ ->] | subst stop]; reflexivity. }
  exists b, acc, iso_address,
    (pre ++ finish_events (IPUBMC_init b None) iso_address ++ stop ++ wait),
    media, k, w1.
  split; [exact Hbmc|]. split; [reflexivity|].
  split; [rewrite T2, T1, <- !app_assoc; reflexivity|].
  split; [rewrite !filter_app, K1, key_finish_events, Kstop, K2; reflexivity|].
  split; [exact Hmedia|]. split; [exact Hrun|]. split; [reflexivity|].
  exists pre, stop, wait. auto.
Qed.

End BootOrder.

(* ================================================================== *)
(** ** Substring containment *)

Lemma prefix_app (a s : string) :
  String.prefix a s = true <-> exists post, s = (a ++ post)%string.
Proof.
  revert s. induction a as [|c a IH]; intros s.
  - split; [intros _; exists s; reflexivity | intros _; destruct s; reflexivity].
  - destruct s as [|d s]; simpl.
    + split; [discriminate | intros [post H]; discriminate H].
    + destruct (ascii_dec c d) as [-> | Hne].
      * rewrite IH. split; intros [post H]; exists post.
        -- rewrite H. reflexivity.
        -- injection H as H. exact H.
      * split; [discriminate | intros [post H]; congruence].
Qed.

(** [PyStr.contains] is Python's [in] on strings. *)
Lemma contains_spec (needle s : string) :
  PyStr.contains needle s = true
  <-> exists pre post, s = (pre ++ needle ++ post)%string.
Proof.
  induction s as [|c s IH].
  - change (PyStr.contains needle EmptyString)
      with (String.prefix needle EmptyString || false).
    rewrite orb_false_r, prefix_app. split.
    + intros [post H]. exists EmptyString, post. exact H.
    + intros (pre & post & H). destruct pre; [exists post; exact H | discriminate H].
  - change (PyStr.contains needle (String c s))
      with (String.prefix needle (String c s) || PyStr.contains needle s).
    rewrite orb_true_iff, prefix_app, IH. split.
    + intros [[post H] | (pre & post & H)].
      * exists EmptyString, post. exact H.
      * exists (String c pre), post. rewrite H. reflexivity.
    + intros (pre & post & H). destruct pre as [|d pre].
      * left. exists post. exact H.
      * right. injection H as _ H. exists pre, post. exact H.
Qed.

(* ================================================================== *)
(** ** The loop of [_wait_iso_downloaded], for any property of its calls *)

Section LoopCalls.
Context {E : Type} {backend : Backend E}.

Lemma emits_wait_inserted (P : Event -> Prop) self imc iso_path n filename wait_until :
  P (EvGet (redfish self "Systems/1/VirtualMedia/1") (self_user self) (self_password self)) ->
  P (EvSleep 10) ->
  P (EvRun imc ("du -b " ++ PyStr.shlex_quote imc_iso)%string) ->
  forall fuel loop_count,
    emits P (wait_inserted fuel self imc iso_path n filename wait_until loop_count).
Proof.
  intros Hget Hsleep Hdu.
  induction fuel as [|fuel IH]; intros loop_count; [apply emits_out_of_fuel|].
  simpl. apply emits_bind; [emits_steps; exact Hget|]. intros inserted.
  destruct inserted; [apply emits_ret|].
  apply emits_bind; [emits_steps; exact Hsleep|]. intros _.
  apply emits_bind; [apply emits_monotonic|]. intros t.
  destruct (Qle_bool wait_until t); [apply emits_raise|].
  apply emits_bind; [|intros _; apply IH].
  destruct (loop_count mod 6 =? 0); emits_steps; exact Hdu.
Qed.

(** As [emits_bind], the continuation being asked only at the values
    that [m] returns. *)
Lemma emits_bind_ok {A B} (P : Event -> Prop) (m : M E A) (k : A -> M E B) :
  emits P m ->
  (forall a, (exists w w', m w = (Ok a, w')) -> emits P (k a)) ->
  emits P (bind m k).
Proof.
  intros Hm Hk w. unfold bind.
  destruct (Hm w) as (e1 & H1 & F1).
  destruct (m w) as [[a | e |] w1] eqn:Hrun; simpl in *.
  - destruct (Hk a (ex_intro _ w (ex_intro _ w1 Hrun)) w1) as (e2 & H2 & F2).
    exists (e1 ++ e2). rewrite H2, H1, app_assoc. split; [reflexivity|].
    apply Forall_app; auto.
  - exists e1; auto.
  - exists e1; auto.
Qed.

Lemma emits_ext {A} (P : Event -> Prop) (m m' : M E A) :
  (forall w, m w = m' w) -> emits P m' -> emits P m.
Proof. intros Heq Hm w. rewrite Heq. apply Hm. Qed.

End LoopCalls.

Ltac emits_prog := repeat first [ apply emits_wait_inserted | emits_step ].

(* ================================================================== *)
(** ** Firmware version, card identity, firmware upgrade, credentials *)

Section Firmware.
Context {E : Type} {backend : Backend E}.
Variable self : IPUBMC.



Lemma is_ipu_no_flash : emits (fun e => is_flash e = false) (is_ipu self).
Proof. emits_steps; reflexivity. Qed.

(** C9.  When [is_ipu] answers [False], [ensure_firmware] stops at its
    assertion, in the very state [is_ipu] left: whatever [force] and the
    target version, neither the flash nor the cold boot has been called. *)
Theorem ensure_firmware_requires_ipu force version w w1 :
  is_ipu self w = (Ok false, w1) ->
  ensure_firmware self force version w = (Raise AssertionError, w1)
  /\ exists evs, trace w1 = trace w ++ evs /\ count is_flash evs = 0%nat.
Proof.
  intros Hipu. split.
  - unfold ensure_firmware. erewrite bind_ok by exact Hipu. reflexivity.
  - destruct (emits_run _ _ _ _ _ is_ipu_no_flash Hipu) as (evs & T & F).
    exists evs. split; [exact T | apply count_none; exact F].
Qed.

(** C8.  With [force] false, on a card that [is_ipu] accepts, when the
    banner read from [/etc/issue.net] contains the target version as a
    substring, [ensure_firmware] returns after the check: it has logged in,
    read the banner, and called neither the flash nor the cold boot.
    Containment is all that is asked: ["2.5.0"] is found in ["2.5.0.117"],
    and in ["12.5.0"] as well. *)
Theorem ensure_firmware_skips_on_substring version w w1 s2 banner s3 :
  is_ipu self w = (Ok true, w1) ->
  ssh_connect (self_url self) (firmware_login self) (env w1) = (true, s2) ->
  host_run (self_url self) "cat /etc/issue.net" s2 = (Some banner, s3) ->
  (exists pre post, out banner = (pre ++ version ++ post)%string) ->
  exists w3 evs,
    ensure_firmware self false version w = (Ok tt, w3)
    /\ trace w3 = trace w ++ evs
    /\ count is_flash evs = 0%nat
    /\ trace w3 = trace w1 ++ [EvSshConnect (self_url self) (firmware_login self);
                               EvRun (self_url self) "cat /etc/issue.net"]
    /\ PyStr.contains "2.5.0" "2.5.0.117" = true
    /\ PyStr.contains "2.5.0" "12.5.0" = true.
Proof.
  intros Hipu Hssh Hrun Hsub. apply contains_spec in Hsub.
  destruct (emits_run _ _ _ _ _ is_ipu_no_flash Hipu) as (e1 & T1 & F1).
  assert (Hsame : firmware_is_same self (self_url self) version w1
                  = (Ok true, mkWorld s3 (trace w1 ++ [EvSshConnect (self_url self) (firmware_login self);
                                                       EvRun (self_url self) "cat /etc/issue.net"]))).
  { unfold firmware_is_same, bind, host_ssh_connect, call_ok, bind, call,
      run, call_opt, bind, call.
    fold (firmware_login self). rewrite Hssh. simpl. rewrite Hrun. simpl.
    rewrite Hsub, <- app_assoc. reflexivity. }
  eexists _, (e1 ++ [EvSshConnect (self_url self) (firmware_login self);
                     EvRun (self_url self) "cat /etc/issue.net"]).
  split; [|split; [|split; [|split; [|split]]]].
  - unfold ensure_firmware. erewrite bind_ok by exact Hipu.
    unfold py_assert. erewrite bind_ok by reflexivity.
    erewrite bind_ok by (erewrite bind_ok by exact Hsame; reflexivity).
    reflexivity.
  - simpl. rewrite T1, <- app_assoc. reflexivity.
  - rewrite count_app, (count_none _ _ F1). reflexivity.
  - reflexivity.
  - reflexivity.
  - reflexivity.
Qed.

End Firmware.

Section Credentials.
Context {E : Type} {backend : Backend E}.

Ltac password_calls := simpl; auto.

Ltac login_calls :=
  unfold logs_in;
  first [ exact I
        | split; reflexivity
        | left; reflexivity
        | right; left; reflexivity
        | right; assumption ].

(** The SSH logins and the requests of [boot_iso_with_redfish]: on the
    console as root with the empty password, on the server of the ISO as
    root with ["redhat"]. *)
Lemma boot_logins fuel (self : IPUBMC) iso_path :
  emits (logs_in self ((self_url self, root_login) :: server_logins iso_path))
        (boot_iso_with_redfish fuel self iso_path).
Proof.
  unfold boot_iso_with_redfish.
  apply emits_bind; [emits_steps; login_calls|]. intros size.
  destruct size as [expected_size|]; [|apply emits_raise].
  apply emits_bind_ok; [emits_steps|]. intros server (w0 & w0' & Hserver).
  assert (Hlogin : In (server, server_login) (server_logins iso_path)).
  { unfold extract_server in Hserver. unfold server_logins.
    destruct (urlparse iso_path) as [parsed|]; [|discriminate Hserver].
    injection Hserver as <- _. left. reflexivity. }
  unfold _insert_media, _wait_iso_downloaded.
  emits_prog; login_calls.
Qed.

(** C10, as amended.  [IPUBMC.__init__] keeps the URL and the user of the
    configuration and rewrites the password ["calvin"], and only that one,
    to ["calvincalvincalvin"].  From then on every HTTP request of
    [boot_iso_with_redfish], [version], [is_ipu] and [ensure_firmware]
    carries the user and the rewritten password of the client, and so does
    the one SSH login made with the credential, the one of
    [firmware_is_same] in [ensure_firmware].  Every other SSH login of the
    client is one of three fixed ones: as root with the empty password on
    the console (with a time-out of 5 s in the version probe), and as root
    with ["redhat"] on the server of the ISO. *)
Theorem client_password_rewritten (bmc_config : BmcConfig) (host_bmc : option string) :
  let self := IPUBMC_init bmc_config host_bmc in
  self_url self = bmc_url bmc_config
  /\ self_user self = bmc_user bmc_config
  /\ (bmc_password bmc_config = "calvin" -> self_password self = "calvincalvincalvin")
  /\ (bmc_password bmc_config <> "calvin" -> self_password self = bmc_password bmc_config)
  /\ (forall fuel iso_path,
         emits (logs_in self ((self_url self, root_login) :: server_logins iso_path))
               (boot_iso_with_redfish fuel self iso_path))
  /\ emits (logs_in self [(self_url self, probe_login)]) (version self)
  /\ emits (logs_in self [(self_url self, probe_login)]) (is_ipu self)
  /\ (forall force version,
         emits (logs_in self [(self_url self, probe_login);
                              (self_url self, firmware_login self)])
               (ensure_firmware self force version))
  /\ (forall imc version,
         emits (fun e => match e with
                         | EvSshConnect _ login => login = firmware_login self
                         | _ => True
                         end)
               (firmware_is_same self imc version))
  /\ login_password root_login = Some EmptyString
  /\ login_password probe_login = Some EmptyString
  /\ login_password server_login = Some "redhat"%string
  /\ login_password (firmware_login self) = Some (self_password self).
Proof.
  intros self. split; [reflexivity|]. split; [reflexivity|].
  split; [|split; [|split; [|split; [|split; [|split; [|split]]]]]].
  - intros Hpw. unfold self, IPUBMC_init. simpl. rewrite Hpw. reflexivity.
  - intros Hpw. unfold self, IPUBMC_init. simpl.
    destruct (String.eqb_spec (bmc_password bmc_config) "calvin"); [contradiction|].
    reflexivity.
  - intros fuel iso_path. apply boot_logins.
  - generalize self. clear self. intros self. emits_prog; login_calls.
  - generalize self. clear self. intros self. emits_prog; login_calls.
  - intros force version. generalize self. clear self. intros self.
    emits_prog; login_calls.
  - intros imc version. generalize self. clear self. intros self.
    emits_prog; password_calls.
  - repeat split; reflexivity.
Qed.

End Credentials.

(* ================================================================== *)
(** ** The program on the simulated card *)

Section OnTheCard.
Import Sim.

Lemma card_clock_advances : clock_advances (backend := card_backend).
Proof.
  repeat split.
  - intros url user password s. apply Qle_refl.
  - intros host cmd s. simpl. unfold run_cmd.
    destruct (String.prefix "du -b " cmd); [destruct (iso_bytes s); apply Qle_refl|].
    destruct (String.eqb cmd "rm -f /mnt/imc/acc-os.iso"); [apply Qle_refl|].
    destruct (String.eqb cmd "cat /etc/issue.net"); apply Qle_refl.
  - intros host login s. apply Qle_refl.
  - intros s. apply Qle_refl.
Qed.

Lemma down_ping s :
  acc_stays_down s ->
  fst (host_ping "acc.lab" s) = false /\ acc_stays_down (snd (host_ping "acc.lab" s)).
Proof. intros H. split; [apply H | exact H]. Qed.

Lemma down_sleep s : acc_stays_down s -> acc_stays_down (time_sleep 20 s).
Proof. intros H. exact H. Qed.

Lemma down_console s :
  acc_stays_down s ->
  fst (ssh_connect (bmc_url bmc_config) (console_login bmc_config) s) = true
  /\ acc_stays_down (snd (ssh_connect (bmc_url bmc_config) (console_login bmc_config) s)).
Proof.
  intros H. split; [|exact H]. destruct H as (_ & Hssh & Hdies). simpl.
  rewrite Hssh, Hdies. reflexivity.
Qed.

Lemma down_reboot s :
  acc_stays_down s ->
  fst (host_run (bmc_url bmc_config) "reboot" s) <> None
  /\ acc_stays_down (snd (host_run (bmc_url bmc_config) "reboot" s)).
Proof. intros H. split; [discriminate | exact H]. Qed.



(** C2, counterexample to the claim as stated: the console is lost on the
    reset, the call raises, and the override armed by the one enabling PATCH
    is not disabled. *)
Lemma override_left_armed_when_console_is_lost :
  fst (boot_iso_with_redfish 360 ipu_bmc iso (world lost_console_card)) = Raise HostError
  /\ count is_override_enable
       (trace (snd (boot_iso_with_redfish 360 ipu_bmc iso (world lost_console_card))))
     = 1%nat
  /\ count is_override_disable
       (trace (snd (boot_iso_with_redfish 360 ipu_bmc iso (world lost_console_card))))
     = 0%nat.
Proof. repeat split; vm_compute; reflexivity. Qed.

(** C2, witness: a boot of the healthy card returns, with the two PATCHes
    in their order. *)
Lemma boot_override_witness :
  fst (boot_iso_with_redfish 360 ipu_bmc iso (world card)) <> OutOfFuel
  /\ exists evs,
      trace (snd (boot_iso_with_redfish 360 ipu_bmc iso (world card)))
      = trace (world card) ++ evs
      /\ filter is_patch evs = [enable_event ipu_bmc; disable_event ipu_bmc].
Proof.
  split.
  - exact (proj1 (boot_override_patches 360 ipu_bmc iso (world card))
                 card_clock_advances (le_n 360)).
  - destruct (proj2 (boot_override_patches 360 ipu_bmc iso (world card)))
      as (evs & Htrace & Hpatches).
    assert (Hok : fst (boot_iso_with_redfish 360 ipu_bmc iso (world card)) = Ok tt)
      by (vm_compute; reflexivity).
    rewrite Hok in Hpatches.
    exists evs. split; [exact Htrace | exact Hpatches].
Defined.

(** C3, witness: the card whose ACC stays down. *)
Lemma wait_for_acc_witness :
  exists w',
    _wait_for_acc_with_retry 108 node "acc.lab" 1200 (world dead_acc_card)
    = (Raise exhausted, w')
    /\ trace w' = rounds 60 "acc.lab" ++ escalations 4 bmc_config "acc.lab".
Proof.
  destruct (wait_for_acc_gives_up_after_four_reboots
              node "acc.lab" bmc_config acc_stays_down eq_refl
              down_ping down_sleep down_console down_reboot
              1200 108%nat (world dead_acc_card)
              (conj eq_refl (conj eq_refl eq_refl))
              (le_n 108))
    as (w' & Hrun & Htrace & _).
  exists w'. split; [exact Hrun | exact Htrace].
Defined.

(** C3, counterexample to the claim as stated: five expiries, and four
    console reboots. *)
Lemma four_reboots_not_five :
  fst (_wait_for_acc_with_retry 108 node "acc.lab" 1200 (world dead_acc_card))
  = Raise exhausted
  /\ count (is_reboot_of "imc.lab")
       (trace (snd (_wait_for_acc_with_retry 108 node "acc.lab" 1200
                      (world dead_acc_card))))
     = 4%nat
  /\ count is_ping
       (trace (snd (_wait_for_acc_with_retry 108 node "acc.lab" 1200
                      (world dead_acc_card))))
     = (60 + 4 * 12)%nat.
Proof. repeat split; vm_compute; reflexivity. Qed.

(** C4, witness: a boot of the healthy card. *)
Lemma boot_iso_witness :
  exists b acc iso_address evs media k w1,
    bmc (config node) = Some b
    /\ ip (config node) = Some acc
    /\ trace (snd (_boot_iso 360 node iso (world card))) = trace (world card) ++ evs
    /\ filter (key_event (IPUBMC_init b None)) evs
       = media ++ enable_reset_disable (IPUBMC_init b None) ++ repeat (EvPing acc) (S k)
    /\ (media = []
        \/ media = [cleanup_event (IPUBMC_init b None);
                    insert_event (IPUBMC_init b None) iso_address])
    /\ _wait_for_acc_with_retry 360 node acc 1200 w1
       = (Ok tt, snd (_boot_iso 360 node iso (world card)))
    /\ _redfish_boot_ipu 360 node (external_port node) (config node) iso (world card)
       = (Ok tt, w1)
    /\ exists pre stop wait,
        evs = pre ++ finish_events (IPUBMC_init b None) iso_address ++ stop ++ wait
        /\ trace w1
           = trace (world card) ++ pre
             ++ finish_events (IPUBMC_init b None) iso_address ++ stop
        /\ filter (key_event (IPUBMC_init b None)) pre = media
        /\ (if is_http_url iso then iso_address = iso /\ stop = []
            else stop = [EvServerStop])
        /\ filter (key_event (IPUBMC_init b None)) wait = repeat (EvPing acc) (S k).
Proof.
  apply (boot_iso_clears_override_before_liveness 360 node iso (world card)).
  vm_compute. reflexivity.
Defined.

(** C4, counterexample to the claim as stated: the key calls of a boot of
    the healthy card, in their order; the override is disabled before the
    first liveness ping. *)
Lemma override_cleared_before_first_ping :
  fst (_boot_iso 360 node iso (world card)) = Ok tt
  /\ filter (key_event ipu_bmc) (trace (snd (_boot_iso 360 node iso (world card))))
     = [cleanup_event ipu_bmc; insert_event ipu_bmc iso;
        enable_event ipu_bmc; reset_event ipu_bmc; disable_event ipu_bmc;
        EvPing "acc.lab"].
Proof. split; vm_compute; reflexivity. Qed.

(** C6, witness: an ISO server that sends no [Content-Length]. *)
Lemma boot_without_size_witness :
  exists w',
    boot_iso_with_redfish 360 ipu_bmc iso (world no_length_card)
    = (Raise (RuntimeError ("failed to determine file size of URL " ++ repr iso)%string), w')
    /\ trace w' = trace (world no_length_card) ++ [EvHead iso]
    /\ count (is_insert_media ipu_bmc) (trace w')
       = count (is_insert_media ipu_bmc) (trace (world no_length_card)).
Proof.
  apply (boot_fails_fast_without_size 360 ipu_bmc iso (world no_length_card)).
  reflexivity.
Defined.


(** C8, witness: the banner ["IPU IMC MEV 2.5.0.117"] against the target
    ["2.5.0"]. *)
Lemma ensure_firmware_skip_witness :
  exists w3 evs,
    ensure_firmware ipu_bmc false "2.5.0" (world card) = (Ok tt, w3)
    /\ trace w3 = trace (world card) ++ evs
    /\ count is_flash evs = 0%nat.
Proof.
  pose (w1 := snd (is_ipu ipu_bmc (world card))).
  assert (Hipu : is_ipu ipu_bmc (world card) = (Ok true, w1))
    by (vm_compute; reflexivity).
  assert (Hssh : ssh_connect (self_url ipu_bmc) (firmware_login ipu_bmc) (env w1)
                 = (true, env w1)) by (vm_compute; reflexivity).
  assert (Hrun : host_run (self_url ipu_bmc) "cat /etc/issue.net" (env w1)
                 = (Some (ok_result "IPU IMC MEV 2.5.0.117"), env w1))
    by (vm_compute; reflexivity).
  destruct (ensure_firmware_skips_on_substring
              ipu_bmc "2.5.0" (world card) w1 (env w1)
              (ok_result "IPU IMC MEV 2.5.0.117") (env w1) Hipu Hssh Hrun
              (ex_intro _ "IPU IMC MEV "%string (ex_intro _ ".117"%string eq_refl)))
    as (w3 & evs & Hrun3 & Htrace & Hflash & _).
  exists w3, evs. split; [exact Hrun3 | split; [exact Htrace | exact Hflash]].
Defined.

(** C9, witness: a BMC that is no IPU, and [force] set. *)
Lemma ensure_firmware_refusal_witness :
  ensure_firmware ipu_bmc true "2.5.0" (world other_card)
  = (Raise AssertionError, snd (is_ipu ipu_bmc (world other_card)))
  /\ exists evs,
      trace (snd (is_ipu ipu_bmc (world other_card))) = trace (world other_card) ++ evs
      /\ count is_flash evs = 0%nat.
Proof.
  apply (ensure_firmware_requires_ipu ipu_bmc true "2.5.0" (world other_card)).
  vm_compute. reflexivity.
Defined.


(** C10, witness: the client of the card, built from ["calvin"]. *)
Lemma client_password_witness :
  bmc_password bmc_config = "calvin"
  /\ self_password (IPUBMC_init bmc_config None) = "calvincalvincalvin".
Proof.
  split; [reflexivity|].
  exact (proj1 (proj2 (proj2 (client_password_rewritten
                                (backend := card_backend) bmc_config None)))
               eq_refl).
Defined.

(** The two channels of [version] on the card: Redfish when it answers,
    the banner of the console when it does not. *)
Example version_channels :
  fst (version ipu_bmc (world card)) = Ok "1.8.0"
  /\ fst (version ipu_bmc
            (world (mkCard 0 false false EmptyString None None None true true false false
                           "Disabled" "Intel IPU" "MEV-x.release.2.0.0.11126"
                           "IPU IMC Version: 1.8.0-ssh" EmptyString)))
     = Ok "1.8.0-ssh".
Proof. split; vm_compute; reflexivity. Qed.

(** C10, counterexample to the claim as stated: the client of the card is
    built from the password ["calvin"] and holds ["calvincalvincalvin"];
    its own [_restart_redfish] logs in with the empty password, and in an
    install on the card whose ACC stays down ([start]), where all the 7 HTTP
    requests carry the rewritten password, the 4 console logins of the
    liveness monitor are made with ["calvin"] as configured, 6 logins with
    the empty password, and none with the rewritten one. *)
Lemma not_every_login_uses_the_rewritten_password :
  bmc_password bmc_config = "calvin"
  /\ self_password ipu_bmc = "calvincalvincalvin"
  /\ trace (snd (_restart_redfish ipu_bmc (world card)))
     = [EvSshConnect "imc.lab" root_login;
        EvRun "imc.lab" "systemctl restart redfish"; EvSleep 10]
  /\ fst (start 360 node iso (world dead_acc_card)) = Raise exhausted
  /\ count (is_login_with "calvin")
       (trace (snd (start 360 node iso (world dead_acc_card)))) = 4%nat
  /\ count (is_login_with EmptyString)
       (trace (snd (start 360 node iso (world dead_acc_card)))) = 6%nat
  /\ count (is_login_with "calvincalvincalvin")
       (trace (snd (start 360 node iso (world dead_acc_card)))) = 0%nat
  /\ count (is_request_with "calvincalvincalvin")
       (trace (snd (start 360 node iso (world dead_acc_card)))) = 7%nat
  /\ count is_request
       (trace (snd (start 360 node iso (world dead_acc_card)))) = 7%nat.
Proof. repeat split; vm_compute; reflexivity. Qed.

(** The credential of a client: only ["calvin"] itself is rewritten. *)
Example calvin_is_rewritten :
  self_password (IPUBMC_init (mkBmcConfig "imc.lab" "root" "calvin") None)
  = "calvincalvincalvin"
  /\ self_password (IPUBMC_init (mkBmcConfig "imc.lab" "root" "Calvin") None) = "Calvin"
  /\ self_password (IPUBMC_init (mkBmcConfig "imc.lab" "root" "calvin ") None) = "calvin ".
Proof. repeat split; reflexivity. Qed.

(** The polls of a countdown: 60 for the 1200 s of a first boot, 15 for
    the 300 s after a driver reload, 12 for the 240 s after a reboot. *)
Example polls_of_the_countdowns :
  polls_to_expiry 1200 = 60%nat /\ polls_to_expiry 300 = 15%nat
  /\ polls_to_expiry 240 = 12%nat /\ polls_to_expiry 0 = 1%nat.
Proof. repeat split; reflexivity. Qed.

End OnTheCard.

(* ================================================================== *)
(** * Further properties of the program *)

(** ** The liveness monitor on any backend *)

(** Counts the events of a closed list. *)
Ltac count_now :=
  match goal with
  | |- (?c <= _)%nat => let v := eval cbv in c in change c with v
  | |- ?c = _ => let v := eval cbv in c in change c with v
  end; (reflexivity || lia).

Section Liveness.
Context {E : Type} {backend : Backend E}.
Variables (self : IPUClusterNode) (acc : string).

Lemma polls_to_expiry_next timeout :
  0 < timeout - 20 -> polls_to_expiry timeout = S (polls_to_expiry (timeout - 20)).
Proof.
  intros Hpos. unfold polls_to_expiry. f_equal.
  replace (timeout - 1) with ((timeout - 20 - 1) + 1 * 20) by lia.
  rewrite Z.div_add by lia.
  rewrite Z2Nat.inj_add; [|apply Z.div_pos; lia | lia].
  change (Z.to_nat 1) with 1%nat. lia.
Qed.

Lemma ssh_connect_run host login (w : World E) r w' :
  host_ssh_connect host login w = (r, w') ->
  trace w' = trace w ++ [EvSshConnect host login] /\ r <> OutOfFuel.
Proof.
  unfold host_ssh_connect, call_ok, bind, call.
  destruct (ssh_connect _ _ _) as [[|] ?]; simpl;
    intros Heq; injection Heq as <- <-; split; (reflexivity || discriminate).
Qed.

Lemma host_run_run host cmd (w : World E) r w' :
  run host cmd w = (r, w') ->
  trace w' = trace w ++ [EvRun host cmd] /\ r <> OutOfFuel.
Proof.
  unfold run, call_opt, bind, call.
  destruct (host_run _ _ _) as [[?|] ?]; simpl;
    intros Heq; injection Heq as <- <-; split; (reflexivity || discriminate).
Qed.

Lemma escalation_fueled (b : BmcConfig) :
  fueled (host_ssh_connect (bmc_url b) (console_login b);; run (bmc_url b) "reboot").
Proof. fueled_steps. Qed.

(** The loop stops: the countdown runs down in [polls_to_expiry timeout]
    polls, and each of the at most four reboots adds twelve. *)
Lemma wait_acc_fueled fuel : forall timeout failures w,
  0 <= failures <= 4 ->
  (polls_to_expiry timeout + 12 * Z.to_nat (4 - failures) <= fuel)%nat ->
  fst (wait_acc fuel self acc timeout failures w) <> OutOfFuel.
Proof.
  induction fuel as [|fuel IH]; intros timeout failures w Hf Hfuel.
  - unfold polls_to_expiry in Hfuel. lia.
  - rewrite wait_acc_step.
    destruct (host_ping acc (env w)) as [[|] s1]; [simpl; discriminate|].
    destruct (Z.leb_spec (timeout - 20) 0) as [Hdue | Hleft].
    + destruct (Z.eqb_spec (failures + 1) 5) as [|Hmore]; [simpl; discriminate|].
      destruct (bmc (config self)) as [b|]; [|simpl; discriminate].
      unfold bind at 1.
      destruct (host_ssh_connect (bmc_url b) _ _) as [[[] | e |] w3] eqn:Hssh;
        [ | simpl; discriminate
          | destruct (ssh_connect_run _ _ _ _ _ Hssh) as [_ Hne]; congruence ].
      unfold bind at 1.
      destruct (run (bmc_url b) "reboot" w3) as [[r | e |] w4] eqn:Hrun;
        [ | simpl; discriminate
          | destruct (host_run_run _ _ _ _ _ Hrun) as [_ Hne]; congruence ].
      apply IH; [lia|].
      change (polls_to_expiry 240) with 12%nat.
      replace (Z.to_nat (4 - failures)) with (S (Z.to_nat (4 - (failures + 1))))
        in Hfuel by lia.
      unfold polls_to_expiry in Hfuel. lia.
    + apply IH; [exact Hf|].
      rewrite (polls_to_expiry_next timeout) in Hfuel by lia. lia.
Qed.

Lemma confirm_acc_fueled : fueled (confirm_acc acc).
Proof. fueled_steps. Qed.

Lemma wait_for_acc_fueled fuel timeout :
  (polls_to_expiry timeout + 48 <= fuel)%nat ->
  fueled (_wait_for_acc_with_retry fuel self acc timeout).
Proof.
  intros Hfuel w. unfold _wait_for_acc_with_retry.
  pose proof (wait_acc_fueled fuel timeout 0 w ltac:(lia) Hfuel) as Hloop.
  unfold bind at 1.
  destruct (wait_acc fuel self acc timeout 0 w) as [[[] | e |] w1];
    [ | simpl; discriminate | contradiction Hloop; reflexivity ].
  apply confirm_acc_fueled.
Qed.

(** X1.  [_wait_for_acc_with_retry] is a bounded loop on every backend:
    whatever the pings answer and whatever the console does, it returns or
    raises within [polls_to_expiry timeout + 48] turns (108 for the 1200 s
    of a first boot). *)
Theorem wait_for_acc_is_bounded fuel timeout w :
  (polls_to_expiry timeout + 48 <= fuel)%nat ->
  fst (_wait_for_acc_with_retry fuel self acc timeout w) <> OutOfFuel.
Proof. intros Hfuel. apply wait_for_acc_fueled. exact Hfuel. Qed.

(** The reboots of the loop, by the value of the failure counter. *)
Lemma wait_acc_reboots fuel : forall timeout failures w,
  0 <= failures <= 4 ->
  exists evs,
    trace (snd (wait_acc fuel self acc timeout failures w)) = trace w ++ evs
    /\ (count is_reboot evs <= Z.to_nat (4 - failures))%nat.
Proof.
  induction fuel as [|fuel IH]; intros timeout failures w Hf.
  - exists []. simpl. rewrite app_nil_r. split; [reflexivity | unfold count; simpl; lia].
  - rewrite wait_acc_step.
    destruct (host_ping acc (env w)) as [[|] s1].
    + exists [EvPing acc]. split; [reflexivity | unfold count; simpl; lia].
    + set (w1 := mkWorld s1 (trace w ++ [EvPing acc])).
      assert (T2 : trace (slept 20 w1) = trace w ++ [EvPing acc; EvSleep 20])
        by (simpl; rewrite <- app_assoc; reflexivity).
      assert (Hstop : exists evs,
                 trace (slept 20 w1) = trace w ++ evs
                 /\ (count is_reboot evs <= Z.to_nat (4 - failures))%nat).
      { exists [EvPing acc; EvSleep 20]. split; [exact T2 | unfold count; simpl; lia]. }
      destruct (Z.leb_spec (timeout - 20) 0) as [Hdue | Hleft].
      * destruct (Z.eqb_spec (failures + 1) 5) as [|Hmore]; [exact Hstop|].
        destruct (bmc (config self)) as [b|]; [|exact Hstop].
        destruct (host_ssh_connect (bmc_url b)
                    (mkLogin (bmc_user b) (Some (bmc_password b)) None None)
                    (slept 20 w1)) as [[[] | e |] w3] eqn:Hssh;
          destruct (ssh_connect_run _ _ _ _ _ Hssh) as [T3 _]; rewrite T2 in T3;
          [ | erewrite bind_raise by eassumption
            | erewrite bind_out_of_fuel by eassumption ].
        2, 3: eexists; simpl snd;
          (split; [rewrite T3, <- app_assoc; reflexivity|]); count_now.
        erewrite bind_ok by eassumption.
        destruct (run (bmc_url b) "reboot" w3) as [[r | e |] w4] eqn:Hrun;
          destruct (host_run_run _ _ _ _ _ Hrun) as [T4 _];
          [ | erewrite bind_raise by eassumption
            | erewrite bind_out_of_fuel by eassumption ].
        2, 3: eexists; simpl snd;
          (split; [rewrite T4, T3, <- !app_assoc; reflexivity|]); count_now.
        erewrite bind_ok by eassumption.
        destruct (IH 240 (failures + 1) w4 ltac:(lia)) as (evs & T & K).
        exists ([EvPing acc; EvSleep 20]
                ++ [EvSshConnect (bmc_url b)
                      (mkLogin (bmc_user b) (Some (bmc_password b)) None None)]
                ++ [EvRun (bmc_url b) "reboot"] ++ evs).
        split; [rewrite T, T4, T3, <- !app_assoc; reflexivity|].
        rewrite !count_app.
        change (count is_reboot [EvPing acc; EvSleep 20]) with 0%nat.
        change (count is_reboot [EvSshConnect (bmc_url b)
                  (mkLogin (bmc_user b) (Some (bmc_password b)) None None)]) with 0%nat.
        change (count is_reboot [EvRun (bmc_url b) "reboot"]) with 1%nat.
        lia.
      * destruct (IH (timeout - 20) failures (slept 20 w1) Hf) as (evs & T & K).
        exists ([EvPing acc; EvSleep 20] ++ evs).
        split; [|rewrite count_app;
                  change (count is_reboot [EvPing acc; EvSleep 20]) with 0%nat; exact K].
        change (trace (snd (wait_acc fuel self acc (timeout - 20) failures (slept 20 w1)))
                = trace w ++ [EvPing acc; EvSleep 20] ++ evs).
        rewrite T, T2, <- app_assoc. reflexivity.
Qed.

Lemma confirm_acc_no_reboot : emits (fun e => is_reboot e = false) (confirm_acc acc).
Proof. emits_steps; reflexivity. Qed.

(** X2.  On every backend and for every countdown, a run of
    [_wait_for_acc_with_retry] issues at most four [reboot] commands,
    however it ends. *)
Theorem wait_for_acc_reboots_at_most_four fuel timeout w :
  exists evs,
    trace (snd (_wait_for_acc_with_retry fuel self acc timeout w)) = trace w ++ evs
    /\ (count is_reboot evs <= 4)%nat.
Proof.
  unfold _wait_for_acc_with_retry.
  destruct (wait_acc_reboots fuel timeout 0 w ltac:(lia)) as (e1 & T1 & K1).
  change (Z.to_nat (4 - 0)) with 4%nat in K1.
  destruct (wait_acc fuel self acc timeout 0 w) as [[[] | e |] w1] eqn:Hloop;
    simpl in T1;
    [ | erewrite bind_raise by eassumption; exists e1; auto
      | erewrite bind_out_of_fuel by eassumption; exists e1; auto ].
  erewrite bind_ok by eassumption.
  destruct (confirm_acc_no_reboot w1) as (e2 & T2 & F2).
  exists (e1 ++ e2). split; [fold (confirm_acc acc); rewrite T2, T1, <- app_assoc; reflexivity|].
  rewrite count_app, (count_none _ _ F2). lia.
Qed.

(** The loop when the ACC answers the poll number [n + 1], the countdown
    not yet run down. *)
Lemma wait_acc_answered n : forall fuel timeout failures w,
  answers_at acc n (env w) ->
  20 * Z.of_nat n < timeout ->
  (n < fuel)%nat ->
  exists w1,
    wait_acc fuel self acc timeout failures w = (Ok tt, w1)
    /\ trace w1 = trace w ++ rounds n acc ++ [EvPing acc].
Proof.
  induction n as [|n IH]; intros fuel timeout failures w Hans Htime Hfuel;
    (destruct fuel as [|fuel]; [lia|]); rewrite wait_acc_step; simpl in Hans.
  - destruct (host_ping acc (env w)) as [alive s1]. simpl in Hans. subst alive.
    eexists. split; reflexivity.
  - destruct (host_ping acc (env w)) as [alive s1]. simpl in Hans.
    destruct Hans as [-> Hans].
    destruct (Z.leb_spec (timeout - 20) 0) as [Hdue | Hleft]; [lia|].
    destruct (IH fuel (timeout - 20) failures
                 (slept 20 (mkWorld s1 (trace w ++ [EvPing acc]))) Hans
                 ltac:(lia) ltac:(lia)) as (w1 & Hrun & T).
    exists w1. split; [exact Hrun|].
    rewrite T. simpl. rewrite <- !app_assoc. reflexivity.
Qed.

(** X3.  When the ACC answers the poll number [n + 1] before the countdown
    has run down ([20 * n < timeout]), [_wait_for_acc_with_retry] makes
    exactly these [n + 1] polls and no reboot, and goes on to the login on
    the ACC: its outcome is the one of the login and of [uname -a]. *)
Theorem wait_for_acc_answered_in_time n fuel timeout w :
  answers_at acc n (env w) ->
  20 * Z.of_nat n < timeout ->
  (n < fuel)%nat ->
  exists w1 evs,
    trace w1 = trace w ++ rounds n acc ++ [EvPing acc]
    /\ _wait_for_acc_with_retry fuel self acc timeout w = confirm_acc acc w1
    /\ trace (snd (_wait_for_acc_with_retry fuel self acc timeout w)) = trace w ++ evs
    /\ count is_ping evs = S n
    /\ count is_reboot evs = 0%nat.
Proof.
  intros Hans Htime Hfuel.
  destruct (wait_acc_answered n fuel timeout 0 w Hans Htime Hfuel) as (w1 & Hrun & T1).
  destruct (confirm_acc_no_reboot w1) as (e2 & T2 & F2).
  assert (Hwhole : _wait_for_acc_with_retry fuel self acc timeout w = confirm_acc acc w1).
  { unfold _wait_for_acc_with_retry. erewrite bind_ok by eassumption. reflexivity. }
  exists w1, (rounds n acc ++ [EvPing acc] ++ e2).
  split; [exact T1|]. split; [exact Hwhole|]. rewrite Hwhole.
  split; [rewrite T2, T1, <- !app_assoc; reflexivity|].
  assert (Hpings : count is_ping e2 = 0%nat).
  { destruct (emits_run (fun e => is_ping e = false) (confirm_acc acc) w1 _ _
                ltac:(unfold confirm_acc; emits_steps; reflexivity)
                (surjective_pairing _)) as (e2' & T2' & F2').
    rewrite T2 in T2'. apply app_inv_head in T2'. subst e2'.
    apply count_none. exact F2'. }
  split.
  - rewrite !count_app, Hpings.
    assert (Hr : forall k, count is_ping (rounds k acc) = k).
    { induction k as [|k IHk]; [reflexivity|]. simpl. unfold count in *. simpl. auto. }
    rewrite Hr. unfold count at 1. simpl. lia.
  - rewrite !count_app, (count_none _ _ F2).
    assert (Hr : forall k, count is_reboot (rounds k acc) = 0%nat).
    { induction k as [|k IHk]; [reflexivity|]. simpl. unfold count in *. simpl. auto. }
    rewrite Hr. reflexivity.
Qed.

End Liveness.

(* ================================================================== *)
(** ** Hosting a local ISO *)

Section Hosting.
Context {E : Type} {backend : Backend E}.
Variables (fuel : nat) (self : IPUClusterNode) (external_port : string)
          (node : NodeConfig).

Lemma boot_helper_no_hosting address :
  emits (fun e => is_hosting e = false) (boot_helper fuel node address;; ret tt).
Proof.
  unfold boot_helper, boot_iso_with_redfish, _insert_media, _wait_iso_downloaded.
  emits_prog; reflexivity.
Qed.

(** X4.  For a local ISO file, once the HTTP server has started it is
    stopped again, as the last call of [_redfish_boot_ipu], whether the
    boot returned or raised; the outcome is the one of the boot from the
    address [http://<ip>:<port>/<basename>], and the boot itself makes no
    call of the hosting. *)
Theorem local_iso_server_is_stopped iso lh_ip s1 port s2 w :
  is_http_url iso = false ->
  path_exists iso (env w) = true ->
  port_to_ip external_port (env w) = (Some lh_ip, s1) ->
  http_server_start (PyStr.dirname iso) 8000 s1 = (Some port, s2) ->
  fst (_redfish_boot_ipu fuel self external_port node iso w) <> OutOfFuel ->
  let address :=
    ("http://" ++ lh_ip ++ ":" ++ PyStr.py_str port ++ "/" ++ PyStr.basename iso)%string in
  let started :=
    mkWorld s2 (trace w ++ [EvPortToIp external_port;
                            EvServerStart (PyStr.dirname iso) 8000]) in
  exists evs,
    trace (snd (_redfish_boot_ipu fuel self external_port node iso w))
    = trace w ++ [EvPortToIp external_port; EvServerStart (PyStr.dirname iso) 8000]
              ++ evs ++ [EvServerStop]
    /\ Forall (fun e => is_hosting e = false) evs
    /\ fst (_redfish_boot_ipu fuel self external_port node iso w)
       = fst ((boot_helper fuel node address;; ret tt) started).
Proof.
  intros Hlocal Hfile Hip Hstart Hfuel address started.
  assert (Hrun : _redfish_boot_ipu fuel self external_port node iso w
                 = finally (boot_helper fuel node address;; ret tt)
                           (call EvServerStop (fun s => (tt, http_server_stop s)))
                           started).
  { unfold _redfish_boot_ipu. rewrite Hlocal.
    erewrite bind_ok by (unfold exists_path; rewrite Hfile; reflexivity).
    change (negb true) with false. cbv iota.
    erewrite bind_ok by (unfold call_opt, bind, call; rewrite Hip; reflexivity).
    erewrite bind_ok
      by (unfold call_opt, bind, call; simpl env; rewrite Hstart; reflexivity).
    unfold started. simpl trace. rewrite <- app_assoc. reflexivity. }
  rewrite Hrun in Hfuel |- *.
  destruct (boot_helper_no_hosting address started) as (evs & T & F).
  exists evs. unfold finally in *.
  destruct ((boot_helper fuel node address;; ret tt) started) as [[[] | e |] w'];
    simpl in T; [ | | contradiction Hfuel; reflexivity ];
    (split; [|split; [exact F | reflexivity]]);
    unfold bind, call; simpl; rewrite T; unfold started; simpl;
    rewrite <- !app_assoc; reflexivity.
Qed.

(** X5.  A local path that does not exist is refused with [ValueError]
    before any call is made; an ISO given by URL is booted from as it is,
    and no call of the hosting (address look-up, server start, server
    stop) is made. *)
Theorem hosting_only_for_local_files iso w :
  (is_http_url iso = false -> path_exists iso (env w) = false ->
   _redfish_boot_ipu fuel self external_port node iso w
   = (Raise (ValueError ("ISO file " ++ iso ++ " does not exist, exiting")), w))
  /\ (is_http_url iso = true ->
      _redfish_boot_ipu fuel self external_port node iso w
      = (boot_helper fuel node iso;; ret tt) w
      /\ exists evs,
          trace (snd (_redfish_boot_ipu fuel self external_port node iso w))
          = trace w ++ evs
          /\ count is_hosting evs = 0%nat).
Proof.
  split.
  - intros Hlocal Hfile. unfold _redfish_boot_ipu. rewrite Hlocal.
    unfold bind, exists_path. rewrite Hfile. reflexivity.
  - intros Hurl. unfold _redfish_boot_ipu. rewrite Hurl. split; [reflexivity|].
    destruct (boot_helper_no_hosting iso w) as (evs & T & F).
    exists evs. split; [exact T | apply count_none; exact F].
Qed.

End Hosting.

(* ================================================================== *)
(** ** The version gate of [start] and the driver reload of [post_boot] *)

Section StartAndPostBoot.
Context {E : Type} {backend : Backend E}.
Variables (fuel : nat) (self : IPUClusterNode).

Lemma version_looks_only ipu : emits (fun e => looks_only e = true) (version ipu).
Proof. emits_steps; reflexivity. Qed.

(** X6.  The gate of [start] asks the card for its version anew at each
    test: the first answer is compared with ["1.8.0"], a second one with
    ["2.0.0"], and a third one is what the error message quotes.  The boot
    starts when the first answer is ["1.8.0"] or the second is ["2.0.0"];
    otherwise [start] exits, having made no call but GETs, SSH logins and
    file reads. *)
Theorem start_version_gate b iso w :
  bmc (config self) = Some b ->
  let ipu := IPUBMC_init b None in
  (forall w1,
      version ipu w = (Ok "1.8.0"%string, w1) ->
      start fuel self iso w = (_boot_iso fuel self iso;; ret true) w1)
  /\ (forall v1 w1 w2,
         version ipu w = (Ok v1, w1) -> v1 <> "1.8.0"%string ->
         version ipu w1 = (Ok "2.0.0"%string, w2) ->
         start fuel self iso w = (_boot_iso fuel self iso;; ret true) w2)
  /\ (forall v1 v2 v3 w1 w2 w3,
         version ipu w = (Ok v1, w1) -> v1 <> "1.8.0"%string ->
         version ipu w1 = (Ok v2, w2) -> v2 <> "2.0.0"%string ->
         version ipu w2 = (Ok v3, w3) ->
         start fuel self iso w
         = (Raise (SystemExit ("Unexpected version " ++ v3
                               ++ ", should be 1.8.0 or 2.0.0")), w3)
         /\ exists evs, trace w3 = trace w ++ evs
                        /\ Forall (fun e => looks_only e = true) evs).
Proof.
  intros Hb ipu. unfold start. rewrite Hb. fold ipu.
  split; [|split].
  - intros w1 H1. erewrite bind_ok by exact H1. reflexivity.
  - intros v1 w1 w2 H1 Hne H2. erewrite bind_ok by exact H1.
    apply String.eqb_neq in Hne. rewrite Hne.
    erewrite bind_ok by (erewrite bind_ok by exact H2; reflexivity).
    reflexivity.
  - intros v1 v2 v3 w1 w2 w3 H1 Hne1 H2 Hne2 H3. split.
    + erewrite bind_ok by exact H1.
      apply String.eqb_neq in Hne1. rewrite Hne1.
      apply String.eqb_neq in Hne2.
      erewrite bind_ok by (erewrite bind_ok by exact H2; rewrite Hne2; reflexivity).
      simpl negb. cbv iota.
      erewrite bind_raise; [reflexivity|].
      erewrite bind_ok by exact H3. reflexivity.
    + destruct (emits_run _ _ _ _ _ (version_looks_only ipu) H1) as (e1 & T1 & F1).
      destruct (emits_run _ _ _ _ _ (version_looks_only ipu) H2) as (e2 & T2 & F2).
      destruct (emits_run _ _ _ _ _ (version_looks_only ipu) H3) as (e3 & T3 & F3).
      exists (e1 ++ e2 ++ e3).
      split; [rewrite T3, T2, T1, <- !app_assoc; reflexivity|].
      apply Forall_app. split; [exact F1|]. apply Forall_app. split; assumption.
Qed.

(** X7.  [post_boot] reloads the driver before it looks for the ACC: the
    run either stops inside the reload, with no ping made, or has made the
    four calls of the reload in their order and goes on with the check of
    the ACC, which then is given 300 s; without an address of the ACC it
    stops at the assertion, the driver already reloaded. *)
Theorem post_boot_reloads_before_polling ipu_host w :
  dpu_host (config self) = Some ipu_host ->
  (exists e w' evs,
      post_boot fuel self w = (Raise e, w')
      /\ trace w' = trace w ++ evs
      /\ count is_ping evs = 0%nat
      /\ exists k, (k <= 3)%nat /\ evs = firstn (S k) (reload_events ipu_host))
  \/ (exists w4,
         trace w4 = trace w ++ reload_events ipu_host
         /\ post_boot fuel self w
            = match ip (config self) with
              | None => (Raise AssertionError, w4)
              | Some acc => (_wait_for_acc_with_retry fuel self acc 300;; ret true) w4
              end).
Proof.
  intros Hhost. unfold post_boot. rewrite Hhost.
  destruct (host_ssh_connect ipu_host (mkLogin "core" None None None) w)
    as [[[] | e |] w1] eqn:H1;
    destruct (ssh_connect_run _ _ _ _ _ H1) as [T1 Hne1]; [ | | congruence ].
  2: { left. exists e, w1, [EvSshConnect ipu_host (mkLogin "core" None None None)].
       erewrite bind_raise by exact H1.
       repeat split; [exact T1 | exists 0%nat; split; [lia | reflexivity]]. }
  erewrite bind_ok by exact H1.
  destruct (run ipu_host "sudo rmmod idpf" w1) as [[r2 | e |] w2] eqn:H2;
    destruct (host_run_run _ _ _ _ _ H2) as [T2 Hne2]; [ | | congruence ].
  2: { left. exists e, w2, (firstn 2 (reload_events ipu_host)).
       erewrite bind_raise by exact H2.
       repeat split; [rewrite T2, T1, <- app_assoc; reflexivity
                     | exists 1%nat; split; [lia | reflexivity]]. }
  erewrite bind_ok by exact H2.
  erewrite bind_ok by reflexivity.
  destruct (run ipu_host "sudo modprobe idpf" (slept 10 w2)) as [[r4 | e |] w4] eqn:H4;
    destruct (host_run_run _ _ _ _ _ H4) as [T4 Hne4]; [ | | congruence ];
    simpl in T4; rewrite T2, T1, <- !app_assoc in T4; simpl in T4.
  2: { left. exists e, w4, (firstn 4 (reload_events ipu_host)).
       erewrite bind_raise by exact H4.
       repeat split; [exact T4 | exists 3%nat; split; [lia | reflexivity]]. }
  right. exists w4. split; [exact T4|].
  erewrite bind_ok by exact H4.
  destruct (ip (config self)); reflexivity.
Qed.

End StartAndPostBoot.

(* ================================================================== *)
(** ** The upgrade of [ensure_firmware] *)

Section Upgrade.
Context {E : Type} {backend : Backend E}.
Variable self : IPUBMC.

Lemma ensure_firmware_proceeds force version w w1 w2 :
  is_ipu self w = (Ok true, w1) ->
  proceeds self force version w1 w2 ->
  ensure_firmware self force version w = upgrade self version w2.
Proof.
  intros Hipu Hgo. unfold ensure_firmware.
  erewrite bind_ok by exact Hipu.
  erewrite bind_ok by reflexivity.
  unfold proceeds in Hgo. destruct force.
  - subst w2. erewrite bind_ok by reflexivity. reflexivity.
  - erewrite bind_ok by (erewrite bind_ok by exact Hgo; reflexivity).
    reflexivity.
Qed.

Lemma firmware_is_same_no_flash version :
  emits (fun e => is_flash e = false) (firmware_is_same self (self_url self) version).
Proof. emits_steps; reflexivity. Qed.

(** What has been called when the upgrade starts: neither the flash nor a
    cold boot. *)
Lemma proceeds_events force version w w1 w2 :
  is_ipu self w = (Ok true, w1) ->
  proceeds self force version w1 w2 ->
  exists evs, trace w2 = trace w ++ evs /\ Forall (fun e => is_flash e = false) evs.
Proof.
  intros Hipu Hgo.
  destruct (emits_run _ _ _ _ _ (is_ipu_no_flash self) Hipu) as (e1 & T1 & F1).
  unfold proceeds in Hgo. destruct force.
  - subst w2. exists e1. auto.
  - destruct (emits_run _ _ _ _ _ (firmware_is_same_no_flash version) Hgo)
      as (e2 & T2 & F2).
    exists (e1 ++ e2). split; [rewrite T2, T1, <- app_assoc; reflexivity|].
    apply Forall_app. auto.
Qed.

(** X8.  A flash that fails ends [ensure_firmware] with the exit of
    [error_and_exit], right after the flash command: the card is not cold
    booted and the banner is not read again. *)
Theorem failed_flash_is_fatal force version w w1 w2 r s3 :
  is_ipu self w = (Ok true, w1) ->
  proceeds self force version w1 w2 ->
  run_in_container (fw_up_cmd self version) (env w2) = (r, s3) ->
  success r = false ->
  exists evs,
    ensure_firmware self force version w
    = (Raise (SystemExit "Failed to flash new firmware. Error: "),
       mkWorld s3 (trace w ++ evs ++ [EvRunInContainer (fw_up_cmd self version)]))
    /\ count is_flash evs = 0%nat.
Proof.
  intros Hipu Hgo Hflash Hfail.
  destruct (proceeds_events _ _ _ _ _ Hipu Hgo) as (evs & T & F).
  exists evs. split; [|apply count_none; exact F].
  rewrite (ensure_firmware_proceeds _ _ _ _ _ Hipu Hgo).
  unfold upgrade, bind, call. rewrite Hflash, Hfail. simpl.
  rewrite T, <- app_assoc. reflexivity.
Qed.

(** X9.  On a client built without the BMC of the host, an upgrade that
    proceeds flashes the card first and only then stops, at the assertion
    of [cold_boot]: the flash command is the last call made. *)
Theorem upgrade_without_host_bmc_flashes_first force version w w1 w2 r s3 :
  _host_bmc self = None ->
  is_ipu self w = (Ok true, w1) ->
  proceeds self force version w1 w2 ->
  run_in_container (fw_up_cmd self version) (env w2) = (r, s3) ->
  success r = true ->
  exists evs,
    ensure_firmware self force version w
    = (Raise AssertionError,
       mkWorld s3 (trace w ++ evs ++ [EvRunInContainer (fw_up_cmd self version)]))
    /\ count is_flash evs = 0%nat.
Proof.
  intros Hbmc Hipu Hgo Hflash Hok.
  destruct (proceeds_events _ _ _ _ _ Hipu Hgo) as (evs & T & F).
  exists evs. split; [|apply count_none; exact F].
  rewrite (ensure_firmware_proceeds _ _ _ _ _ Hipu Hgo).
  unfold upgrade, bind, call, cold_boot. rewrite Hflash, Hok, Hbmc. simpl.
  rewrite T, <- app_assoc. reflexivity.
Qed.

(** X10.  After a flash that succeeded and the cold boot of the host
    (followed by 20 s of rest), the banner is read once more and decides:
    [ensure_firmware] returns when it contains the version and exits when
    it does not.  The five calls are made in this order. *)
Theorem upgrade_is_verified_by_the_banner
    force version host_bmc w w1 w2 r s3 s4 s5 banner s6 :
  _host_bmc self = Some host_bmc ->
  is_ipu self w = (Ok true, w1) ->
  proceeds self force version w1 w2 ->
  run_in_container (fw_up_cmd self version) (env w2) = (r, s3) ->
  success r = true ->
  bmc_cold_boot host_bmc s3 = (true, s4) ->
  ssh_connect (self_url self) (firmware_login self) (time_sleep 20 s4) = (true, s5) ->
  host_run (self_url self) "cat /etc/issue.net" s5 = (Some banner, s6) ->
  ensure_firmware self force version w
  = (if PyStr.contains version (out banner) then Ok tt
     else Raise (SystemExit "Mev firmware release is not the expected version: "),
     mkWorld s6 (trace w2 ++ [EvRunInContainer (fw_up_cmd self version);
                              EvColdBoot host_bmc;
                              EvSleep 20;
                              EvSshConnect (self_url self) (firmware_login self);
                              EvRun (self_url self) "cat /etc/issue.net"])).
Proof.
  intros Hbmc Hipu Hgo Hflash Hok Hcold Hssh Hcat.
  rewrite (ensure_firmware_proceeds _ _ _ _ _ Hipu Hgo).
  unfold upgrade, bind, call, cold_boot. rewrite Hflash, Hok, Hbmc. simpl.
  unfold call_ok, bind, call, sleep, call. simpl. rewrite Hcold. simpl.
  unfold firmware_is_same, bind, host_ssh_connect, call_ok, bind, call,
    run, call_opt, bind, call.
  fold (firmware_login self). simpl. rewrite Hssh. simpl. rewrite Hcat. simpl.
  rewrite <- !app_assoc. simpl.
  destruct (PyStr.contains version (out banner)); reflexivity.
Qed.

End Upgrade.

(* ================================================================== *)
(** ** The two regular expressions *)







Lemma take_nonspace_no_space s : has_space (PyStr.take_nonspace s) = false.
Proof.
  induction s as [|c s IH]; simpl; [reflexivity|].
  destruct (PyStr.is_space c) eqn:Hc; simpl; [reflexivity|].
  rewrite Hc, IH. reflexivity.
Qed.

Lemma search_issue_version_token contents : forall g,
  Re.search_issue_version contents = Some g ->
  g <> EmptyString /\ has_space g = false.
Proof.
  induction contents as [|c contents IH]; intros g.
  - simpl. intros H. discriminate H.
  - intros H.
    change (Re.search_issue_version (String c contents))
      with (match (if String.prefix "Version: " (String c contents)
                   then match PyStr.take_nonspace
                                (String.substring 9 (String.length (String c contents) - 9)
                                                  (String c contents)) with
                        | EmptyString => None
                        | g => Some g
                        end
                   else None) with
            | Some g => Some g
            | None => Re.search_issue_version contents
            end) in H.
    destruct (String.prefix "Version: " (String c contents)); [|apply IH; exact H].
    pose proof (take_nonspace_no_space
                  (String.substring 9 (String.length (String c contents) - 9)
                                    (String c contents))) as Hno.
    destruct (PyStr.take_nonspace _) as [|d t]; [apply IH; exact H|].
    injection H as <-. split; [discriminate | exact Hno].
Qed.

Lemma rstrip_no_space s : has_space s = false -> PyStr.rstrip s = s.
Proof.
  induction s as [|c s IH]; simpl; [reflexivity|].
  intros H. apply orb_false_iff in H. destruct H as [Hc Hs].
  rewrite (IH Hs). destruct s; [rewrite Hc|]; reflexivity.
Qed.

Lemma strip_no_space s : has_space s = false -> PyStr.strip s = s.
Proof.
  intros H. unfold PyStr.strip.
  assert (Hl : PyStr.lstrip s = s).
  { destruct s as [|c s]; [reflexivity|]. simpl in *.
    apply orb_false_iff in H. destruct H as [-> _]. reflexivity. }
  rewrite Hl. apply rstrip_no_space. exact H.
Qed.

(* ================================================================== *)
(** ** The version probes *)

Section Probes.
Context {E : Type} {backend : Backend E}.
Variable self : IPUBMC.

(** A GET of the client, by what the backend answers. *)
Lemma requests_get_run url w :
  _requests_get self url w
  = (match fst (requests_get url (self_user self) (self_password self) (env w)) with
     | Some response =>
         if is_error_status (status_code response)
         then Raise (SystemExit "Request failed: ")
         else match json_body response with
              | Some d => Ok d
              | None => Raise (SystemExit "Failed to parse JSON: ")
              end
     | None => Raise (SystemExit "Request failed: ")
     end,
     mkWorld (snd (requests_get url (self_user self) (self_password self) (env w)))
             (trace w ++ [EvGet url (self_user self) (self_password self)])).
Proof.
  unfold _requests_get, catch, bind, http_get, call_opt, bind, call,
    raise_for_status, response_json.
  destruct (requests_get url (self_user self) (self_password self) (env w))
    as [[response|] s1]; simpl; [|reflexivity].
  destruct (is_error_status (status_code response)); simpl; [reflexivity|].
  destruct (json_body response); reflexivity.
Qed.

Lemma requests_get_returns_or_exits_aux url w :
  exists r w',
    _requests_get self url w = (r, w')
    /\ trace w' = trace w ++ [EvGet url (self_user self) (self_password self)]
    /\ (forall d, r = Ok d <->
          exists response,
            fst (requests_get url (self_user self) (self_password self) (env w))
            = Some response
            /\ is_error_status (status_code response) = false
            /\ json_body response = Some d)
    /\ ((exists d, r = Ok d) \/ exists msg, r = Raise (SystemExit msg)).
Proof.
  rewrite requests_get_run. eexists _, _. split; [reflexivity|].
  split; [reflexivity|].
  destruct (fst (requests_get url (self_user self) (self_password self) (env w)))
    as [response|].
  - destruct (is_error_status (status_code response)) eqn:Hs.
    + split; [|right; eexists; reflexivity]. intros d. split; [discriminate|].
      intros (r & Hr & Hok & _). injection Hr as <-. congruence.
    + destruct (json_body response) as [d0|] eqn:Hj.
      * split; [|left; eauto]. intros d. split.
        -- intros H. injection H as <-. exists response. auto.
        -- intros (r & Hr & _ & Hd). injection Hr as <-. congruence.
      * split; [|right; eexists; reflexivity]. intros d. split; [discriminate|].
        intros (r & Hr & _ & Hd). injection Hr as <-. congruence.
  - split; [|right; eexists; reflexivity]. intros d. split; [discriminate|].
    intros (r & Hr & _). discriminate Hr.
Qed.

(** X11.  A GET of the client ends in one of two ways only: with the JSON
    body of an answer whose status is no error, or with the exit of
    [error_and_exit], for a request that raised, a status that is an error
    and a body that is no JSON alike; it never raises an exception a caller
    could catch with [except Exception].  Exactly one request is made. *)
Theorem requests_get_returns_or_exits url w :
  exists r w',
    _requests_get self url w = (r, w')
    /\ trace w' = trace w ++ [EvGet url (self_user self) (self_password self)]
    /\ (forall d, r = Ok d <->
          exists response,
            fst (requests_get url (self_user self) (self_password self) (env w))
            = Some response
            /\ is_error_status (status_code response) = false
            /\ json_body response = Some d)
    /\ ((exists d, r = Ok d) \/ exists msg, r = Raise (SystemExit msg)).
Proof. apply requests_get_returns_or_exits_aux. Qed.




Lemma ssh_version_is_a_word_aux w v w' :
  _version_via_ssh self w = (Ok (Some v), w') ->
  v <> EmptyString /\ has_space v = false.
Proof.
  unfold _version_via_ssh, try_except, catch, bind.
  destruct (host_ssh_connect _ _ w) as [[[] | e |] w1]; simpl.
  - destruct (read_file (self_url self) "/etc/issue" w1) as [[contents | e |] w2];
      [ | discriminate | discriminate ].
    destruct (Re.search_issue_version contents) as [g|] eqn:Hg; [|discriminate].
    intros H. injection H as <- _.
    destruct (search_issue_version_token _ _ Hg) as [Hne Hno].
    rewrite (strip_no_space _ Hno). auto.
  - destruct (is_Exception e); simpl; discriminate.
  - discriminate.
Qed.

(** X14.  What [_version_via_ssh] returns from the banner is a word: it
    is not empty and holds no white space.  So [version] never meets an
    empty version on this path. *)
Theorem ssh_version_is_a_word w v w' :
  _version_via_ssh self w = (Ok (Some v), w') ->
  v <> EmptyString /\ has_space v = false.
Proof. apply ssh_version_is_a_word_aux. Qed.

(** X15.  When the probe has answered [False], [is_ipu] and [version]
    agree: [is_ipu] says [True] exactly when [version] returns a version,
    and both leave the same state behind. *)
Theorem is_ipu_agrees_with_version_over_ssh w w1 :
  _redfish_available self (self_url self) w = (Ok false, w1) ->
  forall w2,
    is_ipu self w = (Ok true, w2) <-> exists v, version self w = (Ok v, w2).
Proof.
  intros Hprobe w2. unfold is_ipu, version.
  erewrite !bind_ok by exact Hprobe. cbv iota. unfold bind.
  destruct (_version_via_ssh self w1) as [[[v|] | e |] w3] eqn:Hssh.
  - destruct (ssh_version_is_a_word_aux w1 v w3 Hssh) as [Hne _].
    destruct v as [|c v]; [contradiction Hne; reflexivity|].
    split.
    + intros H. injection H as <-. eexists. reflexivity.
    + intros [v' H]. injection H as _ <-. reflexivity.
  - split; [discriminate | intros [v' H]; discriminate H].
  - split; [discriminate | intros [v' H]; discriminate H].
  - split; [discriminate | intros [v' H]; discriminate H].
Qed.

End Probes.

(* ================================================================== *)
(** ** Requests that change the card, sizes, the marker, file names *)

Section Requests.
Context {E : Type} {backend : Backend E}.
Variable self : IPUBMC.

(** X16.  A POST or a PATCH of the client always returns, with exactly one
    request made, whatever the answer: a request that raised and a status
    that is an error are logged and dropped.  So the InsertMedia POST, the
    manager reset and the two PATCHes of the boot-source override never
    stop the boot. *)
Theorem write_requests_always_return url data w :
  (exists w', _requests_post self url data w = (Ok tt, w')
              /\ env w' = snd (requests_post url data (self_user self)
                                             (self_password self) (env w))
              /\ trace w' = trace w ++ [EvPost url data (self_user self)
                                               (self_password self)])
  /\ (exists w', _requests_patch self url data w = (Ok tt, w')
                 /\ env w' = snd (requests_patch url data (self_user self)
                                                 (self_password self) (env w))
                 /\ trace w' = trace w ++ [EvPatch url data (self_user self)
                                                   (self_password self)]).
Proof.
  split.
  - unfold _requests_post, catch, bind, http_post, call_opt, bind, call,
      raise_for_status.
    destruct (requests_post url data (self_user self) (self_password self) (env w))
      as [[response|] s1]; simpl.
    + destruct (is_error_status (status_code response)); simpl;
        eexists; repeat split.
    + eexists; repeat split.
  - unfold _requests_patch, catch, bind, http_patch, call_opt, bind, call,
      raise_for_status.
    destruct (requests_patch url data (self_user self) (self_password self) (env w))
      as [[response|] s1]; simpl.
    + destruct (is_error_status (status_code response)); simpl;
        eexists; repeat split.
    + eexists; repeat split.
Qed.

End Requests.

Section Sizes.
Context {E : Type} {backend : Backend E}.

Lemma get_file_size_run rsh filename w :
  exists size,
    _get_file_size rsh filename w
    = (Ok size,
       mkWorld (snd (host_run rsh ("du -b " ++ PyStr.shlex_quote filename) (env w)))
               (trace w ++ [EvRun rsh ("du -b " ++ PyStr.shlex_quote filename)]))
    /\ forall n, size = Some n ->
         0 <= n
         /\ exists res tok,
             fst (host_run rsh ("du -b " ++ PyStr.shlex_quote filename) (env w)) = Some res
             /\ returncode res = 0
             /\ PyStr.first_token (out res) = Some tok
             /\ PyStr.py_int tok = Some n.
Proof.
  unfold _get_file_size, try_except, catch, bind, run, call_opt, bind, call.
  destruct (host_run rsh _ (env w)) as [[res|] s1]; simpl;
    [|eexists; split; [reflexivity | discriminate]].
  destruct (Z.eqb_spec (returncode res) 0) as [Hrc | Hrc]; simpl;
    [|eexists; split; [reflexivity | discriminate]].
  destruct (PyStr.first_token (out res)) as [tok|] eqn:Htok; simpl;
    [|eexists; split; [reflexivity | discriminate]].
  destruct (PyStr.py_int tok) as [val|] eqn:Hval; simpl;
    [|eexists; split; [reflexivity | discriminate]].
  destruct (Z.ltb_spec val 0) as [Hneg | Hpos];
    (eexists; split; [reflexivity|]); [discriminate|].
  intros n Hn. injection Hn as <-. split; [exact Hpos|].
  exists res, tok. auto.
Qed.

(** X17.  [_get_file_size] never raises and makes one call, the [du -b]
    of the quoted file name.  A size it reports is never negative, and is
    the integer that the first word of the output of a [du] that returned
    0 reads as; a [du] that failed, an empty output and a word that is no
    integer all give [None]. *)
Theorem get_file_size_reports_a_du_size rsh filename w :
  exists size w',
    _get_file_size rsh filename w = (Ok size, w')
    /\ trace w' = trace w ++ [EvRun rsh ("du -b " ++ PyStr.shlex_quote filename)]
    /\ forall n, size = Some n ->
         0 <= n
         /\ exists res tok,
             fst (host_run rsh ("du -b " ++ PyStr.shlex_quote filename) (env w)) = Some res
             /\ returncode res = 0
             /\ PyStr.first_token (out res) = Some tok
             /\ PyStr.py_int tok = Some n.
Proof.
  destruct (get_file_size_run rsh filename w) as (size & Hrun & Hsize).
  eexists size, _. split; [exact Hrun|]. split; [reflexivity | exact Hsize].
Qed.

Variables (self : IPUBMC) (iso_path : string).


End Sizes.

Section Marker.
Context {E : Type} {backend : Backend E}.
Variables (fuel : nat) (self : IPUBMC) (iso_path : string).

Lemma prelude_no_marker :
  emits (fun e => is_marker_write e = false) (boot_prelude self iso_path).
Proof. emits_steps; reflexivity. Qed.

Lemma media_no_marker imc n :
  emits (fun e => is_marker_write e = false) (boot_media fuel self iso_path imc n).
Proof.
  unfold boot_media, keep_existing, _insert_media, _wait_iso_downloaded.
  emits_prog; reflexivity.
Qed.

Lemma after_marker_no_marker :
  emits (fun e => is_marker_write e = false)
        (_bootsource_override_cd self;;
         _reboot self;;
         sleep (5 * 60);;
         _restart_redfish self;;
         _unset_bootsource_override self).
Proof. emits_steps; reflexivity. Qed.

(** X19.  [boot_iso_with_redfish] writes the marker [/work/url] at most
    once, and exactly when the media phase has returned: the image was
    kept, or it was inserted and the wait for it came back.  A run that
    fails before that (no size, a step of the preparation, the time-out of
    the wait) leaves the marker as it was. *)
Theorem marker_is_written_after_the_media w :
  exists evs,
    trace (snd (boot_iso_with_redfish fuel self iso_path w)) = trace w ++ evs
    /\ (count is_marker_write evs <= 1)%nat
    /\ (count is_marker_write evs = 1%nat
        <-> exists p w1 w2,
            boot_prelude self iso_path w = (Ok p, w1)
            /\ boot_media fuel self iso_path (snd p) (fst p) w1 = (Ok tt, w2)).
Proof.
  rewrite boot_phases.
  destruct (boot_prelude self iso_path w) as [[p | e |] w1] eqn:Hpre;
    destruct (emits_run _ _ _ _ _ prelude_no_marker Hpre) as (e1 & T1 & F1).
  2: { exists e1. erewrite bind_raise by exact Hpre.
       rewrite (count_none _ _ F1). split; [exact T1|]. split; [lia|].
       split; [discriminate | intros (p & w1' & w2 & H & _); discriminate H]. }
  2: { exists e1. erewrite bind_out_of_fuel by exact Hpre.
       rewrite (count_none _ _ F1). split; [exact T1|]. split; [lia|].
       split; [discriminate | intros (p & w1' & w2 & H & _); discriminate H]. }
  erewrite bind_ok by exact Hpre.
  destruct (boot_media fuel self iso_path (snd p) (fst p) w1) as [[[] | e |] w2] eqn:Hmedia;
    destruct (emits_run _ _ _ _ _ (media_no_marker (snd p) (fst p)) Hmedia)
      as (e2 & T2 & F2).
  2: { exists (e1 ++ e2). erewrite bind_raise by exact Hmedia.
       rewrite count_app, (count_none _ _ F1), (count_none _ _ F2).
       split; [simpl; rewrite T2, T1, <- app_assoc; reflexivity|]. split; [lia|].
       split; [discriminate|].
       intros (p' & w1' & w2' & H & H'). injection H as <- <-. rewrite Hmedia in H'.
       discriminate H'. }
  2: { exists (e1 ++ e2). erewrite bind_out_of_fuel by exact Hmedia.
       rewrite count_app, (count_none _ _ F1), (count_none _ _ F2).
       split; [simpl; rewrite T2, T1, <- app_assoc; reflexivity|]. split; [lia|].
       split; [discriminate|].
       intros (p' & w1' & w2' & H & H'). injection H as <- <-. rewrite Hmedia in H'.
       discriminate H'. }
  erewrite bind_ok by exact Hmedia. unfold boot_finish.
  assert (Hwrite : exists r w3,
             write (snd p) imc_url_path iso_path w2 = (r, w3)
             /\ trace w3 = trace w2 ++ [EvWrite (snd p) imc_url_path iso_path]).
  { unfold write, call_ok, bind, call.
    destruct (host_write (snd p) imc_url_path iso_path (env w2)) as [[|] s3];
      eexists _, _; split; reflexivity. }
  destruct Hwrite as (r & w3 & Hwrite & T3).
  assert (Hone : count is_marker_write [EvWrite (snd p) imc_url_path iso_path] = 1%nat)
    by reflexivity.
  assert (Hyes : exists p' w1' w2',
             (Ok p, w1) = (Ok p', w1')
             /\ boot_media fuel self iso_path (snd p') (fst p') w1' = (Ok tt, w2'))
    by (exists p, w1, w2; auto).
  destruct r as [[] | e |].
  - erewrite bind_ok by exact Hwrite.
    match goal with |- context [ ?m w3 ] =>
      destruct (after_marker_no_marker w3) as (e4 & T4 & F4) end.
    exists (e1 ++ e2 ++ [EvWrite (snd p) imc_url_path iso_path] ++ e4).
    split; [rewrite T4, T3, T2, T1, <- !app_assoc; reflexivity|].
    rewrite !count_app, (count_none _ _ F1), (count_none _ _ F2),
      (count_none _ _ F4), Hone.
    split; [lia|]. split; [intros _; exact Hyes | reflexivity].
  - erewrite bind_raise by exact Hwrite.
    exists (e1 ++ e2 ++ [EvWrite (snd p) imc_url_path iso_path]).
    split; [simpl; rewrite T3, T2, T1, <- !app_assoc; reflexivity|].
    rewrite !count_app, (count_none _ _ F1), (count_none _ _ F2), Hone.
    split; [lia|]. split; [intros _; exact Hyes | reflexivity].
  - erewrite bind_out_of_fuel by exact Hwrite.
    exists (e1 ++ e2 ++ [EvWrite (snd p) imc_url_path iso_path]).
    split; [simpl; rewrite T3, T2, T1, <- !app_assoc; reflexivity|].
    rewrite !count_app, (count_none _ _ F1), (count_none _ _ F2), Hone.
    split; [lia|]. split; [intros _; exact Hyes | reflexivity].
Qed.

End Marker.

(* ================================================================== *)
(** ** File names *)

Lemma basename_no_slash p : PyStr.has_slash (PyStr.basename p) = false.
Proof.
  induction p as [|c p IH]; simpl; [reflexivity|].
  destruct (PyStr.has_slash p) eqn:Hp; [exact IH|].
  destruct (PyStr.is_slash c) eqn:Hc; [exact Hp|].
  simpl. rewrite Hc, Hp. reflexivity.
Qed.

Lemma basename_is_the_tail p :
  (PyStr.upto_last_slash p ++ PyStr.basename p)%string = p.
Proof.
  induction p as [|c p IH]; simpl; [reflexivity|].
  destruct (PyStr.has_slash p); simpl; [rewrite IH; reflexivity|].
  destruct (PyStr.is_slash c); reflexivity.
Qed.

Lemma basename_of_directory q : PyStr.basename (q ++ "/") = EmptyString.
Proof.
  induction q as [|c q IH]; simpl; [reflexivity|].
  assert (Hs : PyStr.has_slash (q ++ "/") = true).
  { clear IH. induction q as [|d q IHq]; simpl; [reflexivity|].
    rewrite IHq. apply orb_true_r. }
  rewrite Hs. exact IH.
Qed.

Section FileNames.
Context {E : Type} {backend : Backend E}.

(** X20.  The file name [url_extract_filename] returns holds no slash and
    is the end of the path of the URL, after its last slash; the call
    makes no request and raises nothing but [ValueError].  Only an empty
    path is refused: a path that ends with a slash passes, with an empty
    file name. *)
Theorem url_filename_is_the_last_segment url (w : World E) :
  (forall filename w',
      url_extract_filename url w = (Ok filename, w') ->
      w' = w
      /\ PyStr.has_slash filename = false
      /\ exists parsed,
          urlparse url = Some parsed
          /\ path parsed = (PyStr.upto_last_slash (path parsed) ++ filename)%string)
  /\ (forall e w',
         url_extract_filename url w = (Raise e, w') ->
         w' = w /\ exists msg, e = ValueError msg)
  /\ (forall parsed q,
         urlparse url = Some parsed -> path parsed = (q ++ "/")%string ->
         url_extract_filename url w = (Ok EmptyString, w)).
Proof.
  unfold url_extract_filename. split; [|split].
  - intros filename w'.
    destruct (urlparse url) as [parsed|]; [|discriminate].
    destruct (String.eqb (path parsed) ""); [discriminate|].
    intros H. injection H as <- <-. split; [reflexivity|].
    split; [apply basename_no_slash|].
    exists parsed. split; [reflexivity|]. symmetry. apply basename_is_the_tail.
  - intros e w'.
    destruct (urlparse url) as [parsed|].
    + destruct (String.eqb (path parsed) ""); [|discriminate].
      intros H. injection H as <- <-. split; [reflexivity | eexists; reflexivity].
    + intros H. injection H as <- <-. split; [reflexivity | eexists; reflexivity].
  - intros parsed q -> Hq. rewrite Hq.
    destruct q; simpl String.eqb; cbv iota; rewrite basename_of_directory; reflexivity.
Qed.

End FileNames.

(* ================================================================== *)
(** ** The public operations are bounded *)

Section Bounded.
Context {E : Type} {backend : Backend E}.
Variables (fuel : nat) (self : IPUClusterNode).

(** X21.  With a clock that advances with the sleeps, [start] and
    [post_boot] are bounded on every backend: 360 turns are enough for the
    wait for the media (3600 s, 10 s a turn) and for the wait for the ACC
    (at most 108 polls after a boot, 63 after the driver reload); both
    calls return or raise. *)
Theorem start_and_post_boot_are_bounded iso w :
  clock_advances -> (360 <= fuel)%nat ->
  fst (start fuel self iso w) <> OutOfFuel
  /\ fst (post_boot fuel self w) <> OutOfFuel.
Proof.
  intros Hclock Hfuel.
  assert (Hboot : forall ipu address, fueled (boot_iso_with_redfish fuel ipu address))
    by (intros; apply boot_completes; assumption).
  assert (Hacc : forall acc, fueled (_wait_for_acc_with_retry fuel self acc 1200))
    by (intros; apply wait_for_acc_fueled;
        change (polls_to_expiry 1200) with 60%nat; lia).
  assert (Hacc' : forall acc, fueled (_wait_for_acc_with_retry fuel self acc 300))
    by (intros; apply wait_for_acc_fueled;
        change (polls_to_expiry 300) with 15%nat; lia).
  split.
  - revert w. change (fueled (start fuel self iso)).
    unfold start, _boot_iso, _redfish_boot_ipu, boot_helper.
    repeat first [ apply Hboot | apply Hacc | fueled_step ].
  - revert w. change (fueled (post_boot fuel self)).
    unfold post_boot.
    repeat first [ apply Hacc' | fueled_step ].
Qed.

End Bounded.

(* ================================================================== *)
(** ** The check of the virtual media, the server of a URL *)

Section MediaCheck.
Context {E : Type} {backend : Backend E}.
Variable self : IPUBMC.


End MediaCheck.

Lemma before_colon_no_colon s : has_colon (PyStr.before_colon s) = false.
Proof.
  induction s as [|c s IH]; simpl; [reflexivity|].
  destruct (Ascii.eqb c ":") eqn:Hc; simpl; [reflexivity|].
  rewrite Hc, IH. reflexivity.
Qed.

Lemma before_colon_is_the_head s :
  exists rest,
    s = (PyStr.before_colon s ++ rest)%string
    /\ (rest = EmptyString \/ exists r, rest = String ":" r).
Proof.
  induction s as [|c s IH]; simpl.
  - exists EmptyString. auto.
  - destruct (Ascii.eqb_spec c ":") as [-> | Hne].
    + exists (String ":" s). split; [reflexivity | right; eexists; reflexivity].
    + destruct IH as (rest & Hs & Hrest). exists rest.
      split; [simpl; rewrite <- Hs; reflexivity | exact Hrest].
Qed.

Lemma before_colon_app a b :
  has_colon a = false -> PyStr.before_colon (a ++ String ":" b) = a.
Proof.
  induction a as [|c a IH]; simpl; [reflexivity|].
  intros H. apply orb_false_iff in H. destruct H as [Hc Ha].
  rewrite Hc, (IH Ha). reflexivity.
Qed.

Section Server.
Context {E : Type} {backend : Backend E}.

(** X23.  [extract_server] makes no call and returns what precedes the
    first colon of the network location of the URL: the result holds no
    colon, and the network location is the result alone or the result
    followed by a colon and the rest.  That is the host when the location
    is [host] or [host:port]; for a location with a user and a password it
    is the user. *)
Theorem extract_server_cuts_at_the_first_colon url (w : World E) :
  (forall server w',
      extract_server url w = (Ok server, w') ->
      w' = w
      /\ has_colon server = false
      /\ exists parsed rest,
          urlparse url = Some parsed
          /\ netloc parsed = (server ++ rest)%string
          /\ (rest = EmptyString \/ exists r, rest = String ":" r))
  /\ (forall parsed user rest,
         urlparse url = Some parsed ->
         netloc parsed = (user ++ String ":" rest)%string ->
         has_colon user = false ->
         extract_server url w = (Ok user, w)).
Proof.
  unfold extract_server. split.
  - intros server w'. destruct (urlparse url) as [parsed|]; [|discriminate].
    intros H. injection H as <- <-. split; [reflexivity|].
    split; [apply before_colon_no_colon|].
    destruct (before_colon_is_the_head (netloc parsed)) as (rest & Hs & Hrest).
    exists parsed, rest. auto.
  - intros parsed user rest -> Hnet Huser.
    rewrite Hnet, (before_colon_app _ _ Huser). reflexivity.
Qed.

End Server.

(* ================================================================== *)
(** ** On the benches *)

Section OnTheBenches.
Import Sim.
#[local] Existing Instance Replay.tape_backend.

(** X1, witness: 108 turns for the 1200 s of a first boot, on the card
    whose ACC stays down. *)
Lemma wait_for_acc_is_bounded_witness :
  (polls_to_expiry 1200 + 48 <= 108)%nat
  /\ fst (_wait_for_acc_with_retry 108 node "acc.lab" 1200 (world dead_acc_card))
     <> OutOfFuel.
Proof.
  split; [vm_compute; lia|].
  apply (wait_for_acc_is_bounded node "acc.lab" 108 1200 (world dead_acc_card)).
  vm_compute. lia.
Defined.

(** X3, witness: the ACC that answers the third ping. *)
Lemma wait_for_acc_answered_witness :
  exists w1 evs,
    trace w1 = rounds 2 "acc.lab" ++ [EvPing "acc.lab"]
    /\ _wait_for_acc_with_retry 108 node "acc.lab" 1200 (Replay.world Replay.slow_acc)
       = confirm_acc "acc.lab" w1
    /\ trace (snd (_wait_for_acc_with_retry 108 node "acc.lab" 1200
                     (Replay.world Replay.slow_acc)))
       = evs
    /\ count is_ping evs = 3%nat
    /\ count is_reboot evs = 0%nat.
Proof.
  apply (wait_for_acc_answered_in_time node "acc.lab" 2 108 1200
           (Replay.world Replay.slow_acc)).
  - simpl. auto.
  - lia.
  - lia.
Defined.

(** X4, witness: the boot from [/srv/images/acc.iso], served from
    [/srv/images] on port 8000. *)
Lemma local_iso_witness :
  exists evs,
    trace (snd (_redfish_boot_ipu 360 node "eno1" (config node) Replay.local_iso
                  (Replay.world Replay.tape)))
    = [EvPortToIp "eno1"; EvServerStart "/srv/images" 8000] ++ evs ++ [EvServerStop]
    /\ Forall (fun e => is_hosting e = false) evs
    /\ fst (_redfish_boot_ipu 360 node "eno1" (config node) Replay.local_iso
              (Replay.world Replay.tape))
       = fst ((boot_helper 360 (config node) "http://192.168.122.1:8000/acc.iso";; ret tt)
                (mkWorld Replay.tape
                         [EvPortToIp "eno1"; EvServerStart "/srv/images" 8000])).
Proof.
  apply (local_iso_server_is_stopped 360 node "eno1" (config node) Replay.local_iso
           "192.168.122.1" Replay.tape 8000 Replay.tape (Replay.world Replay.tape)).
  - reflexivity.
  - reflexivity.
  - reflexivity.
  - reflexivity.
  - vm_compute. discriminate.
Defined.

(** X6, witness: a card that reports 2.0.0 to the first question and 1.8.0
    from then on is refused, with 1.8.0 in the message. *)
Lemma start_version_gate_witness :
  exists w3,
    start 360 node iso (Replay.world Replay.changing_release)
    = (Raise (SystemExit "Unexpected version 1.8.0, should be 1.8.0 or 2.0.0"), w3).
Proof.
  pose (w := Replay.world Replay.changing_release).
  pose (w1 := snd (version ipu_bmc w)).
  pose (w2 := snd (version ipu_bmc w1)).
  pose (w3 := snd (version ipu_bmc w2)).
  exists w3.
  refine (proj1 (proj2 (proj2 (start_version_gate 360 node bmc_config iso w eq_refl))
                   "2.0.0"%string "1.8.0"%string "1.8.0"%string w1 w2 w3 _ _ _ _ _)).
  - vm_compute. reflexivity.
  - discriminate.
  - vm_compute. reflexivity.
  - discriminate.
  - vm_compute. reflexivity.
Defined.

(** X7, witness: the node whose host is [host.lab]. *)
Lemma post_boot_witness :
  (exists e w' evs,
      post_boot 108 node (world card) = (Raise e, w')
      /\ trace w' = trace (world card) ++ evs
      /\ count is_ping evs = 0%nat
      /\ exists k, (k <= 3)%nat /\ evs = firstn (S k) (reload_events "host.lab"))
  \/ (exists w4,
         trace w4 = trace (world card) ++ reload_events "host.lab"
         /\ post_boot 108 node (world card)
            = match ip (config node) with
              | None => (Raise AssertionError, w4)
              | Some acc => (_wait_for_acc_with_retry 108 node acc 300;; ret true) w4
              end).
Proof.
  exact (post_boot_reloads_before_polling 108 node "host.lab" (world card) eq_refl).
Defined.

(** X8, witness: a forced upgrade whose flash fails. *)
Lemma failed_flash_witness :
  exists evs,
    ensure_firmware ipu_bmc_with_host true "2.5.0" (Replay.world Replay.failing_flash)
    = (Raise (SystemExit "Failed to flash new firmware. Error: "),
       mkWorld Replay.failing_flash
               (evs ++ [EvRunInContainer (fw_up_cmd ipu_bmc_with_host "2.5.0")]))
    /\ count is_flash evs = 0%nat.
Proof.
  pose (w := Replay.world Replay.failing_flash).
  pose (w1 := snd (is_ipu ipu_bmc_with_host w)).
  apply (failed_flash_is_fatal ipu_bmc_with_host true "2.5.0" w w1 w1
           (Replay.flash Replay.failing_flash) Replay.failing_flash).
  - vm_compute. reflexivity.
  - reflexivity.
  - reflexivity.
  - reflexivity.
Defined.

(** X9, witness: a forced upgrade on the client built without the BMC of
    the host. *)
Lemma upgrade_without_host_bmc_witness :
  exists evs,
    ensure_firmware ipu_bmc true "2.5.0" (world card)
    = (Raise AssertionError,
       mkWorld card (evs ++ [EvRunInContainer (fw_up_cmd ipu_bmc "2.5.0")]))
    /\ count is_flash evs = 0%nat.
Proof.
  pose (w1 := snd (is_ipu ipu_bmc (world card))).
  apply (upgrade_without_host_bmc_flashes_first ipu_bmc true "2.5.0" (world card) w1 w1
           (ok_result EmptyString) card).
  - reflexivity.
  - vm_compute. reflexivity.
  - reflexivity.
  - reflexivity.
  - reflexivity.
Defined.

(** X10, witness: the card reads 2.5.0.117 and 3.0.0 is asked for; the
    banner is the same after the flash, and the upgrade is reported as
    failed. *)
Lemma upgrade_is_verified_witness :
  fst (ensure_firmware ipu_bmc_with_host false "3.0.0" (world card))
  = Raise (SystemExit "Mev firmware release is not the expected version: ").
Proof.
  pose (w1 := snd (is_ipu ipu_bmc_with_host (world card))).
  pose (w2 := snd (firmware_is_same ipu_bmc_with_host "imc.lab" "3.0.0" w1)).
  rewrite (upgrade_is_verified_by_the_banner ipu_bmc_with_host false "3.0.0"
             "host-bmc.lab" (world card) w1 w2
             (ok_result EmptyString) card card
             (time_sleep 20 card) (ok_result "IPU IMC MEV 2.5.0.117")
             (time_sleep 20 card)).
  - reflexivity.
  - reflexivity.
  - vm_compute. reflexivity.
  - vm_compute. reflexivity.
  - reflexivity.
  - reflexivity.
  - reflexivity.
  - reflexivity.
  - reflexivity.
Defined.



(** X14, witness: the banner of the simulated card. *)
Lemma ssh_version_witness :
  fst (_version_via_ssh ipu_bmc (world card)) = Ok (Some "1.8.0"%string)
  /\ "1.8.0"%string <> EmptyString /\ has_space "1.8.0" = false.
Proof.
  split; [vm_compute; reflexivity|].
  apply (ssh_version_is_a_word ipu_bmc (world card) "1.8.0"
           (snd (_version_via_ssh ipu_bmc (world card)))).
  vm_compute. reflexivity.
Defined.

(** X15, witness: the card whose Redfish service is down is an IPU, and
    its version is read from the banner. *)
Lemma is_ipu_over_ssh_witness :
  is_ipu ipu_bmc (world redfish_down_card)
  = (Ok true, snd (version ipu_bmc (world redfish_down_card)))
  /\ fst (version ipu_bmc (world redfish_down_card)) = Ok "1.8.0"%string.
Proof.
  split; [|vm_compute; reflexivity].
  apply (is_ipu_agrees_with_version_over_ssh ipu_bmc (world redfish_down_card)
           (snd (_redfish_available ipu_bmc "imc.lab" (world redfish_down_card)))).
  - vm_compute. reflexivity.
  - exists "1.8.0"%string. vm_compute. reflexivity.
Defined.


(** X21, witness: the simulated card, whose clock advances with the
    sleeps. *)
Lemma start_and_post_boot_witness :
  fst (start 360 node iso (world card)) <> OutOfFuel
  /\ fst (post_boot 360 node (world card)) <> OutOfFuel.
Proof.
  exact (start_and_post_boot_are_bounded 360 node iso (world card)
           card_clock_advances (le_n 360)).
Defined.

(** On the benches: the empty file name of a URL that ends with a slash,
    the refusal of a local path that is not there, and the boot from a
    URL, which needs no hosting. *)
Example directory_url_has_no_file_name :
  fst (url_extract_filename "http://files.lab:8080/images/" (world card))
  = Ok EmptyString.
Proof. reflexivity. Qed.

Example missing_local_iso :
  fst (_redfish_boot_ipu 360 node "eno1" (config node) "/srv/images/acc.iso" (world card))
  = Raise (ValueError "ISO file /srv/images/acc.iso does not exist, exiting").
Proof. reflexivity. Qed.

End OnTheBenches.
